(** * Question retrieval engine: search strategies, query predicate and
      activity ordering.

    Shallow embedding of
      - server/models/schema/question.ts   (virtuals [hasAnswers],
        [mostRecentActivity]; statics [getNewestQuestions],
        [getUnansweredQuestions], [getActiveQuestions]),
      - server/repositories/questionRepository.ts ([getQuestionsByQuery],
        [getQuestionsByOrder], [findQuestionByTitle]),
      - server/strategies/searchStrategy.ts (the three strategies and the
        factory),
      - server/services/questionService.ts ([getQuestions]).

    Dates are their [getTime()] value (milliseconds, an integer); a MongoDB
    collection is the list of its documents in natural order.  A string is
    the sequence of its code units.  The string primitives of the engine
    that are modelled here (the split at a space, the test for a leading
    [[] and a trailing []], the slice that removes them, equality) look at
    characters of the ASCII range only and do not depend on how other
    characters are coded.  Lower-casing does: [String.prototype.toLowerCase]
    is the platform's and is a parameter of the engine. *)

From Stdlib Require Import ZArith List Bool Lia Permutation Sorted.
From Stdlib Require Import Ascii String.
Import ListNotations.

Local Open Scope string_scope.
Local Open Scope list_scope.
Local Open Scope Z_scope.

(* ------------------------------------------------------------------ *)
(** ** JavaScript string primitives used by the parser *)
(* ------------------------------------------------------------------ *)

Module JsString.

(** [s.split(sep)] for a one-character separator.  The result is never
    empty: the empty string splits into one empty piece, and two
    separators in a row leave an empty piece between them. *)
Fixpoint split (sep : ascii) (s : string) : list string :=
  match s with
  | EmptyString => [EmptyString]
  | String c r =>
      if Ascii.eqb c sep then EmptyString :: split sep r
      else match split sep r with
           | [] => [String c EmptyString]
           | t :: ts => String c t :: ts
           end
  end.

(** [s.startsWith(c)] and [s.endsWith(c)] for a one-character argument. *)
Definition startsWith (c : ascii) (s : string) : bool :=
  match s with
  | EmptyString => false
  | String d _ => Ascii.eqb d c
  end.

Fixpoint endsWith (c : ascii) (s : string) : bool :=
  match s with
  | EmptyString => false
  | String d EmptyString => Ascii.eqb d c
  | String _ r => endsWith c r
  end.

(** [s.slice(start, end)]: a negative index counts from the end of the
    string, both indices are clamped to [0 .. length], and an empty range
    gives the empty string. *)
Definition clampIndex (len i : Z) : Z :=
  if i <? 0 then Z.max (len + i) 0 else Z.min i len.

Definition slice (s : string) (start stop : Z) : string :=
  let len := Z.of_nat (String.length s) in
  let from := clampIndex len start in
  let to := clampIndex len stop in
  substring (Z.to_nat from) (Z.to_nat (Z.max (to - from) 0)) s.

(** [arr.includes(x)] on an array of strings. *)
Definition includes (arr : list string) (x : string) : bool :=
  existsb (String.eqb x) arr.

(** [arr.join(sep)] (used only to state the splitting law). *)
Fixpoint join (sep : ascii) (l : list string) : string :=
  match l with
  | [] => EmptyString
  | [t] => t
  | t :: ts => (t ++ String sep (join sep ts))%string
  end.

(** Plain (case-sensitive) substring test, [hay.includes(needle)]. *)
Fixpoint contains (needle hay : string) : bool :=
  (prefix needle hay
   || match hay with
      | EmptyString => false
      | String _ r => contains needle r
      end)%bool.

End JsString.

(* ------------------------------------------------------------------ *)
(** ** Documents *)
(* ------------------------------------------------------------------ *)

(** An ObjectId is represented by its hexadecimal string. *)
Definition ObjectId := string.

(** A timestamp is the [getTime()] value of a [Date]. *)
Definition Time := Z.

Record Tag := mkTag {
  tag_id : ObjectId;
  tag_name : string
}.

Record Answer := mkAnswer {
  ans_id : ObjectId;
  ans_text : string;
  ans_by : string;
  ans_date_time : Time
}.

(** A member of [question.answers] as the virtuals see it: a populated
    answer document, a bare ObjectId (not populated), or a value that is not
    an object ([null]). *)
Inductive AnswerEntry :=
| AnswerDoc (a : Answer)
| AnswerRef (id : ObjectId)
| AnswerNull.

Inductive TagEntry :=
| TagDoc (t : Tag)
| TagRef (id : ObjectId).

(** A question document (IQuestionDocument). *)
Record Question := mkQuestion {
  q_id : ObjectId;
  title : string;
  text : string;
  asked_by : string;
  ask_date_time : Time;
  views : Z;
  answers : list AnswerEntry;
  tags : list TagEntry
}.

(** A question as it is stored in the Question collection: answers and tags
    are arrays of ObjectIds. *)
Record QuestionRow := mkRow {
  row_id : ObjectId;
  row_title : string;
  row_text : string;
  row_asked_by : string;
  row_ask_date_time : Time;
  row_views : Z;
  row_answers : list ObjectId;
  row_tags : list ObjectId
}.

(** The three collections of the database. *)
Record Store := mkStore {
  QuestionColl : list QuestionRow;
  AnswerColl : list Answer;
  TagColl : list Tag
}.

(* ------------------------------------------------------------------ *)
(** ** question.ts: virtual properties *)
(* ------------------------------------------------------------------ *)

(** [hasAnswers]: [this.answers && this.answers.length > 0]. *)
Definition hasAnswers (q : Question) : bool :=
  (0 <? Z.of_nat (List.length (answers q))).

(** The body of the [forEach] of [mostRecentActivity]: the dates pushed for
    one member of [answers]. *)
Definition answerDateOf (q : Question) (e : AnswerEntry) : list Time :=
  match e with
  | AnswerDoc a => [ans_date_time a]
  | AnswerRef _ => [ask_date_time q]
  | AnswerNull => []
  end.

Definition answerDates (q : Question) : list Time :=
  flat_map (answerDateOf q) (answers q).

(** [Math.max(...xs)] on a non-empty array of integers, written with the
    first element as the seed. *)
Definition MathMax (x : Z) (xs : list Z) : Z := fold_left Z.max xs x.

(** [mostRecentActivity]. *)
Definition mostRecentActivity (q : Question) : Time :=
  if negb (hasAnswers q) then ask_date_time q
  else
    match answerDates q with
    | [] => ask_date_time q
    | d :: ds =>
        let latestAnswerDate := MathMax d ds in
        if ask_date_time q <? latestAnswerDate
        then latestAnswerDate else ask_date_time q
    end.

(* ------------------------------------------------------------------ *)
(** ** Array.prototype.sort *)
(* ------------------------------------------------------------------ *)

(** [arr.sort(cmp)] with a comparator returning a number: ECMAScript requires
    the sort to be stable, so an element moves behind another one only when
    the comparator says it must ([cmp a b > 0]).  Written as a stable
    insertion sort. *)
Section JsSort.
Context {A : Type}.
Variable cmp : A -> A -> Z.

Fixpoint sortInsert (x : A) (l : list A) : list A :=
  match l with
  | [] => [x]
  | y :: ys => if cmp x y <=? 0 then x :: y :: ys else y :: sortInsert x ys
  end.

Fixpoint sortBy (l : list A) : list A :=
  match l with
  | [] => []
  | x :: xs => sortInsert x (sortBy xs)
  end.
End JsSort.

(* ------------------------------------------------------------------ *)
(** ** The storage collaborator: Mongoose queries on the collections *)
(* ------------------------------------------------------------------ *)

(** A regular expression object as [new RegExp(source, 'i')] builds it. *)
Record RegExp := mkRegExp {
  source : string;
  ignoreCase : bool
}.

(** The query objects [buildQuery] produces and [getQuestionsByQuery]
    receives: the optional key [tags: {$in: ids}] and the optional key
    [$or: [{title: {$in: res}}, {text: {$in: res}}]]. *)
Record Query := mkQuery {
  q_tags_in : option (list ObjectId);
  q_or_title_text : option (list RegExp)
}.

(** The query [{}]. *)
Definition emptyQuery : Query := mkQuery None None.

(** The filter objects handed to [Question.find]: a query as it is, or a
    query spread into an object that adds the key [answers: {$size: n}]. *)
Record Filter := mkFilter {
  f_query : Query;
  f_answers_size : option nat
}.

(** [find(query)] and [find()] *)
Definition plainFilter (query : Query) : Filter := mkFilter query None.

(** [{...query, answers: {$size: 0}}] *)
Definition withNoAnswers (query : Query) : Filter := mkFilter query (Some 0%nat).

(** A row read from the collection becomes a document whose [answers] and
    [tags] hold the stored ObjectIds. *)
Definition hydrate (r : QuestionRow) : Question :=
  mkQuestion (row_id r) (row_title r) (row_text r) (row_asked_by r)
             (row_ask_date_time r) (row_views r)
             (map AnswerRef (row_answers r)) (map TagRef (row_tags r)).

Definition findTagById (s : Store) (id : ObjectId) : option Tag :=
  find (fun t => String.eqb (tag_id t) id) (TagColl s).

Definition findAnswerById (s : Store) (id : ObjectId) : option Answer :=
  find (fun a => String.eqb (ans_id a) id) (AnswerColl s).

(** [.populate('tags')]: each stored id is replaced by the tag document it
    names; an id that names no document leaves the array. *)
Definition populateTag (s : Store) (e : TagEntry) : list TagEntry :=
  match e with
  | TagDoc t => [TagDoc t]
  | TagRef id => match findTagById s id with
                 | Some t => [TagDoc t]
                 | None => []
                 end
  end.

Definition populateTags (s : Store) (q : Question) : Question :=
  mkQuestion (q_id q) (title q) (text q) (asked_by q) (ask_date_time q)
             (views q) (answers q) (flat_map (populateTag s) (tags q)).

(** [.populate('answers')], likewise. *)
Definition populateAnswer (s : Store) (e : AnswerEntry) : list AnswerEntry :=
  match e with
  | AnswerDoc a => [AnswerDoc a]
  | AnswerRef id => match findAnswerById s id with
                    | Some a => [AnswerDoc a]
                    | None => []
                    end
  | AnswerNull => [AnswerNull]
  end.

Definition populateAnswers (s : Store) (q : Question) : Question :=
  mkQuestion (q_id q) (title q) (text q) (asked_by q) (ask_date_time q)
             (views q) (flat_map (populateAnswer s) (answers q)) (tags q).

(** The answers of a stored question: the documents of the Answer
    collection its [answers] array names, in the order of the array. *)
Definition answersOfRow (s : Store) (r : QuestionRow) : list Answer :=
  flat_map (fun id => match findAnswerById s id with
                      | Some a => [a]
                      | None => []
                      end) (row_answers r).

(** [find(...).populate('tags')] on one row. *)
Definition loadWithTags (s : Store) (r : QuestionRow) : Question :=
  populateTags s (hydrate r).

(** [find(...).populate('tags').populate('answers')] on one row. *)
Definition loadWithTagsAndAnswers (s : Store) (r : QuestionRow) : Question :=
  populateAnswers s (populateTags s (hydrate r)).

(** [.sort({ ask_date_time: -1 })], done by the database on the stored
    rows.  MongoDB leaves the order of rows with equal keys open; the model
    keeps them in natural order. *)
Definition sortByAskDateDesc (rows : list QuestionRow) : list QuestionRow :=
  sortBy (fun a b => row_ask_date_time b - row_ask_date_time a) rows.

(** The comparator of both [active] sorts:
    [dateB.getTime() - dateA.getTime()]. *)
Definition activityCmp (a b : Question) : Z :=
  mostRecentActivity b - mostRecentActivity a.

(** Outcome of a computation that may throw: the only exception raised inside
    the engine is the SyntaxError of [new RegExp(term, 'i')]. *)
Inductive Result (A : Type) :=
| Ok (a : A)
| SyntaxError (pattern : string).
Arguments Ok {A} a.
Arguments SyntaxError {A} pattern.

(** The search strategies (classes implementing [SearchStrategy]). *)
Inductive SearchStrategy :=
| DefaultSearchStrategy
| SpecialSearchStrategy
| RegularSearchStrategy (tagSearchTerms regularSearchTerms : list string).

(** Result of [parseSearchTerms]. *)
Record SearchTerms := mkTerms {
  tagSearchTerms : list string;
  regularSearchTerms : list string
}.

(** [switch (order) { case k: ... }] on an optional string. *)
Definition orderIs (order : option string) (k : string) : bool :=
  match order with
  | Some o => String.eqb o k
  | None => false
  end.

(* ------------------------------------------------------------------ *)
(** ** searchStrategy.ts: the tag-term test and the special-case detector *)
(* ------------------------------------------------------------------ *)

(** [term.startsWith('[') && term.endsWith(']')] of [parseSearchTerms] *)
Definition isTagTerm (term : string) : bool :=
  (JsString.startsWith "[" term && JsString.endsWith "]" term)%bool.

(** [isSpecialSearch] *)
Definition isSpecialSearch (regularTerms tagTerms : list string) : bool :=
  (JsString.includes regularTerms "40"
   && JsString.includes regularTerms "million"
   && JsString.includes regularTerms "documents"
   && JsString.includes tagTerms "javascript")%bool.

(* ------------------------------------------------------------------ *)
(** ** Lower-casing on ASCII strings *)
(* ------------------------------------------------------------------ *)

(** [String.prototype.toLowerCase] on strings whose characters are all of the
    ASCII range: there it moves the letters A..Z (codes 65..90) to a..z and
    keeps every other character.  This is the lower-casing at which the
    engine is run on the examples below, which are ASCII strings; on a
    string with other characters it is not the platform's function. *)
Module AsciiCase.

Definition isUpper (c : ascii) : bool :=
  let n := nat_of_ascii c in (Nat.leb 65 n && Nat.leb n 90)%bool.

Definition lowerChar (c : ascii) : ascii :=
  if isUpper c then ascii_of_nat (nat_of_ascii c + 32) else c.

Fixpoint toLowerCase (s : string) : string :=
  match s with
  | EmptyString => EmptyString
  | String c r => String (lowerChar c) (toLowerCase r)
  end.

(** Some character of the string is one of the letters A..Z. *)
Definition hasUpperAZ (s : string) : bool :=
  existsb isUpper (list_ascii_of_string s).

End AsciiCase.

(* ------------------------------------------------------------------ *)
(** ** A fragment of the regular-expression engine *)
(* ------------------------------------------------------------------ *)

(** Regular expressions whose source is made of ordinary characters and of
    the wildcard [.] only, matched against ASCII strings.  On these patterns
    the constructor succeeds and matching is a search for a position where
    every character of the pattern matches in turn.  A source that uses any
    other syntax character is outside the fragment: [valid] and [test]
    answer [false] for it, which is the engine's answer for the sources of
    that kind in the examples (a lone opening bracket, and c++, which the
    constructor refuses) and not for every such source. *)
Module RegExpFragment.

Definition isSyntaxChar (c : ascii) : bool :=
  existsb (Ascii.eqb c) (list_ascii_of_string "\^$.*+?()[]{}|").

Inductive Atom :=
| Lit (c : ascii)
| AnyChar.

Fixpoint parse (p : string) : option (list Atom) :=
  match p with
  | EmptyString => Some []
  | String c r =>
      if Ascii.eqb c "." then option_map (cons AnyChar) (parse r)
      else if isSyntaxChar c then None
      else option_map (cons (Lit c)) (parse r)
  end.

(** Line feed and carriage return, which [.] does not match. *)
Definition isLineTerminator (c : ascii) : bool :=
  (Ascii.eqb c "010" || Ascii.eqb c "013")%bool.

Definition atomMatches (ic : bool) (a : Atom) (c : ascii) : bool :=
  match a with
  | Lit d => if ic then Ascii.eqb (AsciiCase.lowerChar d) (AsciiCase.lowerChar c)
             else Ascii.eqb d c
  | AnyChar => negb (isLineTerminator c)
  end.

Fixpoint matchHere (ic : bool) (atoms : list Atom) (s : string) : bool :=
  match atoms, s with
  | [], _ => true
  | a :: rest, String c r => (atomMatches ic a c && matchHere ic rest r)%bool
  | _ :: _, EmptyString => false
  end.

Fixpoint search (ic : bool) (atoms : list Atom) (s : string) : bool :=
  (matchHere ic atoms s
   || match s with
      | EmptyString => false
      | String _ r => search ic atoms r
      end)%bool.

Definition valid (p : string) : bool :=
  match parse p with
  | Some _ => true
  | None => false
  end.

Definition test (re : RegExp) (s : string) : bool :=
  match parse (source re) with
  | Some atoms => search (ignoreCase re) atoms s
  | None => false
  end.

End RegExpFragment.

(* ------------------------------------------------------------------ *)
(** ** Definitions that follow the words of the specification *)
(* ------------------------------------------------------------------ *)

Module SpecWords.

(** "case-insensitively contains", on ASCII strings: the lower-cased text
    contains the lower-cased term. *)
Definition containsIgnoringCase (term field : string) : bool :=
  JsString.contains (AsciiCase.toLowerCase term) (AsciiCase.toLowerCase field).

(** The white-space characters of the ASCII range: tab, line feed, vertical
    tab, form feed, carriage return and space. *)
Definition isWhitespace (c : ascii) : bool :=
  let n := nat_of_ascii c in
  ((Nat.leb 9 n && Nat.leb n 13) || Nat.eqb n 32)%bool.

(** "Splits on whitespace into tokens": a token ends at every white-space
    character. *)
Fixpoint splitOnWhitespace (s : string) : list string :=
  match s with
  | EmptyString => [EmptyString]
  | String c r =>
      if isWhitespace c then EmptyString :: splitOnWhitespace r
      else match splitOnWhitespace r with
           | [] => [String c EmptyString]
           | t :: ts => String c t :: ts
           end
  end.

(** The parser of section 4.1, on tokens split at white space, for a
    lower-casing function [lower]. *)
Definition parseOnWhitespace (lower : string -> string) (searchStr : string)
  : SearchTerms :=
  let tokens := splitOnWhitespace searchStr in
  mkTerms
    (map (fun term => lower (JsString.slice term 1 (-1)))
         (filter isTagTerm tokens))
    (map lower (filter (fun term => negb (isTagTerm term)) tokens)).

(** A term "without regular-expression syntax": none of its characters is a
    syntax character of regular expressions. *)
Definition isLiteralTerm (term : string) : bool :=
  forallb (fun c => negb (RegExpFragment.isSyntaxChar c))
          (list_ascii_of_string term).

(** The maximum of a creation timestamp and a list of timestamps. *)
Definition maxTimestamp (own : Time) (others : list Time) : Time :=
  fold_right Z.max own others.

(** "Sorted descending" by an integer key. *)
Definition sortedDescBy {A : Type} (key : A -> Z) (l : list A) : Prop :=
  StronglySorted (fun a b => key b <= key a) l.

(** "Ties kept stable": the elements of [l] with any given key are the
    elements of [l0] with that key, in the order of [l0]. *)
Definition tiesInOrderOf {A : Type} (key : A -> Z) (l0 l : list A) : Prop :=
  forall k, filter (fun x => key x =? k) l = filter (fun x => key x =? k) l0.

End SpecWords.

(* ------------------------------------------------------------------ *)
(** ** A small board, used to run the engine *)
(* ------------------------------------------------------------------ *)

Module Examples.

Definition tagReact : Tag := mkTag "t1" "react".
Definition tagJavascript : Tag := mkTag "t2" "javascript".

Definition answerOld : Answer := mkAnswer "a1" "Use an effect." "ann" 50.
Definition answerRecent : Answer := mkAnswer "a2" "Try a reducer." "bob" 300.

Definition rowHooks : QuestionRow :=
  mkRow "q1" "How to use hooks" "useState question" "carl" 100 0 ["a2"] ["t1"].
Definition rowSorting : QuestionRow :=
  mkRow "q2" "Sorting arrays" "in javascript" "dora" 200 0 [] ["t2"].
Definition rowAbc : QuestionRow :=
  mkRow "q3" "abc" "xyz" "erin" 150 0 ["a1"] [].

Definition board : Store :=
  mkStore [rowHooks; rowSorting; rowAbc]
          [answerOld; answerRecent]
          [tagReact; tagJavascript].

(** A board whose only tag was stored with an upper-case letter. *)
Definition tagMixedCase : Tag := mkTag "t9" "React".

Definition mixedCaseBoard : Store :=
  mkStore [mkRow "q9" "State" "props" "finn" 10 0 [] ["t9"]] [] [tagMixedCase].

(** A board with one question, titled [abc]. *)
Definition wildcardBoard : Store := mkStore [rowAbc] [answerOld] [].

(** The string [a<TAB>b]. *)
Definition tabbed : string := String "a" (String "009" (String "b" EmptyString)).

(** The conversion to plain objects and three titles, to run the engine. *)
Definition plain (q : Question) : Question := q.
Definition title1 : string := "How to use hooks".
Definition title2 : string := "Sorting arrays".
Definition title3 : string := "No such title".

End Examples.

(* ------------------------------------------------------------------ *)
(** ** Arguments and outcomes of the writes *)
(* ------------------------------------------------------------------ *)

(** Errors a Mongoose call rejects with: a document that fails the
    validation of its schema, an identifier that is not an ObjectId. *)
Inductive DbError :=
| ValidationError
| CastError.

(** Outcome of an operation that may reject. *)
Inductive Outcome (A : Type) :=
| Done (a : A)
| Failed (e : DbError).
Arguments Done {A} a.
Arguments Failed {A} e.

(** An entry of the result of [getTagsWithQuestionNumber]. *)
Record TagCount := mkTagCount {
  tc_name : string;
  tc_qcnt : nat
}.

(** The argument of [AnswerRepository.addAnswer]. *)
Record AnswerData := mkAnswerData {
  ad_text : string;
  ad_ans_by : string;
  ad_ans_date_time : string
}.

(** The argument of [QuestionRepository.addQuestion]; the date is a [Date]
    object, [None] when it is invalid. *)
Record QuestionData := mkQuestionData {
  qd_title : string;
  qd_text : string;
  qd_tags : list ObjectId;
  qd_asked_by : string;
  qd_ask_date_time : option Time
}.

(** A member of the [tags] array of the service's [addQuestion]. *)
Record TagInput := mkTagInput { ti_name : string }.

(** The argument of the service's [addQuestion]. *)
Record NewQuestion := mkNewQuestion {
  nq_title : string;
  nq_text : string;
  nq_tags : list TagInput;
  nq_asked_by : string;
  nq_ask_date_time : string
}.


(* ------------------------------------------------------------------ *)
(** ** Sample environment and data, used to run the writes *)
(* ------------------------------------------------------------------ *)

Module Samples.

(** Plain objects: a converted question or a converted answer. *)
Definition Plain : Type := (Question + Answer)%type.
Definition plainQuestion (q : Question) : Plain := inl q.
Definition plainAnswer (a : Answer) : Plain := inr a.

(** A cast that refuses one string. *)
Definition cast (qid : string) : option ObjectId :=
  if String.eqb qid "not-an-id" then None else Some qid.

(** [new Date(str)] on two ISO strings; every other string is taken as an
    invalid date. *)
Definition clock (str : string) : option Time :=
  if String.eqb str "1970-01-01T00:00:00.400Z" then Some 400
  else if String.eqb str "1970-01-01T00:00:00.120Z" then Some 120
  else None.

(** The identifiers generated for new tags. *)
Definition freshTag (i : nat) : ObjectId :=
  match i with
  | O => "n0"
  | S O => "n1"
  | _ => "n9"
  end.

Definition answerNow : AnswerData :=
  mkAnswerData "Try a memo." "gina" "1970-01-01T00:00:00.400Z".

Definition answerNoText : AnswerData :=
  mkAnswerData "" "gina" "1970-01-01T00:00:00.400Z".

Definition questionNow : NewQuestion :=
  mkNewQuestion "Typing props" "How are props typed?"
                [mkTagInput "react"; mkTagInput "typescript"; mkTagInput "react"]
                "hugo" "1970-01-01T00:00:00.400Z".

Definition questionNoTitle : NewQuestion :=
  mkNewQuestion "" "How are props typed?"
                [mkTagInput "react"; mkTagInput "typescript"]
                "hugo" "1970-01-01T00:00:00.400Z".

Definition questionEmptyTag : NewQuestion :=
  mkNewQuestion "Typing props" "How are props typed?"
                [mkTagInput "typescript"; mkTagInput ""]
                "hugo" "1970-01-01T00:00:00.400Z".

(** The row and the board once [questionNow] is added with the identifier
    [q4]. *)
Definition rowTyping : QuestionRow :=
  mkRow "q4" "Typing props" "How are props typed?" "hugo" 400 0 []
        ["t1"; "n0"].


Definition boardWithQuestion : Store :=
  mkStore
    (QuestionColl Examples.board ++ [rowTyping])
    (AnswerColl Examples.board)
    (TagColl Examples.board ++ [mkTag "n0" "typescript"]).

(** The board once [answerNow] is added to the question [q2] with the
    identifier [a3]. *)
Definition answerSaved : Answer := mkAnswer "a3" "Try a memo." "gina" 400.

Definition rowSortingAnswered : QuestionRow :=
  mkRow "q2" "Sorting arrays" "in javascript" "dora" 200 0 ["a3"] ["t2"].

Definition boardWithAnswer : Store :=
  mkStore [Examples.rowHooks; rowSortingAnswered; Examples.rowAbc]
          (AnswerColl Examples.board ++ [answerSaved])
          (TagColl Examples.board).

End Samples.

Section Engine.

#[local] Set Default Proof Using "Type".

(** [String.prototype.toLowerCase], the lower-casing of the platform.
    Nothing is assumed of it: what is proved of the engine holds whatever
    this function is, and a property that needs more of it says so. *)
Variable toLowerCase : string -> string.

(** The regular-expression engine (JavaScript's constructor, MongoDB's
    matcher): whether [new RegExp(p, 'i')] succeeds, and whether a regular
    expression matches somewhere in a string. *)
Variable regExpValid : string -> bool.
Variable regExpTest : RegExp -> string -> bool.

(** [convertToPlainObject] of utils/documentConverter. *)
Variable PlainObject : Type.
Variable convertToPlainObject : Question -> PlainObject.

(** The three titles of data/posts_strings. *)
Variables Q1_DESC Q2_DESC Q3_DESC : string.

(** *** MongoDB filter semantics *)

(** [tags: {$in: ids}] on an array field: some member is one of [ids]. *)
Definition tagsIn (ids : list ObjectId) (r : QuestionRow) : bool :=
  existsb (fun t => JsString.includes ids t) (row_tags r).

(** [field: {$in: res}] with regular expressions: the field matches one
    of them. *)
Definition fieldIn (res : list RegExp) (field : string) : bool :=
  existsb (fun re => regExpTest re field) res.

(** The keys of a filter are joined by a conjunction. *)
Definition matchesQuery (query : Query) (r : QuestionRow) : bool :=
  (match q_tags_in query with
   | None => true
   | Some ids => tagsIn ids r
   end
   && match q_or_title_text query with
      | None => true
      | Some res => fieldIn res (row_title r) || fieldIn res (row_text r)
      end)%bool.

(** [answers: {$size: n}] *)
Definition answersSize (n : nat) (r : QuestionRow) : bool :=
  Nat.eqb (List.length (row_answers r)) n.

Definition matchesFilter (f : Filter) (r : QuestionRow) : bool :=
  (matchesQuery (f_query f) r
   && match f_answers_size f with
      | None => true
      | Some n => answersSize n r
      end)%bool.

(** [Question.find(filter)]: the matching rows in natural order. *)
Definition findQuestions (s : Store) (f : Filter) : list QuestionRow :=
  filter (matchesFilter f) (QuestionColl s).

(** *** question.ts: static methods *)

Definition getNewestQuestions (s : Store) : list Question :=
  map (loadWithTags s)
      (sortByAskDateDesc (findQuestions s (plainFilter emptyQuery))).

Definition getUnansweredQuestions (s : Store) : list Question :=
  map (loadWithTags s)
      (sortByAskDateDesc (findQuestions s (withNoAnswers emptyQuery))).

Definition getActiveQuestions (s : Store) : list Question :=
  let questions :=
    map (loadWithTagsAndAnswers s)
        (findQuestions s (plainFilter emptyQuery)) in
  sortBy activityCmp questions.

(** *** questionRepository.ts *)

(** The value of [rawQuestions] at the end of the [switch] of
    [getQuestionsByQuery]. *)
Definition rawQuestionsByQuery (s : Store) (query : Query)
           (order : option string) : list Question :=
  if orderIs order "active" then
    let allQuestions :=
      map (loadWithTagsAndAnswers s)
          (findQuestions s (plainFilter query)) in
    sortBy activityCmp allQuestions
  else if orderIs order "unanswered" then
    map (loadWithTags s)
        (sortByAskDateDesc (findQuestions s (withNoAnswers query)))
  else
    map (loadWithTags s)
        (sortByAskDateDesc (findQuestions s (plainFilter query))).

Definition getQuestionsByQuery (s : Store) (query : Query)
           (order : option string) : list PlainObject :=
  map convertToPlainObject (rawQuestionsByQuery s query order).

(** The value of [rawQuestions] at the end of the [switch] of
    [getQuestionsByOrder]. *)
Definition rawQuestionsByOrder (s : Store) (order : option string)
  : list Question :=
  if orderIs order "newest" then getNewestQuestions s
  else if orderIs order "unanswered" then getUnansweredQuestions s
  else if orderIs order "active" then getActiveQuestions s
  else getNewestQuestions s.

Definition getQuestionsByOrder (s : Store) (order : option string)
  : list PlainObject :=
  map convertToPlainObject (rawQuestionsByOrder s order).

(** [Question.findOne({ title }).populate('tags')]: the first row, in
    natural order, whose title is exactly [t]; [None] is [null]. *)
Definition findQuestionByTitle (s : Store) (t : string)
  : option PlainObject :=
  match find (fun r => String.eqb (row_title r) t) (QuestionColl s) with
  | None => None
  | Some r => Some (convertToPlainObject (loadWithTags s r))
  end.

(** *** searchStrategy.ts *)

(** [[q3, q2, q1].filter(q => q !== null)] *)
Definition dropNull {B : Type} (l : list (option B)) : list B :=
  flat_map (fun o => match o with Some b => [b] | None => [] end) l.

Definition executeSpecial (s : Store) : list PlainObject :=
  let q3 := findQuestionByTitle s Q3_DESC in
  let q2 := findQuestionByTitle s Q2_DESC in
  let q1 := findQuestionByTitle s Q1_DESC in
  dropNull [q3; q2; q1].

(** [findTagIds]: [Some []] when no tag term was given, [None] (the
    source's [null]) when tag terms were given and no tag has one of these
    names, the ids of the tags found otherwise.
    [Tag.find({ name: { $in: terms } })] compares the stored name with the
    terms as they are. *)
Definition findTagIds (s : Store) (tagTerms : list string)
  : option (list ObjectId) :=
  if Nat.eqb (List.length tagTerms) 0 then Some []
  else
    let matchingTags :=
      filter (fun t => JsString.includes tagTerms (tag_name t)) (TagColl s) in
    if Nat.eqb (List.length matchingTags) 0 then None
    else Some (map tag_id matchingTags).

(** [terms.map(term => new RegExp(term, 'i'))]: the first term that is not
    a regular expression throws. *)
Fixpoint newRegExps (terms : list string) : Result (list RegExp) :=
  match terms with
  | [] => Ok []
  | t :: ts =>
      if regExpValid t then
        match newRegExps ts with
        | Ok res => Ok (mkRegExp t true :: res)
        | SyntaxError p => SyntaxError p
        end
      else SyntaxError t
  end.

(** [buildQuery] *)
Definition buildQuery (tagIds : option (list ObjectId))
           (regularTerms : list string) : Result Query :=
  let tagClause :=
    match tagIds with
    | Some ids => if (0 <? Z.of_nat (List.length ids)) then Some ids else None
    | None => None
    end in
  if (0 <? Z.of_nat (List.length regularTerms)) then
    match newRegExps regularTerms with
    | Ok searchRegex => Ok (mkQuery tagClause (Some searchRegex))
    | SyntaxError p => SyntaxError p
    end
  else Ok (mkQuery tagClause None).

(** [RegularSearchStrategy.execute] *)
Definition executeRegular (s : Store) (tagTerms regularTerms : list string)
           (order : option string) : Result (list PlainObject) :=
  match findTagIds s tagTerms with
  | None => Ok []
  | Some tagIds =>
      match buildQuery (Some tagIds) regularTerms with
      | Ok query => Ok (getQuestionsByQuery s query order)
      | SyntaxError p => SyntaxError p
      end
  end.

(** [strategy.execute(order, search)] *)
Definition execute (s : Store) (strategy : SearchStrategy)
           (order : option string) : Result (list PlainObject) :=
  match strategy with
  | DefaultSearchStrategy => Ok (getQuestionsByOrder s order)
  | SpecialSearchStrategy => Ok (executeSpecial s)
  | RegularSearchStrategy tagTerms regularTerms =>
      executeRegular s tagTerms regularTerms order
  end.

(** [parseSearchTerms] *)
Definition parseSearchTerms (searchStr : string) : SearchTerms :=
  let searchTerms := JsString.split " " searchStr in
  mkTerms
    (map (fun term => toLowerCase (JsString.slice term 1 (-1)))
         (filter isTagTerm searchTerms))
    (map toLowerCase
         (filter (fun term => negb (isTagTerm term)) searchTerms)).

(** [createStrategy]: [!search] holds for an absent search and for the
    empty string. *)
Definition createStrategy (search : option string) : SearchStrategy :=
  match search with
  | None => DefaultSearchStrategy
  | Some "" => DefaultSearchStrategy
  | Some str =>
      let terms := parseSearchTerms str in
      if isSpecialSearch (regularSearchTerms terms) (tagSearchTerms terms)
      then SpecialSearchStrategy
      else RegularSearchStrategy (tagSearchTerms terms)
                                 (regularSearchTerms terms)
  end.

(** *** questionService.ts *)

Definition getQuestions (s : Store) (order search : option string)
  : Result (list PlainObject) :=
  execute s (createStrategy search) order.


(* ------------------------------------------------------------------ *)
(** ** Reads and writes outside the search path *)
(* ------------------------------------------------------------------ *)

(** More of the environment: the cast of a request string to an ObjectId,
    as [findById] does it ([None]: the cast fails); [new Date(str)]
    ([None]: an invalid date); [convertToPlainObject] on an answer
    document. *)
Variable castObjectId : string -> option ObjectId.
Variable parseDate : string -> option Time.
Variable answerToPlainObject : Answer -> PlainObject.

(** The validator [required: true] of a String path refuses the empty
    string. *)
Definition requiredString (v : string) : bool := negb (String.eqb v "").

(** *** answer.ts: static methods *)

(** The comparator [dateB.getTime() - dateA.getTime()] on answers, also the
    order [{ ans_date_time: -1 }]. *)
Definition answerDateCmp (a b : Answer) : Z :=
  ans_date_time b - ans_date_time a.

(** [Answer.find({ _id: { $in: ids } })] *)
Definition findAnswersIn (s : Store) (ids : list ObjectId) : list Answer :=
  filter (fun a => JsString.includes ids (ans_id a)) (AnswerColl s).

(** [getMostRecent] *)
Definition getMostRecent (s : Store) (answerIds : list ObjectId)
  : list Answer :=
  if Nat.eqb (List.length answerIds) 0 then []
  else firstn 1 (sortBy answerDateCmp (findAnswersIn s answerIds)).

(** [getLatestAnswerDate]; [None] is [undefined].  The sorted copy of a
    non-empty array has a first element. *)
Definition getLatestAnswerDate (answerDocs : list Answer) : option Time :=
  if Nat.eqb (List.length answerDocs) 0 then None
  else
    match sortBy answerDateCmp answerDocs with
    | latestAnswer :: _ => Some (ans_date_time latestAnswer)
    | [] => None
    end.

(** *** tags schema: static methods *)

(** [[...new Set(tagNames)]]: the names in order of first occurrence. *)
Fixpoint uniqueInOrder (seen names : list string) : list string :=
  match names with
  | [] => []
  | n :: ns =>
      if JsString.includes seen n then uniqueInOrder seen ns
      else n :: uniqueInOrder (n :: seen) ns
  end.

(** The documents [insertMany] builds for the names, the i-th of them with
    the i-th generated identifier. *)
Fixpoint newTagDocs (fresh : nat -> ObjectId) (i : nat) (names : list string)
  : list Tag :=
  match names with
  | [] => []
  | n :: ns => mkTag (fresh i) n :: newTagDocs fresh (S i) ns
  end.

(** [this.insertMany(names.map(name => ({ name })))]: every document is
    validated first, and nothing is inserted when one of them fails. *)
Definition insertManyTags (fresh : nat -> ObjectId) (s : Store)
           (names : list string) : Store * Outcome (list Tag) :=
  if forallb requiredString names then
    let newTags := newTagDocs fresh 0 names in
    (mkStore (QuestionColl s) (AnswerColl s) (TagColl s ++ newTags),
     Done newTags)
  else (s, Failed ValidationError).

(** The values of [existingTags] and of [newTagNames] in
    [findOrCreateMany]: the stored tags with a requested name, and the
    distinct requested names that none of them carries. *)
Definition existingTagsFor (s : Store) (tagNames : list string) : list Tag :=
  filter (fun t => JsString.includes (uniqueInOrder [] tagNames) (tag_name t))
         (TagColl s).

Definition missingNames (s : Store) (tagNames : list string) : list string :=
  let existingTagNames := map tag_name (existingTagsFor s tagNames) in
  filter (fun name => negb (JsString.includes existingTagNames name))
         (uniqueInOrder [] tagNames).

(** [findOrCreateMany] *)
Definition findOrCreateMany (fresh : nat -> ObjectId) (s : Store)
           (tagNames : list string) : Store * Outcome (list Tag) :=
  let existingTags := existingTagsFor s tagNames in
  let newTagNames := missingNames s tagNames in
  if 0 <? Z.of_nat (List.length newTagNames) then
    match insertManyTags fresh s newTagNames with
    | (s', Done newTags) => (s', Done (existingTags ++ newTags))
    | (s', Failed e) => (s', Failed e)
    end
  else (s, Done existingTags).

(** [validateTags]: [countDocuments({ _id: { $in: tagIds } })] against
    [tagIds.length]. *)
Definition validateTags (s : Store) (tagIds : list ObjectId) : bool :=
  let count :=
    List.length (filter (fun t => JsString.includes tagIds (tag_id t))
                        (TagColl s)) in
  Nat.eqb count (List.length tagIds).

(** *** tagRepository.ts *)

(** [Question.countDocuments({ tags: tag._id })]: the questions whose
    [tags] array holds the identifier. *)
Definition countQuestionsWithTag (s : Store) (id : ObjectId) : nat :=
  List.length (filter (fun r => existsb (String.eqb id) (row_tags r))
                      (QuestionColl s)).

Definition getTagsWithQuestionNumber (s : Store) : list TagCount :=
  map (fun tag => mkTagCount (tag_name tag)
                             (countQuestionsWithTag s (tag_id tag)))
      (TagColl s).

Definition findOrCreateTags (fresh : nat -> ObjectId) (s : Store)
           (tagNames : list string) : Store * Outcome (list ObjectId) :=
  match findOrCreateMany fresh s tagNames with
  | (s', Done foundTags) => (s', Done (map tag_id foundTags))
  | (s', Failed e) => (s', Failed e)
  end.

(** *** question.ts: instance methods and [findByIdAndIncrementViews] *)

(** [save()] of a loaded question writes the changed paths to the first
    row with the document's identifier. *)
Fixpoint updateFirst (id : ObjectId) (f : QuestionRow -> QuestionRow)
         (rows : list QuestionRow) : list QuestionRow :=
  match rows with
  | [] => []
  | r :: rs =>
      if String.eqb (row_id r) id then f r :: rs
      else r :: updateFirst id f rs
  end.

Definition withQuestions (s : Store) (rows : list QuestionRow) : Store :=
  mkStore rows (AnswerColl s) (TagColl s).

Definition setRowViews (v : Z) (r : QuestionRow) : QuestionRow :=
  mkRow (row_id r) (row_title r) (row_text r) (row_asked_by r)
        (row_ask_date_time r) v (row_answers r) (row_tags r).

Definition pushRowAnswer (answerId : ObjectId) (r : QuestionRow)
  : QuestionRow :=
  mkRow (row_id r) (row_title r) (row_text r) (row_asked_by r)
        (row_ask_date_time r) (row_views r)
        (row_answers r ++ [answerId]) (row_tags r).

(** [incrementViews]: [this.views += 1; return this.save()]. *)
Definition incrementViews (s : Store) (q : Question) : Store * Question :=
  let v := views q + 1 in
  (withQuestions s (updateFirst (q_id q) (setRowViews v) (QuestionColl s)),
   mkQuestion (q_id q) (title q) (text q) (asked_by q) (ask_date_time q)
              v (answers q) (tags q)).

(** [addAnswer]: [this.answers.push(answerId); return this.save()]. *)
Definition Question_addAnswer (s : Store) (q : Question)
           (answerId : ObjectId) : Store * Question :=
  (withQuestions s
     (updateFirst (q_id q) (pushRowAnswer answerId) (QuestionColl s)),
   mkQuestion (q_id q) (title q) (text q) (asked_by q) (ask_date_time q)
              (views q) (answers q ++ [AnswerRef answerId]) (tags q)).

(** [Question.findById(qid)] *)
Definition findById (s : Store) (qid : string)
  : Outcome (option QuestionRow) :=
  match castObjectId qid with
  | None => Failed CastError
  | Some id =>
      Done (find (fun r => String.eqb (row_id r) id) (QuestionColl s))
  end.

(** The identifiers among the members of [answers]. *)
Definition answerRefs (q : Question) : list ObjectId :=
  flat_map (fun e => match e with
                     | AnswerRef id => [id]
                     | _ => []
                     end) (answers q).

(** [.populate({ path: 'answers', options: { sort: { ans_date_time: -1 } } })]:
    the array becomes the result of the sorted query for its identifiers. *)
Definition populateAnswersSorted (s : Store) (q : Question) : Question :=
  mkQuestion (q_id q) (title q) (text q) (asked_by q) (ask_date_time q)
             (views q)
             (map AnswerDoc
                  (sortBy answerDateCmp (findAnswersIn s (answerRefs q))))
             (tags q).

Definition findByIdAndIncrementViews (s : Store) (qid : string)
  : Store * Outcome (option Question) :=
  match findById s qid with
  | Failed e => (s, Failed e)
  | Done None => (s, Done None)
  | Done (Some r) =>
      let question := populateAnswersSorted s (populateTags s (hydrate r)) in
      let (s', question') := incrementViews s question in
      (s', Done (Some question'))
  end.

(** *** questionRepository.ts and answerRepository.ts: writes *)

Definition QuestionRepository_getQuestionById (s : Store) (qid : string)
  : Store * Outcome (option PlainObject) :=
  match findByIdAndIncrementViews s qid with
  | (s', Done (Some question)) =>
      (s', Done (Some (convertToPlainObject question)))
  | (s', Done None) => (s', Done None)
  | (s', Failed e) => (s', Failed e)
  end.

(** [new Answer({...}).save()]: the three paths are required, and an invalid
    date is not a value of a Date path. *)
Definition saveNewAnswer (newId : ObjectId) (s : Store)
           (txt author : string) (date : option Time)
  : Store * Outcome Answer :=
  match date with
  | Some d =>
      if (requiredString txt && requiredString author)%bool then
        let savedAnswer := mkAnswer newId txt author d in
        (mkStore (QuestionColl s) (AnswerColl s ++ [savedAnswer]) (TagColl s),
         Done savedAnswer)
      else (s, Failed ValidationError)
  | None => (s, Failed ValidationError)
  end.

(** [AnswerRepository.addAnswer]; [newId] is the identifier generated for
    the new answer. *)
Definition AnswerRepository_addAnswer (newId : ObjectId) (s : Store)
           (qid : string) (answerData : AnswerData)
  : Store * Outcome (option PlainObject) :=
  match saveNewAnswer newId s (ad_text answerData) (ad_ans_by answerData)
                      (parseDate (ad_ans_date_time answerData)) with
  | (s1, Failed e) => (s1, Failed e)
  | (s1, Done savedAnswer) =>
      match findById s1 qid with
      | Failed e => (s1, Failed e)
      | Done None => (s1, Done None)
      | Done (Some r) =>
          let (s2, _) := Question_addAnswer s1 (hydrate r) (ans_id savedAnswer) in
          (s2, Done (Some (answerToPlainObject savedAnswer)))
      end
  end.

(** [QuestionRepository.addQuestion]; [newId] is the identifier generated
    for the new question. *)
Definition QuestionRepository_addQuestion (newId : ObjectId) (s : Store)
           (questionData : QuestionData) : Store * Outcome PlainObject :=
  match qd_ask_date_time questionData with
  | Some d =>
      if (requiredString (qd_title questionData)
          && requiredString (qd_text questionData)
          && requiredString (qd_asked_by questionData))%bool then
        let newQuestion :=
          mkRow newId (qd_title questionData) (qd_text questionData)
                (qd_asked_by questionData) d 0 [] (qd_tags questionData) in
        let s' := withQuestions s (QuestionColl s ++ [newQuestion]) in
        (s', Done (convertToPlainObject (populateTags s' (hydrate newQuestion))))
      else (s, Failed ValidationError)
  | None => (s, Failed ValidationError)
  end.

(** *** questionService.ts, answerService.ts, tagService.ts *)

Definition questionService_addQuestion (freshTag : nat -> ObjectId)
           (newId : ObjectId) (s : Store) (questionData : NewQuestion)
  : Store * Outcome PlainObject :=
  let tagNames := map ti_name (nq_tags questionData) in
  match findOrCreateTags freshTag s tagNames with
  | (s1, Failed e) => (s1, Failed e)
  | (s1, Done createdTagIds) =>
      QuestionRepository_addQuestion newId s1
        (mkQuestionData (nq_title questionData) (nq_text questionData)
                        createdTagIds (nq_asked_by questionData)
                        (parseDate (nq_ask_date_time questionData)))
  end.

Definition questionService_getQuestionById (s : Store) (qid : string)
  : Store * Outcome (option PlainObject) :=
  QuestionRepository_getQuestionById s qid.

Definition answerService_addAnswer (newId : ObjectId) (s : Store)
           (qid : string) (answerData : AnswerData)
  : Store * Outcome (option PlainObject) :=
  AnswerRepository_addAnswer newId s qid answerData.

(** The store after [n] calls of [getQuestionById] with the same
    identifier. *)
Fixpoint fetchTimes (n : nat) (s : Store) (qid : string) : Store :=
  match n with
  | O => s
  | S k => fetchTimes k (fst (QuestionRepository_getQuestionById s qid)) qid
  end.

(** The store once the tags of a new question are found or created, and the
    identifiers [findOrCreateTags] then hands to the repository. *)
Definition tagsReadyStore (freshTag : nat -> ObjectId) (s : Store)
           (names : list string) : Store :=
  mkStore (QuestionColl s) (AnswerColl s)
          (TagColl s ++ newTagDocs freshTag 0 (missingNames s names)).

Definition createdTagIds (freshTag : nat -> ObjectId) (s : Store)
           (names : list string) : list ObjectId :=
  map tag_id (existingTagsFor s names
              ++ newTagDocs freshTag 0 (missingNames s names)).

(** The row the service's [addQuestion] inserts for a date [d]. *)
Definition newQuestionRow (freshTag : nat -> ObjectId) (newId : ObjectId)
           (s : Store) (questionData : NewQuestion) (d : Time) : QuestionRow :=
  mkRow newId (nq_title questionData) (nq_text questionData)
        (nq_asked_by questionData) d 0 []
        (createdTagIds freshTag s (map ti_name (nq_tags questionData))).

(** A question document with its view counter put to zero, to compare
    results up to the view counter. *)
Definition withoutViews (q : Question) : Question :=
  mkQuestion (q_id q) (title q) (text q) (asked_by q) (ask_date_time q)
             0 (answers q) (tags q).


(* ------------------------------------------------------------------ *)
(** ** Facts about the sort *)
(* ------------------------------------------------------------------ *)

Section SortFacts.
Context {A : Type}.
Variable cmp : A -> A -> Z.

Lemma sortInsert_perm (x : A) (l : list A) :
  Permutation (sortInsert cmp x l) (x :: l).
Proof.
  induction l as [|y ys IH]; simpl.
  - apply Permutation_refl.
  - destruct (cmp x y <=? 0).
    + apply Permutation_refl.
    + eapply Permutation_trans; [apply perm_skip, IH | apply perm_swap].
Qed.

Lemma sortBy_perm (l : list A) : Permutation (sortBy cmp l) l.
Proof.
  induction l as [|x xs IH]; simpl.
  - constructor.
  - eapply Permutation_trans; [apply sortInsert_perm | apply perm_skip, IH].
Qed.

End SortFacts.

(** Sorting with the comparator [key b - key a]: descending keys, and
    elements with equal keys are left in their original order. *)
Section SortDescending.
Context {A : Type}.
Variable key : A -> Z.

Lemma sortInsert_desc (x : A) (l : list A) :
  SpecWords.sortedDescBy key l ->
  SpecWords.sortedDescBy key (sortInsert (fun a b => key b - key a) x l).
Proof.
  unfold SpecWords.sortedDescBy.
  induction l as [|y ys IH]; simpl; intros Hs.
  - repeat constructor.
  - inversion Hs as [|? ? Hys Hall]; subst.
    destruct (key y - key x <=? 0) eqn:E.
    + apply Z.leb_le in E.
      constructor; [exact Hs|].
      constructor; [lia|].
      rewrite Forall_forall in *. intros z Hz. specialize (Hall z Hz). lia.
    + apply Z.leb_gt in E.
      constructor; [apply IH; exact Hys|].
      rewrite Forall_forall in *. intros z Hz.
      apply (Permutation_in _ (sortInsert_perm _ x ys)) in Hz.
      destruct Hz as [<-|Hz]; [lia | apply Hall, Hz].
Qed.

Lemma sortBy_desc (l : list A) :
  SpecWords.sortedDescBy key (sortBy (fun a b => key b - key a) l).
Proof.
  induction l as [|x xs IH]; simpl.
  - constructor.
  - apply sortInsert_desc, IH.
Qed.

Lemma sortInsert_ties (x : A) (l : list A) (k : Z) :
  filter (fun y => key y =? k) (sortInsert (fun a b => key b - key a) x l)
  = filter (fun y => key y =? k) (x :: l).
Proof.
  induction l as [|y ys IH]; [reflexivity|].
  simpl sortInsert.
  destruct (key y - key x <=? 0) eqn:E; [reflexivity|].
  apply Z.leb_gt in E.
  change (filter (fun y0 => key y0 =? k) (y :: sortInsert (fun a b => key b - key a) x ys))
    with (if key y =? k
          then y :: filter (fun y0 => key y0 =? k) (sortInsert (fun a b => key b - key a) x ys)
          else filter (fun y0 => key y0 =? k) (sortInsert (fun a b => key b - key a) x ys)).
  rewrite IH. simpl.
  destruct (key y =? k) eqn:Ey, (key x =? k) eqn:Ex; try reflexivity.
  apply Z.eqb_eq in Ey, Ex. lia.
Qed.

Lemma sortBy_ties (l : list A) :
  SpecWords.tiesInOrderOf key l (sortBy (fun a b => key b - key a) l).
Proof.
  intros k. induction l as [|x xs IH]; [reflexivity|].
  simpl sortBy. rewrite sortInsert_ties. simpl. rewrite IH. reflexivity.
Qed.

(** The two properties determine the result: a stable sort can only be
    written in one way. *)
Lemma sorted_with_ties_unique (l1 l2 : list A) :
  SpecWords.sortedDescBy key l1 ->
  SpecWords.sortedDescBy key l2 ->
  (forall k, filter (fun x => key x =? k) l1 = filter (fun x => key x =? k) l2) ->
  l1 = l2.
Proof.
  unfold SpecWords.sortedDescBy.
  revert l2. induction l1 as [|x xs IH]; intros l2 S1 S2 T.
  - destruct l2 as [|y ys]; [reflexivity|].
    specialize (T (key y)). simpl in T. now rewrite Z.eqb_refl in T.
  - destruct l2 as [|y ys].
    + specialize (T (key x)). simpl in T. now rewrite Z.eqb_refl in T.
    + inversion S1 as [|? ? S1' H1]; subst.
      inversion S2 as [|? ? S2' H2]; subst.
      rewrite Forall_forall in H1, H2.
      assert (Hyx : key y <= key x).
      { assert (Hy : In y (filter (fun z => key z =? key y) (x :: xs))).
        { rewrite (T (key y)). simpl. rewrite Z.eqb_refl. now left. }
        apply filter_In in Hy as [[<-|Hy] _]; [lia | now apply H1]. }
      assert (Hxy : key x <= key y).
      { assert (Hx : In x (filter (fun z => key z =? key x) (y :: ys))).
        { rewrite <- (T (key x)). simpl. rewrite Z.eqb_refl. now left. }
        apply filter_In in Hx as [[<-|Hx] _]; [lia | now apply H2]. }
      assert (E : key x = key y) by lia.
      assert (Hhead := T (key x)). simpl in Hhead.
      rewrite <- E, Z.eqb_refl in Hhead. inversion Hhead as [[Exy Htl]].
      subst y. f_equal. apply IH; [assumption | assumption |].
      intros k. specialize (T k). simpl in T.
      destruct (key x =? k); [now inversion T | exact T].
Qed.

Lemma sortBy_unique (l l' : list A) :
  SpecWords.sortedDescBy key l' ->
  SpecWords.tiesInOrderOf key l l' ->
  l' = sortBy (fun a b => key b - key a) l.
Proof.
  intros S T. apply sorted_with_ties_unique; [exact S | apply sortBy_desc |].
  intros k. rewrite (T k). symmetry. apply sortBy_ties.
Qed.

End SortDescending.

(* ------------------------------------------------------------------ *)
(** ** The activity timestamp *)
(* ------------------------------------------------------------------ *)

Lemma MathMax_fold_right (x : Z) (xs : list Z) :
  MathMax x xs = fold_right Z.max x xs.
Proof.
  unfold MathMax. apply fold_symmetric; intros; lia.
Qed.

Lemma fold_max_swap (a b : Z) (ds : list Z) :
  Z.max a (fold_right Z.max b ds) = Z.max b (fold_right Z.max a ds).
Proof. induction ds as [|z zs IH]; simpl; lia. Qed.

Lemma max_with_own (own d : Z) (ds : list Z) :
  (if own <? MathMax d ds then MathMax d ds else own)
  = SpecWords.maxTimestamp own (d :: ds).
Proof.
  unfold SpecWords.maxTimestamp. rewrite MathMax_fold_right. simpl.
  rewrite <- fold_max_swap.
  destruct (own <? fold_right Z.max d ds) eqn:E;
    [apply Z.ltb_lt in E | apply Z.ltb_ge in E]; lia.
Qed.

Lemma answerDates_populated (q : Question) (docs : list Answer) :
  answers q = map AnswerDoc docs ->
  answerDates q = map ans_date_time docs.
Proof.
  unfold answerDates. intros ->.
  induction docs as [|a ds IH]; simpl; [reflexivity|]. now rewrite IH.
Qed.

Lemma mostRecentActivity_populated (q : Question) (docs : list Answer) :
  answers q = map AnswerDoc docs ->
  mostRecentActivity q
  = SpecWords.maxTimestamp (ask_date_time q) (map ans_date_time docs).
Proof.
  intros H. unfold mostRecentActivity, hasAnswers.
  rewrite (answerDates_populated q docs H), H.
  destruct docs as [|a ds]; [reflexivity|].
  simpl negb. cbn [map]. apply max_with_own.
Qed.

Lemma maxTimestamp_is_maximum (own : Time) (others : list Time) :
  let m := SpecWords.maxTimestamp own others in
  own <= m /\ Forall (fun t => t <= m) others /\ (m = own \/ In m others).
Proof.
  unfold SpecWords.maxTimestamp.
  induction others as [|t ts (Hown & Hall & Hin)]; simpl.
  - repeat split; [lia | constructor | now left].
  - repeat split.
    + lia.
    + constructor; [lia|].
      eapply Forall_impl; [|exact Hall]. simpl. intros; lia.
    + destruct (Z.max_spec t (fold_right Z.max own ts)) as [[_ ->]|[_ ->]].
      * destruct Hin as [->|Hin]; [now left | now right; right].
      * right; now left.
Qed.

Lemma answers_loaded (s : Store) (r : QuestionRow) :
  answers (loadWithTagsAndAnswers s r) = map AnswerDoc (answersOfRow s r).
Proof.
  unfold loadWithTagsAndAnswers, answersOfRow. simpl.
  induction (row_answers r) as [|id ids IH]; simpl; [reflexivity|].
  rewrite IH, map_app. f_equal.
  now destruct (findAnswerById s id).
Qed.

Lemma activity_of_loaded (s : Store) (r : QuestionRow) :
  mostRecentActivity (loadWithTagsAndAnswers s r)
  = SpecWords.maxTimestamp (row_ask_date_time r)
      (map ans_date_time (answersOfRow s r)).
Proof.
  apply (mostRecentActivity_populated _ _ (answers_loaded s r)).
Qed.

(** C1.  The activity timestamp of a question whose answers are the
    documents [docs] is the maximum of the question's creation timestamp and
    the creation timestamps of [docs]; with no answers it is the creation
    timestamp; and for a stored question read the way both [active] paths
    read it (answers populated), it is the maximum of the stored creation
    timestamp and the creation timestamps of all its stored answers. *)
Theorem mostRecentActivity_is_max :
  (forall id ttl txt author own v tgs (docs : list Answer),
      mostRecentActivity
        (mkQuestion id ttl txt author own v (map AnswerDoc docs) tgs)
      = SpecWords.maxTimestamp own (map ans_date_time docs))
  /\ (forall id ttl txt author own v tgs,
         mostRecentActivity (mkQuestion id ttl txt author own v [] tgs) = own)
  /\ (forall (s : Store) (r : QuestionRow),
         mostRecentActivity (loadWithTagsAndAnswers s r)
         = SpecWords.maxTimestamp (row_ask_date_time r)
             (map ans_date_time (answersOfRow s r))).
Proof.
  split; [|split].
  - intros. now apply mostRecentActivity_populated.
  - reflexivity.
  - apply activity_of_loaded.
Qed.

(** C8.  The activity timestamp is never earlier than the question's own
    creation timestamp, whatever the members of [answers] are. *)
Theorem mostRecentActivity_ge_created (q : Question) :
  ask_date_time q <= mostRecentActivity q.
Proof.
  unfold mostRecentActivity.
  destruct (negb (hasAnswers q)); [lia|].
  destruct (answerDates q) as [|d ds]; [lia|].
  cbv zeta.
  destruct (ask_date_time q <? MathMax d ds) eqn:E; [|lia].
  apply Z.ltb_lt in E. lia.
Qed.

(* ------------------------------------------------------------------ *)
(** ** The ordering engine *)
(* ------------------------------------------------------------------ *)

Lemma orderIs_true (order : option string) (k : string) :
  orderIs order k = true <-> order = Some k.
Proof.
  destruct order as [o|]; simpl.
  - rewrite String.eqb_eq. split; congruence.
  - split; discriminate.
Qed.

Lemma orderIs_false (order : option string) (k : string) :
  orderIs order k = false <-> order <> Some k.
Proof.
  rewrite <- orderIs_true. destruct (orderIs order k); split; congruence.
Qed.

Lemma sortedDescBy_map {A B : Type} (f : A -> B) (key : B -> Z) (l : list A) :
  SpecWords.sortedDescBy (fun a => key (f a)) l ->
  SpecWords.sortedDescBy key (map f l).
Proof.
  unfold SpecWords.sortedDescBy.
  induction 1 as [|a l Hs IH Hall]; simpl; constructor; [exact IH|].
  rewrite Forall_forall in *. intros b Hb.
  apply in_map_iff in Hb as (a' & <- & Ha'). now apply Hall.
Qed.

Lemma matchesQuery_empty (r : QuestionRow) : matchesQuery emptyQuery r = true.
Proof. reflexivity. Qed.

Lemma matchesFilter_plain (query : Query) (r : QuestionRow) :
  matchesFilter (plainFilter query) r = matchesQuery query r.
Proof. unfold matchesFilter. simpl. apply andb_true_r. Qed.

Lemma findQuestions_plain (s : Store) (query : Query) :
  findQuestions s (plainFilter query)
  = filter (matchesQuery query) (QuestionColl s).
Proof.
  unfold findQuestions. apply filter_ext. apply matchesFilter_plain.
Qed.

Lemma findQuestions_all (s : Store) :
  findQuestions s (plainFilter emptyQuery) = QuestionColl s.
Proof.
  rewrite findQuestions_plain.
  induction (QuestionColl s) as [|r rs IH]; simpl; congruence.
Qed.

Lemma findQuestions_unanswered_all (s : Store) :
  findQuestions s (withNoAnswers emptyQuery)
  = filter (answersSize 0) (QuestionColl s).
Proof. reflexivity. Qed.

(** The rows sorted by the database, once loaded, are a rearrangement of
    the loaded rows in descending order of creation timestamp. *)
Lemma newest_first (s : Store) (rows : list QuestionRow) :
  Permutation (map (loadWithTags s) (sortByAskDateDesc rows))
              (map (loadWithTags s) rows)
  /\ SpecWords.sortedDescBy ask_date_time
       (map (loadWithTags s) (sortByAskDateDesc rows)).
Proof.
  split.
  - apply Permutation_map, sortBy_perm.
  - apply sortedDescBy_map. apply (sortBy_desc row_ask_date_time).
Qed.

(** The in-memory sort of both [active] paths. *)
Lemma most_active_first (l : list Question) :
  Permutation (sortBy activityCmp l) l
  /\ SpecWords.sortedDescBy mostRecentActivity (sortBy activityCmp l)
  /\ SpecWords.tiesInOrderOf mostRecentActivity l (sortBy activityCmp l).
Proof.
  split; [apply sortBy_perm|]. split.
  - apply (sortBy_desc mostRecentActivity).
  - apply (sortBy_ties mostRecentActivity).
Qed.

Lemma rawQuestionsByQuery_active (s : Store) (query : Query) :
  rawQuestionsByQuery s query (Some "active")
  = sortBy activityCmp
      (map (loadWithTagsAndAnswers s)
           (filter (matchesQuery query) (QuestionColl s))).
Proof.
  unfold rawQuestionsByQuery. simpl orderIs. cbv iota zeta.
  now rewrite findQuestions_plain.
Qed.

Lemma rawQuestionsByOrder_active (s : Store) :
  rawQuestionsByOrder s (Some "active")
  = sortBy activityCmp (map (loadWithTagsAndAnswers s) (QuestionColl s)).
Proof.
  unfold rawQuestionsByOrder, getActiveQuestions. simpl orderIs. cbv iota zeta.
  now rewrite findQuestions_all.
Qed.

Lemma rawQuestionsByOrder_newest (s : Store) (order : option string) :
  order <> Some "active" -> order <> Some "unanswered" ->
  rawQuestionsByOrder s order
  = map (loadWithTags s) (sortByAskDateDesc (QuestionColl s)).
Proof.
  intros Ha Hu. unfold rawQuestionsByOrder, getNewestQuestions.
  apply orderIs_false in Ha, Hu. rewrite Ha, Hu.
  rewrite findQuestions_all.
  now destruct (orderIs order "newest").
Qed.

(** C2.  Under the order key [active], [getQuestionsByQuery] takes every row
    matching the query (whatever its number of answers), loads it with its
    answers, and returns these questions in descending order of activity
    timestamp, questions with equal activity timestamps staying in retrieval
    order, the activity timestamp being the maximum of the stored creation
    timestamp and those of the stored answers; with no search,
    [getQuestions] with [active] returns every stored question in that
    order. *)
Theorem active_order_spec (s : Store) (query : Query) :
  let candidates :=
    map (loadWithTagsAndAnswers s)
        (filter (matchesQuery query) (QuestionColl s)) in
  let raw := rawQuestionsByQuery s query (Some "active") in
  let everyQuestion := map (loadWithTagsAndAnswers s) (QuestionColl s) in
  let rawAll := rawQuestionsByOrder s (Some "active") in
  getQuestionsByQuery s query (Some "active") = map convertToPlainObject raw
  /\ Permutation raw candidates
  /\ (forall r, mostRecentActivity (loadWithTagsAndAnswers s r)
                = SpecWords.maxTimestamp (row_ask_date_time r)
                    (map ans_date_time (answersOfRow s r)))
  /\ SpecWords.sortedDescBy mostRecentActivity raw
  /\ SpecWords.tiesInOrderOf mostRecentActivity candidates raw
  /\ getQuestions s (Some "active") None = Ok (map convertToPlainObject rawAll)
  /\ Permutation rawAll everyQuestion
  /\ SpecWords.sortedDescBy mostRecentActivity rawAll
  /\ SpecWords.tiesInOrderOf mostRecentActivity everyQuestion rawAll.
Proof.
  cbv zeta.
  assert (Hraw := rawQuestionsByQuery_active s query).
  assert (Hall := rawQuestionsByOrder_active s).
  rewrite Hraw, Hall.
  destruct (most_active_first
              (map (loadWithTagsAndAnswers s)
                   (filter (matchesQuery query) (QuestionColl s))))
    as (P1 & S1 & T1).
  destruct (most_active_first
              (map (loadWithTagsAndAnswers s) (QuestionColl s)))
    as (P2 & S2 & T2).
  split; [unfold getQuestionsByQuery; now rewrite Hraw|].
  split; [exact P1|]. split; [apply activity_of_loaded|].
  split; [exact S1|]. split; [exact T1|].
  split; [|split; [exact P2|split; [exact S2 | exact T2]]].
  unfold getQuestions, createStrategy, execute, getQuestionsByOrder.
  now rewrite Hall.
Qed.

(** C7.  Under the order key [unanswered] the engine returns exactly the
    questions matching the query that have no answer, newest first; under
    any key other than [active] and [unanswered], and with no key, it
    returns the questions matching the query, newest first.  The same holds
    without a search, where every question matches. *)
Theorem newest_and_unanswered_order_spec (s : Store) (query : Query) :
  (let raw := rawQuestionsByQuery s query (Some "unanswered") in
   getQuestionsByQuery s query (Some "unanswered")
   = map convertToPlainObject raw
   /\ Permutation raw
        (map (loadWithTags s)
             (filter (fun r => matchesQuery query r && answersSize 0 r)%bool
                     (QuestionColl s)))
   /\ SpecWords.sortedDescBy ask_date_time raw)
  /\ (forall order : option string,
         order <> Some "active" -> order <> Some "unanswered" ->
         let raw := rawQuestionsByQuery s query order in
         getQuestionsByQuery s query order = map convertToPlainObject raw
         /\ Permutation raw
              (map (loadWithTags s)
                   (filter (matchesQuery query) (QuestionColl s)))
         /\ SpecWords.sortedDescBy ask_date_time raw)
  /\ (let raw := rawQuestionsByOrder s (Some "unanswered") in
      getQuestionsByOrder s (Some "unanswered") = map convertToPlainObject raw
      /\ Permutation raw
           (map (loadWithTags s) (filter (answersSize 0) (QuestionColl s)))
      /\ SpecWords.sortedDescBy ask_date_time raw)
  /\ (forall order : option string,
         order <> Some "active" -> order <> Some "unanswered" ->
         let raw := rawQuestionsByOrder s order in
         getQuestionsByOrder s order = map convertToPlainObject raw
         /\ Permutation raw (map (loadWithTags s) (QuestionColl s))
         /\ SpecWords.sortedDescBy ask_date_time raw).
Proof.
  split; [|split; [|split]].
  - cbv zeta. split; [reflexivity|].
    unfold rawQuestionsByQuery. simpl orderIs. cbv iota.
    apply (newest_first s (findQuestions s (withNoAnswers query))).
  - intros order Ha Hu. cbv zeta. split; [reflexivity|].
    unfold rawQuestionsByQuery.
    apply orderIs_false in Ha, Hu. rewrite Ha, Hu.
    rewrite findQuestions_plain. apply newest_first.
  - cbv zeta. split; [reflexivity|].
    unfold rawQuestionsByOrder, getUnansweredQuestions. simpl orderIs. cbv iota.
    rewrite findQuestions_unanswered_all. apply newest_first.
  - intros order Ha Hu. cbv zeta. split; [reflexivity|].
    rewrite (rawQuestionsByOrder_newest s order Ha Hu). apply newest_first.
Qed.

(* ------------------------------------------------------------------ *)
(** ** Tag resolution *)
(* ------------------------------------------------------------------ *)

Lemma includes_In (arr : list string) (x : string) :
  JsString.includes arr x = true <-> In x arr.
Proof.
  unfold JsString.includes. rewrite existsb_exists. split.
  - intros (y & Hy & E). apply String.eqb_eq in E. now subst.
  - intros H. exists x. split; [exact H | apply String.eqb_refl].
Qed.

(** The tags [Tag.find({ name: { $in: terms } })] returns. *)
Lemma matching_tags (s : Store) (terms : list string) (t : Tag) :
  In t (filter (fun t => JsString.includes terms (tag_name t)) (TagColl s))
  <-> In t (TagColl s) /\ In (tag_name t) terms.
Proof. rewrite filter_In, includes_In. reflexivity. Qed.

Lemma findTagIds_none (s : Store) (terms : list string) :
  findTagIds s terms = None
  <-> terms <> [] /\ forall t, In t (TagColl s) -> ~ In (tag_name t) terms.
Proof.
  unfold findTagIds.
  destruct terms as [|x xs]; [split; [discriminate | intros [[] _]; reflexivity]|].
  cbn [List.length Nat.eqb].
  remember (filter _ (TagColl s)) as m eqn:Hm.
  destruct m as [|t0 m']; cbn [List.length Nat.eqb].
  - split; [intros _|reflexivity]. split; [discriminate|].
    intros t Ht Hin.
    assert (H : In t []) by (rewrite Hm; apply matching_tags; auto).
    destruct H.
  - split; [discriminate|]. intros [_ H].
    assert (Hin : In t0 (t0 :: m')) by now left.
    rewrite Hm in Hin. apply matching_tags in Hin as [H1 H2].
    destruct (H t0 H1 H2).
Qed.

Lemma findTagIds_some (s : Store) (terms : list string) (t : Tag) :
  In t (TagColl s) -> In (tag_name t) terms ->
  findTagIds s terms
  = Some (map tag_id
              (filter (fun t => JsString.includes terms (tag_name t))
                      (TagColl s))).
Proof.
  intros Ht Hn. unfold findTagIds.
  destruct terms as [|x xs]; [destruct Hn|].
  cbn [List.length Nat.eqb].
  remember (filter _ (TagColl s)) as m eqn:Hm.
  destruct m as [|t0 m']; [|reflexivity].
  assert (H : In t []) by (rewrite Hm; apply matching_tags; auto).
  destruct H.
Qed.

(** C3.  Tag resolution has three outcomes.  With no tag term it answers the
    empty array, and the query built from it has no tag clause, so the search
    goes on unfiltered by tags.  With tag terms none of which is the name of
    a stored tag it answers [null], and the strategy returns the empty list
    whatever the order and the plain terms, and so does [getQuestions] for a
    search string that is not the special one.  With tag terms of which at least
    one names a stored tag it answers the non-empty list of the identifiers
    of exactly the stored tags whose name is among the terms. *)
Theorem tag_resolution_outcomes (s : Store) :
  findTagIds s [] = Some []
  /\ (forall (regularTerms : list string) (order : option string) (query : Query),
         buildQuery (Some []) regularTerms = Ok query ->
         q_tags_in query = None
         /\ executeRegular s [] regularTerms order
            = Ok (getQuestionsByQuery s query order))
  /\ (forall tagTerms : list string,
         tagTerms <> [] ->
         (forall t, In t (TagColl s) -> ~ In (tag_name t) tagTerms) ->
         findTagIds s tagTerms = None
         /\ forall regularTerms order,
              executeRegular s tagTerms regularTerms order = Ok [])
  /\ (forall (str : string) (order : option string),
         let terms := parseSearchTerms str in
         isSpecialSearch (regularSearchTerms terms) (tagSearchTerms terms)
         = false ->
         tagSearchTerms terms <> [] ->
         (forall t, In t (TagColl s) ->
                    ~ In (tag_name t) (tagSearchTerms terms)) ->
         getQuestions s order (Some str) = Ok [])
  /\ (forall (tagTerms : list string) (t : Tag),
         In t (TagColl s) -> In (tag_name t) tagTerms ->
         exists ids,
           findTagIds s tagTerms = Some ids
           /\ ids <> []
           /\ In (tag_id t) ids
           /\ forall id, In id ids <->
                         exists t', In t' (TagColl s)
                                    /\ In (tag_name t') tagTerms
                                    /\ tag_id t' = id).
Proof.
  split; [reflexivity|]. split; [|split; [|split]].
  - intros regularTerms order query Hq. split.
    + unfold buildQuery in Hq. cbn [List.length Z.of_nat Z.ltb Z.compare] in Hq.
      destruct (0 <? Z.of_nat (List.length regularTerms)).
      * destruct (newRegExps regularTerms); inversion Hq; reflexivity.
      * inversion Hq; reflexivity.
    + unfold executeRegular. cbn [findTagIds List.length Nat.eqb].
      now rewrite Hq.
  - intros tagTerms Hne Hnone.
    assert (H : findTagIds s tagTerms = None) by (apply findTagIds_none; auto).
    split; [exact H|]. intros. unfold executeRegular. now rewrite H.
  - intros str order terms Hsp Hne Hnone. subst terms.
    assert (H : findTagIds s (tagSearchTerms (parseSearchTerms str)) = None)
      by (apply findTagIds_none; auto).
    destruct str as [|c r]; [now destruct Hne|].
    unfold getQuestions, createStrategy. rewrite Hsp.
    unfold execute, executeRegular. now rewrite H.
  - intros tagTerms t Ht Hn.
    eexists. split; [apply (findTagIds_some s tagTerms t Ht Hn)|].
    assert (Hin : In (tag_id t)
                     (map tag_id
                          (filter (fun t => JsString.includes tagTerms (tag_name t))
                                  (TagColl s)))).
    { apply in_map. apply matching_tags. auto. }
    split; [intros E; rewrite E in Hin; destruct Hin|].
    split; [exact Hin|].
    intros id. rewrite in_map_iff. split.
    + intros (t' & E & H'). apply matching_tags in H' as [H1 H2]. eauto.
    + intros (t' & H1 & H2 & E). exists t'. split; [exact E|].
      apply matching_tags. auto.
Qed.

(* ------------------------------------------------------------------ *)
(** ** Strategy selection *)
(* ------------------------------------------------------------------ *)

Lemma isSpecialSearch_iff (regularTerms tagTerms : list string) :
  isSpecialSearch regularTerms tagTerms = true
  <-> In "40" regularTerms /\ In "million" regularTerms
      /\ In "documents" regularTerms /\ In "javascript" tagTerms.
Proof.
  unfold isSpecialSearch. rewrite !andb_true_iff, !includes_In.
  split; [intros [[[A B] C] D] | intros (A & B & C & D)]; repeat split; assumption.
Qed.

Lemma dropNull_In {B : Type} (l : list (option B)) (b : B) :
  In b (dropNull l) <-> In (Some b) l.
Proof.
  unfold dropNull. rewrite in_flat_map. split.
  - intros ([x|] & Hx & Hb); simpl in Hb; [|destruct Hb].
    destruct Hb as [<-|[]]. exact Hx.
  - intros H. exists (Some b). split; [exact H | now left].
Qed.

Lemma dropNull_length {B : Type} (l : list (option B)) :
  (List.length (dropNull l) <= List.length l)%nat.
Proof.
  induction l as [|[b|] l IH]; simpl; lia.
Qed.

(** C4.  A search string takes the special path exactly when its parsed
    plain terms contain "40", "million" and "documents" and its parsed tag
    terms contain "javascript" (membership, so in any token order).  On that
    path [getQuestions] returns, whatever the order key, the results of the
    title lookups for the third, the second and the first fixed title, in
    this order, without those that found nothing: at most three questions. *)
Theorem special_search_spec (s : Store) (order : option string) (str : string) :
  let terms := parseSearchTerms str in
  let special :=
    In "40" (regularSearchTerms terms)
    /\ In "million" (regularSearchTerms terms)
    /\ In "documents" (regularSearchTerms terms)
    /\ In "javascript" (tagSearchTerms terms) in
  (isSpecialSearch (regularSearchTerms terms) (tagSearchTerms terms) = true
   <-> special)
  /\ (createStrategy (Some str) = SpecialSearchStrategy <-> special)
  /\ (special ->
      getQuestions s order (Some str)
      = Ok (dropNull [findQuestionByTitle s Q3_DESC;
                      findQuestionByTitle s Q2_DESC;
                      findQuestionByTitle s Q1_DESC]))
  /\ (forall q, In q (executeSpecial s) <->
                In (Some q) [findQuestionByTitle s Q3_DESC;
                             findQuestionByTitle s Q2_DESC;
                             findQuestionByTitle s Q1_DESC])
  /\ (List.length (executeSpecial s) <= 3)%nat
  /\ createStrategy None = DefaultSearchStrategy.
Proof.
  cbv zeta.
  assert (Hiff := isSpecialSearch_iff (regularSearchTerms (parseSearchTerms str))
                                      (tagSearchTerms (parseSearchTerms str))).
  assert (Hstrat : createStrategy (Some str) = SpecialSearchStrategy
                   <-> isSpecialSearch (regularSearchTerms (parseSearchTerms str))
                                       (tagSearchTerms (parseSearchTerms str)) = true).
  { destruct str as [|c r].
    - unfold isSpecialSearch. cbn. rewrite !andb_false_r.
      split; discriminate.
    - unfold createStrategy.
      destruct (isSpecialSearch _ _); split; congruence. }
  split; [exact Hiff|]. split; [now rewrite Hstrat|].
  split; [|split; [|split]].
  - intros Hsp. apply Hiff, Hstrat in Hsp.
    unfold getQuestions. rewrite Hsp. reflexivity.
  - intros q. apply dropNull_In.
  - apply (dropNull_length [findQuestionByTitle s Q3_DESC;
                            findQuestionByTitle s Q2_DESC;
                            findQuestionByTitle s Q1_DESC]).
  - reflexivity.
Qed.

(** C10.  With the empty string as search, [getQuestions] selects the
    default strategy, as it does with no search: the result is that of
    [getQuestionsByOrder] with the requested order key.  No question is
    left out by the search: unless the order key is [unanswered], the
    result holds every stored question. *)
Theorem empty_search_is_default (s : Store) (order : option string) :
  createStrategy (Some "") = DefaultSearchStrategy
  /\ getQuestions s order (Some "") = getQuestions s order None
  /\ getQuestions s order (Some "") = Ok (getQuestionsByOrder s order)
  /\ (order <> Some "unanswered" ->
      exists raw,
        getQuestions s order (Some "") = Ok (map convertToPlainObject raw)
        /\ Permutation (map q_id raw) (map row_id (QuestionColl s))).
Proof.
  split; [reflexivity|]. split; [reflexivity|]. split; [reflexivity|].
  intros Hu. exists (rawQuestionsByOrder s order). split; [reflexivity|].
  destruct (orderIs order "active") eqn:Ha.
  - apply orderIs_true in Ha. subst order.
    rewrite rawQuestionsByOrder_active.
    destruct (most_active_first
                (map (loadWithTagsAndAnswers s) (QuestionColl s))) as (P & _).
    apply (Permutation_map q_id) in P. rewrite (map_map _ q_id) in P. exact P.
  - apply orderIs_false in Ha.
    rewrite (rawQuestionsByOrder_newest s order Ha Hu).
    destruct (newest_first s (QuestionColl s)) as (P & _).
    apply (Permutation_map q_id) in P. rewrite !map_map in P.
    rewrite map_map. exact P.
Qed.

(* ------------------------------------------------------------------ *)
(** ** The search term parser *)
(* ------------------------------------------------------------------ *)

Lemma split_not_nil (sep : ascii) (s : string) : JsString.split sep s <> [].
Proof.
  destruct s as [|c r]; simpl; [discriminate|].
  destruct (Ascii.eqb c sep); [discriminate|].
  destruct (JsString.split sep r); discriminate.
Qed.

Lemma join_cons_char (sep c : ascii) (t : string) (ts : list string) :
  JsString.join sep (String c t :: ts) = String c (JsString.join sep (t :: ts)).
Proof. destruct ts; reflexivity. Qed.

Lemma join_split (sep : ascii) (s : string) :
  JsString.join sep (JsString.split sep s) = s.
Proof.
  induction s as [|c r IH]; [reflexivity|].
  simpl JsString.split.
  destruct (Ascii.eqb_spec c sep) as [->|Hc].
  - destruct (JsString.split sep r) as [|t ts] eqn:E.
    + now apply split_not_nil in E.
    + change (JsString.join sep (EmptyString :: t :: ts))
        with (String sep (JsString.join sep (t :: ts))).
      now rewrite IH.
  - destruct (JsString.split sep r) as [|t ts] eqn:E.
    + now apply split_not_nil in E.
    + rewrite join_cons_char. now rewrite IH.
Qed.

Lemma split_pieces_without_sep (sep : ascii) (s t : string) :
  In t (JsString.split sep s) -> ~ In sep (list_ascii_of_string t).
Proof.
  revert t. induction s as [|c r IH]; intros t; simpl JsString.split.
  - intros [<-|[]]. simpl. intros [].
  - destruct (Ascii.eqb_spec c sep) as [->|Hc].
    + intros [<-|H]; [simpl; intros [] | now apply IH].
    + destruct (JsString.split sep r) as [|u us] eqn:E.
      * intros [<-|[]]. simpl. intros [H|[]]. congruence.
      * intros [<-|H].
        -- simpl. intros [H|H]; [congruence|].
           apply (IH u); [now left | exact H].
        -- apply IH. now right.
Qed.

Lemma endsWith_app (c : ascii) (body : string) :
  JsString.endsWith c (body ++ String c EmptyString)%string = true.
Proof.
  induction body as [|d r IH]; simpl.
  - apply Ascii.eqb_refl.
  - destruct (r ++ String c EmptyString)%string eqn:E; [|exact IH].
    destruct r; discriminate.
Qed.

Lemma endsWith_inv (c : ascii) (s : string) :
  JsString.endsWith c s = true ->
  exists body, s = (body ++ String c EmptyString)%string.
Proof.
  induction s as [|d r IH]; simpl; [discriminate|].
  destruct r as [|e r'].
  - intros H. apply Ascii.eqb_eq in H. subst. now exists EmptyString.
  - intros H. destruct (IH H) as (body & ->). now exists (String d body).
Qed.

Lemma isTagTerm_iff (t : string) :
  isTagTerm t = true <-> exists body, t = String "[" (body ++ "]")%string.
Proof.
  unfold isTagTerm. split.
  - intros H. apply andb_true_iff in H as [Hs He].
    destruct t as [|c r]; [discriminate|]. simpl in Hs.
    apply Ascii.eqb_eq in Hs. subst c.
    destruct r as [|d r']; [discriminate|].
    change (JsString.endsWith "]" (String d r') = true) in He.
    destruct (endsWith_inv _ _ He) as (body & ->). now exists body.
  - intros (body & ->). apply andb_true_iff. split; [reflexivity|].
    assert (H := endsWith_app "]" body).
    simpl. destruct (body ++ "]")%string eqn:E; [|exact H].
    destruct body; discriminate.
Qed.

Lemma length_append (a b : string) :
  String.length (a ++ b) = (String.length a + String.length b)%nat.
Proof. induction a as [|c r IH]; simpl; congruence. Qed.

Lemma substring_front (a b : string) :
  substring 0 (String.length a) (a ++ b) = a.
Proof.
  induction a as [|c r IH]; simpl.
  - now destruct b.
  - now rewrite IH.
Qed.

Lemma slice_brackets (body : string) :
  JsString.slice (String "[" (body ++ "]")) 1 (-1) = body.
Proof.
  unfold JsString.slice, JsString.clampIndex.
  cbn [String.length]. rewrite length_append. cbn [String.length].
  set (n := String.length body).
  replace (1 <? 0) with false by reflexivity.
  replace (-1 <? 0) with true by reflexivity.
  replace (Z.min 1 (Z.of_nat (S (n + 1)))) with 1 by lia.
  replace (Z.max (Z.of_nat (S (n + 1)) + -1) 0) with (Z.of_nat (n + 1)) by lia.
  replace (Z.to_nat (Z.max (Z.of_nat (n + 1) - 1) 0)) with n by lia.
  change (Z.to_nat 1) with 1%nat. cbn [substring].
  apply substring_front.
Qed.

Lemma filter_partition_length {B : Type} (f : B -> bool) (l : list B) :
  (List.length (filter f l) + List.length (filter (fun x => negb (f x)) l)
   = List.length l)%nat.
Proof.
  induction l as [|x xs IH]; simpl; [reflexivity|].
  destruct (f x); simpl; lia.
Qed.

(** C5 (as amended).  The parser cuts the search string at every space
    character and at no other character (joining the tokens with spaces
    gives the string back, and no token holds a space); a token is a tag
    term exactly when it starts with [[] and ends with []], its tag name
    being the lower-cased token without these two brackets; every other
    token, the lone [[] included, is a lower-cased plain term; every token
    is one or the other, and every string is parsed. *)
Theorem parseSearchTerms_spec (str : string) :
  let tokens := JsString.split " " str in
  JsString.join " " tokens = str
  /\ (forall t, In t tokens -> ~ In " "%char (list_ascii_of_string t))
  /\ tagSearchTerms (parseSearchTerms str)
     = map (fun t => toLowerCase (JsString.slice t 1 (-1)))
           (filter isTagTerm tokens)
  /\ regularSearchTerms (parseSearchTerms str)
     = map toLowerCase (filter (fun t => negb (isTagTerm t)) tokens)
  /\ (forall t, isTagTerm t = true
                <-> exists body, t = String "[" (body ++ "]")%string)
  /\ (forall body, JsString.slice (String "[" (body ++ "]")) 1 (-1) = body)
  /\ isTagTerm "[" = false
  /\ (List.length (tagSearchTerms (parseSearchTerms str))
      + List.length (regularSearchTerms (parseSearchTerms str))
      = List.length tokens)%nat.
Proof.
  cbv zeta.
  split; [apply join_split|].
  split; [intros t; apply split_pieces_without_sep|].
  split; [reflexivity|]. split; [reflexivity|].
  split; [apply isTagTerm_iff|].
  split; [apply slice_brackets|].
  split; [reflexivity|].
  unfold parseSearchTerms. cbn [tagSearchTerms regularSearchTerms].
  rewrite !length_map. apply filter_partition_length.
Qed.

(* ------------------------------------------------------------------ *)
(** ** Letter case in tag lookup *)
(* ------------------------------------------------------------------ *)

Lemma lowerChar_not_upper (c : ascii) :
  AsciiCase.isUpper (AsciiCase.lowerChar c) = false.
Proof.
  destruct c as [[] [] [] [] [] [] [] []]; reflexivity.
Qed.

Lemma ascii_toLowerCase_not_upper (str : string) :
  AsciiCase.hasUpperAZ (AsciiCase.toLowerCase str) = false.
Proof.
  unfold AsciiCase.hasUpperAZ.
  induction str as [|c r IH]; simpl; [reflexivity|].
  now rewrite lowerChar_not_upper, IH.
Qed.

Lemma ascii_toLowerCase_fixed (str : string) :
  AsciiCase.hasUpperAZ str = false -> AsciiCase.toLowerCase str = str.
Proof.
  unfold AsciiCase.hasUpperAZ.
  induction str as [|c r IH]; simpl; [reflexivity|].
  intros H. apply orb_false_iff in H as [Hc Hr].
  unfold AsciiCase.lowerChar. now rewrite Hc, (IH Hr).
Qed.

Lemma ascii_toLowerCase_twice (str : string) :
  AsciiCase.toLowerCase (AsciiCase.toLowerCase str)
  = AsciiCase.toLowerCase str.
Proof.
  apply ascii_toLowerCase_fixed, ascii_toLowerCase_not_upper.
Qed.

Lemma tagSearchTerms_lowered (str : string) :
  exists bodies,
    tagSearchTerms (parseSearchTerms str) = map toLowerCase bodies.
Proof.
  exists (map (fun t => JsString.slice t 1 (-1))
              (filter isTagTerm (JsString.split " " str))).
  unfold parseSearchTerms. cbn [tagSearchTerms]. now rewrite map_map.
Qed.

(** C9 (as amended).  Tag lookup is insensitive to the letter case of the
    search term only: it compares the stored name, as it is stored, with the
    lower-cased search terms, whatever function the platform's lower-casing
    is.  For every stored tag whose name is stored in lower-case form
    (lower-casing leaves it unchanged), a search tag term whose lower-cased
    form names that tag resolves to the tag's identifier; every identifier
    that is resolved belongs to a stored tag whose name is the lower-cased
    form of one of the terms; a name among the tag terms of a search string
    is the lower-cased form of some string; and, lower-casing leaving
    lower-cased strings unchanged, a tag stored under a name that
    lower-casing changes (a name with an upper-case letter) is among the
    tag terms of no search string. *)
Theorem tag_lookup_exact_on_lowered_term (s : Store) :
  (forall (t : Tag) (term : string),
      In t (TagColl s) ->
      toLowerCase (tag_name t) = tag_name t ->
      toLowerCase term = toLowerCase (tag_name t) ->
      exists ids,
        findTagIds s [toLowerCase term] = Some ids
        /\ In (tag_id t) ids)
  /\ (forall (terms : list string) (ids : list ObjectId) (id : ObjectId),
         findTagIds s (map toLowerCase terms) = Some ids ->
         In id ids ->
         exists t term, In t (TagColl s) /\ tag_id t = id
                        /\ In term terms /\ tag_name t = toLowerCase term)
  /\ (forall (t : Tag) (str : string),
         In (tag_name t) (tagSearchTerms (parseSearchTerms str)) ->
         exists body, tag_name t = toLowerCase body)
  /\ ((forall u, toLowerCase (toLowerCase u) = toLowerCase u) ->
      forall (t : Tag) (str : string),
        toLowerCase (tag_name t) <> tag_name t ->
        ~ In (tag_name t) (tagSearchTerms (parseSearchTerms str))).
Proof.
  assert (Himage : forall (t : Tag) (str : string),
             In (tag_name t) (tagSearchTerms (parseSearchTerms str)) ->
             exists body, tag_name t = toLowerCase body).
  { intros t str Hin.
    destruct (tagSearchTerms_lowered str) as (bodies & E).
    rewrite E in Hin. apply in_map_iff in Hin as (body & Hb & _).
    exists body. now symmetry. }
  split; [|split; [|split]].
  - intros t term Ht Hlow Hn.
    rewrite Hlow in Hn.
    assert (Hin : In (tag_name t) [toLowerCase term])
      by (left; exact Hn).
    rewrite (findTagIds_some s _ t Ht Hin). eexists. split; [reflexivity|].
    apply in_map. apply matching_tags. auto.
  - intros terms ids id Hf Hid.
    unfold findTagIds in Hf.
    destruct (Nat.eqb (List.length (map toLowerCase terms)) 0).
    + inversion Hf; subst. destruct Hid.
    + destruct (Nat.eqb _ 0); [discriminate|].
      inversion Hf; subst; clear Hf.
      apply in_map_iff in Hid as (t & E & Ht).
      apply matching_tags in Ht as [H1 H2].
      apply in_map_iff in H2 as (term & Hterm & Hin).
      exists t, term. repeat split; auto.
  - exact Himage.
  - intros Hidem t str Hneq Hin.
    destruct (Himage t str Hin) as (body & E).
    apply Hneq. rewrite E. apply Hidem.
Qed.

(* ------------------------------------------------------------------ *)
(** ** The query predicate *)
(* ------------------------------------------------------------------ *)

Lemma newRegExps_ok (terms : list string) (res : list RegExp) :
  newRegExps terms = Ok res ->
  res = map (fun t => mkRegExp t true) terms.
Proof.
  revert res. induction terms as [|t ts IH]; simpl; intros res H.
  - now inversion H.
  - destruct (regExpValid t); [|discriminate].
    destruct (newRegExps ts) as [res'|]; [|discriminate].
    inversion H; subst. now rewrite (IH res' eq_refl).
Qed.

Lemma fieldIn_terms (terms : list string) (field : string) :
  fieldIn (map (fun t => mkRegExp t true) terms) field
  = existsb (fun term => regExpTest (mkRegExp term true) field) terms.
Proof.
  unfold fieldIn. induction terms as [|t ts IH]; simpl; congruence.
Qed.

(** What the predicate built by [buildQuery] accepts: the tag clause is
    present when identifiers were resolved, the text clause when plain terms
    were given, and the text clause asks the regular expression made from
    one of the terms to match the title or the text. *)
Lemma buildQuery_matches (tagIds : option (list ObjectId))
      (regularTerms : list string) (query : Query) (r : QuestionRow) :
  buildQuery tagIds regularTerms = Ok query ->
  matchesQuery query r
  = (match tagIds with
     | Some (id :: ids) => tagsIn (id :: ids) r
     | _ => true
     end
     && match regularTerms with
        | [] => true
        | _ =>
            existsb (fun term => regExpTest (mkRegExp term true) (row_title r))
                    regularTerms
            || existsb (fun term => regExpTest (mkRegExp term true) (row_text r))
                       regularTerms
        end)%bool.
Proof.
  unfold buildQuery. intros H.
  assert (Htag : match tagIds with
                 | Some ids => if 0 <? Z.of_nat (List.length ids)
                               then Some ids else None
                 | None => None
                 end
                 = match tagIds with
                   | Some (id :: ids) => Some (id :: ids)
                   | _ => None
                   end).
  { destruct tagIds as [[|id ids]|]; reflexivity. }
  rewrite Htag in H. clear Htag.
  destruct regularTerms as [|t ts].
  - cbn in H. inversion H; subst. unfold matchesQuery. simpl.
    destruct tagIds as [[|id ids]|]; simpl; now rewrite ?andb_true_r.
  - replace (0 <? Z.of_nat (List.length (t :: ts))) with true in H
      by (symmetry; apply Z.ltb_lt; simpl; lia).
    destruct (newRegExps (t :: ts)) as [res|] eqn:E; [|discriminate].
    apply newRegExps_ok in E. inversion H; subst.
    unfold matchesQuery. cbn [q_tags_in q_or_title_text].
    rewrite !fieldIn_terms.
    destruct tagIds as [[|id ids]|]; reflexivity.
Qed.

Lemma buildQuery_no_terms (r : QuestionRow) :
  buildQuery (Some []) [] = Ok emptyQuery
  /\ matchesQuery emptyQuery r = true.
Proof. split; reflexivity. Qed.

(** On a term without regular-expression syntax, the engine fragment accepts
    the pattern and matching is case-insensitive containment. *)
Lemma parse_literal (term : string) :
  SpecWords.isLiteralTerm term = true ->
  RegExpFragment.parse term
  = Some (map RegExpFragment.Lit (list_ascii_of_string term)).
Proof.
  unfold SpecWords.isLiteralTerm.
  induction term as [|c r IH]; simpl; [reflexivity|].
  intros H. apply andb_true_iff in H as [Hc Hr].
  destruct (Ascii.eqb_spec c ".") as [->|_]; [discriminate Hc|].
  apply negb_true_iff in Hc. rewrite Hc, (IH Hr). reflexivity.
Qed.

Lemma matchHere_literal (term field : string) :
  RegExpFragment.matchHere true
    (map RegExpFragment.Lit (list_ascii_of_string term)) field
  = prefix (AsciiCase.toLowerCase term) (AsciiCase.toLowerCase field).
Proof.
  revert field. induction term as [|c r IH]; intros field; simpl.
  - now destruct field.
  - destruct field as [|d f]; simpl; [reflexivity|].
    rewrite IH.
    destruct (ascii_dec (AsciiCase.lowerChar c) (AsciiCase.lowerChar d)) as [E|E].
    + rewrite E, Ascii.eqb_refl. reflexivity.
    + apply Ascii.eqb_neq in E. now rewrite E.
Qed.

Lemma search_literal (term field : string) :
  RegExpFragment.search true
    (map RegExpFragment.Lit (list_ascii_of_string term)) field
  = SpecWords.containsIgnoringCase term field.
Proof.
  unfold SpecWords.containsIgnoringCase.
  induction field as [|d f IH].
  - simpl RegExpFragment.search. rewrite matchHere_literal. reflexivity.
  - simpl RegExpFragment.search. rewrite matchHere_literal, IH. reflexivity.
Qed.

Lemma literal_term_is_containment (term field : string) :
  SpecWords.isLiteralTerm term = true ->
  RegExpFragment.valid term = true
  /\ RegExpFragment.test (mkRegExp term true) field
     = SpecWords.containsIgnoringCase term field.
Proof.
  intros H. unfold RegExpFragment.valid, RegExpFragment.test.
  cbn [source ignoreCase]. rewrite (parse_literal term H).
  split; [reflexivity | apply search_literal].
Qed.

(* ------------------------------------------------------------------ *)
(** ** Answers: the latest date and the most recent answer *)
(* ------------------------------------------------------------------ *)

(** The first element of a list sorted in descending order is a greatest
    element. *)
Lemma sorted_head_greatest {A : Type} (key : A -> Z) (x : A) (l : list A) :
  SpecWords.sortedDescBy key (x :: l) ->
  forall y, In y (x :: l) -> key y <= key x.
Proof.
  unfold SpecWords.sortedDescBy. intros S y [<-|Hy]; [lia|].
  inversion S as [|? ? _ Hall]; subst.
  rewrite Forall_forall in Hall. now apply Hall.
Qed.

Lemma sortBy_nil_inv {A : Type} (cmp : A -> A -> Z) (l : list A) :
  sortBy cmp l = [] -> l = [].
Proof.
  intros E. assert (P := sortBy_perm cmp l). rewrite E in P.
  now apply Permutation_nil.
Qed.

(** The head of the descending sort of a list: one of its elements, with a
    key no smaller than any other. *)
Lemma sortBy_head {A : Type} (key : A -> Z) (l : list A) (x : A) (rest : list A) :
  sortBy (fun a b => key b - key a) l = x :: rest ->
  In x l /\ forall y, In y l -> key y <= key x.
Proof.
  intros E.
  assert (P := sortBy_perm (fun a b => key b - key a) l).
  assert (S := sortBy_desc key l).
  rewrite E in P, S. split.
  - apply (Permutation_in _ P). now left.
  - intros y Hy. apply (sorted_head_greatest key x rest S).
    apply (Permutation_in _ (Permutation_sym P)), Hy.
Qed.

Lemma maxTimestamp_unique (own : Time) (others : list Time) (m : Time) :
  own <= m -> (forall t, In t others -> t <= m) -> (m = own \/ In m others) ->
  m = SpecWords.maxTimestamp own others.
Proof.
  intros H1 H2 H3.
  destruct (maxTimestamp_is_maximum own others) as (G1 & G2 & G3).
  cbv zeta in *. rewrite Forall_forall in G2.
  set (M := SpecWords.maxTimestamp own others) in *.
  assert (m <= M) by (destruct H3 as [->|H3]; [exact G1 | now apply G2]).
  assert (M <= m) by (destruct G3 as [->|G3]; [exact H1 | now apply H2]).
  lia.
Qed.

Lemma getLatestAnswerDate_cons (a : Answer) (l : list Answer) :
  getLatestAnswerDate (a :: l)
  = Some (SpecWords.maxTimestamp (ans_date_time a) (map ans_date_time l)).
Proof.
  unfold getLatestAnswerDate. cbn [List.length Nat.eqb].
  destruct (sortBy answerDateCmp (a :: l)) as [|x rest] eqn:E.
  - apply sortBy_nil_inv in E. discriminate.
  - destruct (sortBy_head ans_date_time (a :: l) x rest E) as [Hin Hmax].
    f_equal. apply maxTimestamp_unique.
    + apply Hmax. now left.
    + intros t Ht. apply in_map_iff in Ht as (b & <- & Hb).
      apply Hmax. now right.
    + destruct Hin as [<-|Hin]; [now left | right; now apply in_map].
Qed.

(** X1.  [getLatestAnswerDate] answers [undefined] exactly on the empty
    array, and on a non-empty array the greatest of the answers' dates: a
    date of one of the answers that no other answer's date exceeds. *)
Theorem getLatestAnswerDate_is_max (answerDocs : list Answer) :
  (getLatestAnswerDate answerDocs = None <-> answerDocs = [])
  /\ (forall d, getLatestAnswerDate answerDocs = Some d ->
                In d (map ans_date_time answerDocs)
                /\ forall a, In a answerDocs -> ans_date_time a <= d).
Proof.
  destruct answerDocs as [|a l].
  - split; [split; reflexivity | discriminate].
  - rewrite getLatestAnswerDate_cons. split; [split; discriminate|].
    intros d E. inversion E; subst d; clear E.
    destruct (maxTimestamp_is_maximum (ans_date_time a) (map ans_date_time l))
      as (G1 & G2 & G3).
    cbv zeta in *. rewrite Forall_forall in G2. split.
    + destruct G3 as [->|G3]; [now left | now right].
    + intros b [<-|Hb]; [exact G1 | apply G2; now apply in_map].
Qed.

(** X2.  The activity timestamp of a question whose answers are populated is
    its creation timestamp when [getLatestAnswerDate] of these answers is
    [undefined], and otherwise the later of its creation timestamp and that
    latest answer date. *)
Theorem mostRecentActivity_via_latest_answer :
  forall id ttl txt author own v tgs (docs : list Answer),
    mostRecentActivity
      (mkQuestion id ttl txt author own v (map AnswerDoc docs) tgs)
    = match getLatestAnswerDate docs with
      | None => own
      | Some latest => Z.max own latest
      end.
Proof.
  intros.
  rewrite (mostRecentActivity_populated
             (mkQuestion id ttl txt author own v (map AnswerDoc docs) tgs)
             docs eq_refl).
  cbn [ask_date_time].
  destruct docs as [|a l]; [reflexivity|].
  rewrite getLatestAnswerDate_cons.
  unfold SpecWords.maxTimestamp. cbn [map fold_right].
  rewrite <- fold_max_swap.
  assert (H : forall x ys, x <= fold_right Z.max x ys)
    by (intros x ys; induction ys; simpl; lia).
  specialize (H (ans_date_time a) (map ans_date_time l)). lia.
Qed.

Lemma findAnswersIn_In (s : Store) (ids : list ObjectId) (a : Answer) :
  In a (findAnswersIn s ids) <-> In a (AnswerColl s) /\ In (ans_id a) ids.
Proof. unfold findAnswersIn. now rewrite filter_In, includes_In. Qed.

(** X3.  [getMostRecent] returns at most one answer; what it returns is a
    stored answer named by the given identifiers whose date no other such
    answer exceeds; and it returns nothing exactly when no stored answer is
    named by the identifiers. *)
Theorem getMostRecent_spec (s : Store) (answerIds : list ObjectId) :
  (List.length (getMostRecent s answerIds) <= 1)%nat
  /\ (getMostRecent s answerIds = []
      <-> forall a, In a (AnswerColl s) -> ~ In (ans_id a) answerIds)
  /\ (forall a, In a (getMostRecent s answerIds) ->
                In a (AnswerColl s) /\ In (ans_id a) answerIds
                /\ forall b, In b (AnswerColl s) -> In (ans_id b) answerIds ->
                             ans_date_time b <= ans_date_time a).
Proof.
  unfold getMostRecent.
  destruct answerIds as [|i ids].
  - cbn [List.length Nat.eqb]. split; [simpl; lia|]. split.
    + split; [intros _ a _ [] | reflexivity].
    + intros a [].
  - cbn [List.length Nat.eqb].
    destruct (sortBy answerDateCmp (findAnswersIn s (i :: ids)))
      as [|x rest] eqn:E.
    + apply sortBy_nil_inv in E. split; [simpl; lia|]. split.
      * split; [|reflexivity]. intros _ a Ha Hin.
        assert (H : In a (findAnswersIn s (i :: ids)))
          by (apply findAnswersIn_In; auto).
        rewrite E in H. destruct H.
      * intros a [].
    + destruct (sortBy_head ans_date_time _ x rest E) as [Hin Hmax].
      apply findAnswersIn_In in Hin as [H1 H2].
      cbn [firstn]. split; [simpl; lia|]. split.
      * split; [discriminate|]. intros H. destruct (H x H1 H2).
      * intros a [<-|[]]. split; [exact H1|]. split; [exact H2|].
        intros b Hb Hbi. apply Hmax. apply findAnswersIn_In. auto.
Qed.

(* ------------------------------------------------------------------ *)
(** ** Tags: find or create, validation, counts *)
(* ------------------------------------------------------------------ *)

Lemma uniqueInOrder_In (seen names : list string) (n : string) :
  In n (uniqueInOrder seen names) <-> In n names /\ ~ In n seen.
Proof.
  revert seen. induction names as [|x xs IH]; intros seen; simpl.
  - split; [intros [] | intros [[] _]].
  - destruct (JsString.includes seen x) eqn:E.
    + apply includes_In in E. rewrite IH. split.
      * intros [H1 H2]. split; [now right | exact H2].
      * intros [[<-|H1] H2]; [contradiction | now split].
    + assert (Hx : ~ In x seen).
      { intros H. apply includes_In in H. congruence. }
      simpl. rewrite IH. split.
      * intros [<-|[H1 H2]]; [split; [now left | exact Hx]|].
        split; [now right|]. intros H. apply H2. now right.
      * intros [[<-|H1] H2]; [now left|].
        destruct (string_dec x n) as [->|Hne]; [now left|].
        right. split; [exact H1|]. intros [H|H]; [congruence | contradiction].
Qed.

Lemma uniqueInOrder_NoDup (seen names : list string) :
  NoDup (uniqueInOrder seen names).
Proof.
  revert seen. induction names as [|x xs IH]; intros seen; simpl.
  - constructor.
  - destruct (JsString.includes seen x); [apply IH|].
    constructor; [|apply IH].
    rewrite uniqueInOrder_In. intros [_ H]. apply H. now left.
Qed.

Lemma newTagDocs_names (fresh : nat -> ObjectId) (i : nat) (names : list string) :
  map tag_name (newTagDocs fresh i names) = names.
Proof.
  revert i. induction names as [|n ns IH]; intros i; simpl; [reflexivity|].
  now rewrite IH.
Qed.

Lemma missingNames_In (s : Store) (tagNames : list string) (n : string) :
  In n (missingNames s tagNames)
  <-> In n tagNames /\ ~ In n (map tag_name (TagColl s)).
Proof.
  unfold missingNames. cbv zeta.
  rewrite filter_In, uniqueInOrder_In, negb_true_iff.
  split.
  - intros [[H1 _] H2]. split; [exact H1|].
    intros H. apply in_map_iff in H as (t & E & Ht).
    assert (Hin : JsString.includes
                    (map tag_name (existingTagsFor s tagNames)) n = true).
    { apply includes_In. apply in_map_iff. exists t. split; [exact E|].
      apply filter_In. split; [exact Ht|].
      apply includes_In. apply uniqueInOrder_In. subst n. split; [exact H1|].
      intros []. }
    congruence.
  - intros [H1 H2]. split; [split; [exact H1 | intros []]|].
    destruct (JsString.includes _ n) eqn:E; [|reflexivity].
    apply includes_In in E. apply in_map_iff in E as (t & E & Ht).
    apply filter_In in Ht as [Ht _]. exfalso. apply H2.
    apply in_map_iff. now exists t.
Qed.

Lemma missingNames_NoDup (s : Store) (tagNames : list string) :
  NoDup (missingNames s tagNames).
Proof. apply NoDup_filter, uniqueInOrder_NoDup. Qed.

Lemma existingTagsFor_In (s : Store) (tagNames : list string) (t : Tag) :
  In t (existingTagsFor s tagNames)
  <-> In t (TagColl s) /\ In (tag_name t) tagNames.
Proof.
  unfold existingTagsFor. rewrite filter_In, includes_In, uniqueInOrder_In.
  split; [intros [H1 [H2 _]]; now split|].
  intros [H1 H2]. split; [exact H1|]. split; [exact H2 | intros []].
Qed.

(** The two ways [findOrCreateMany] ends. *)
Lemma findOrCreateMany_cases (fresh : nat -> ObjectId) (s : Store)
      (tagNames : list string) :
  findOrCreateMany fresh s tagNames
  = if forallb requiredString (missingNames s tagNames) then
      (mkStore (QuestionColl s) (AnswerColl s)
               (TagColl s ++ newTagDocs fresh 0 (missingNames s tagNames)),
       Done (existingTagsFor s tagNames
             ++ newTagDocs fresh 0 (missingNames s tagNames)))
    else (s, Failed ValidationError).
Proof.
  unfold findOrCreateMany. cbv zeta.
  destruct (missingNames s tagNames) as [|n ns] eqn:E.
  - cbn [List.length Z.of_nat Z.ltb Z.compare forallb newTagDocs].
    rewrite !app_nil_r. now destruct s.
  - replace (0 <? Z.of_nat (List.length (n :: ns))) with true
      by (symmetry; apply Z.ltb_lt; simpl; lia).
    unfold insertManyTags.
    now destruct (forallb requiredString (n :: ns)).
Qed.

Lemma requiredString_false (v : string) : requiredString v = false <-> v = "".
Proof.
  unfold requiredString. rewrite negb_false_iff. apply String.eqb_eq.
Qed.

Lemma requiredString_true (v : string) : requiredString v = true <-> v <> "".
Proof.
  unfold requiredString. rewrite negb_true_iff. apply String.eqb_neq.
Qed.

(** X4.  When [findOrCreateMany] succeeds, every requested name is the name
    of a returned tag, the returned tags are exactly the stored tags (after
    the call) whose name was requested, the tags stored before are kept in
    place with the new ones behind them, and questions and answers are
    untouched. *)
Theorem findOrCreateMany_finds_every_name (fresh : nat -> ObjectId)
        (s s' : Store) (tagNames : list string) (found : list Tag) :
  findOrCreateMany fresh s tagNames = (s', Done found) ->
  (forall n, In n tagNames -> exists t, In t found /\ tag_name t = n)
  /\ (forall t, In t found <-> In t (TagColl s') /\ In (tag_name t) tagNames)
  /\ (exists added, TagColl s' = TagColl s ++ added)
  /\ QuestionColl s' = QuestionColl s
  /\ AnswerColl s' = AnswerColl s.
Proof.
  rewrite findOrCreateMany_cases.
  destruct (forallb requiredString (missingNames s tagNames)); [|discriminate].
  intros E. inversion E; subst; clear E. cbn [TagColl QuestionColl AnswerColl].
  set (new := newTagDocs fresh 0 (missingNames s tagNames)).
  assert (Hnew : forall t, In t new -> In (tag_name t) tagNames).
  { intros t Ht. apply (in_map tag_name) in Ht.
    unfold new in Ht. rewrite newTagDocs_names in Ht.
    now apply missingNames_In in Ht as [H _]. }
  split; [|split; [|split; [|split]]].
  - intros n Hn.
    destruct (in_dec string_dec n (map tag_name (TagColl s))) as [Hs|Hs].
    + apply in_map_iff in Hs as (t & <- & Ht). exists t. split; [|reflexivity].
      apply in_or_app. left. apply existingTagsFor_In. now split.
    + assert (Hm : In n (map tag_name new)).
      { unfold new. rewrite newTagDocs_names. apply missingNames_In. now split. }
      apply in_map_iff in Hm as (t & <- & Ht). exists t. split; [|reflexivity].
      apply in_or_app. now right.
  - intros t. rewrite !in_app_iff, existingTagsFor_In. split.
    + intros [[H1 H2]|H]; [split; [now left | exact H2]|].
      split; [now right | now apply Hnew].
    + intros [[H|H] Hn]; [left; now split | now right].
  - now exists new.
  - reflexivity.
  - reflexivity.
Qed.

(** X5.  The tags [findOrCreateMany] inserts carry exactly the requested
    names that no stored tag had, each of them once; a name that some stored
    tag already carries is never inserted again. *)
Theorem findOrCreateMany_creates_only_missing (fresh : nat -> ObjectId)
        (s s' : Store) (tagNames : list string) (found : list Tag) :
  findOrCreateMany fresh s tagNames = (s', Done found) ->
  exists added,
    TagColl s' = TagColl s ++ added
    /\ NoDup (map tag_name added)
    /\ (forall n, In n (map tag_name added)
                  <-> In n tagNames /\ ~ In n (map tag_name (TagColl s)))
    /\ (forall i, (i < List.length added)%nat ->
                  option_map tag_id (nth_error added i) = Some (fresh i)).
Proof.
  rewrite findOrCreateMany_cases.
  destruct (forallb requiredString (missingNames s tagNames)); [|discriminate].
  intros E. inversion E; subst; clear E. cbn [TagColl].
  exists (newTagDocs fresh 0 (missingNames s tagNames)).
  rewrite newTagDocs_names.
  split; [reflexivity|]. split; [apply missingNames_NoDup|].
  split; [intros n; apply missingNames_In|].
  assert (G : forall names k i,
             (i < List.length (newTagDocs fresh k names))%nat ->
             option_map tag_id (nth_error (newTagDocs fresh k names) i)
             = Some (fresh (k + i)%nat)).
  { induction names as [|n ns IH]; intros k i Hi; simpl in *; [lia|].
    destruct i as [|i]; simpl; [now rewrite Nat.add_0_r|].
    rewrite IH by lia. f_equal. f_equal. lia. }
  intros i Hi. now rewrite G.
Qed.

(** X6.  [findOrCreateMany] is idempotent: called again with the same names
    after a success, it inserts nothing and returns the same tags. *)
Theorem findOrCreateMany_twice (fresh fresh' : nat -> ObjectId)
        (s s' : Store) (tagNames : list string) (found : list Tag) :
  findOrCreateMany fresh s tagNames = (s', Done found) ->
  findOrCreateMany fresh' s' tagNames = (s', Done found).
Proof.
  rewrite findOrCreateMany_cases.
  destruct (forallb requiredString (missingNames s tagNames)); [|discriminate].
  intros E. inversion E; subst; clear E.
  set (new := newTagDocs fresh 0 (missingNames s tagNames)).
  set (s1 := mkStore (QuestionColl s) (AnswerColl s) (TagColl s ++ new)).
  assert (Hnames : forall n, In n tagNames -> In n (map tag_name (TagColl s1))).
  { intros n Hn. cbn [s1 TagColl]. rewrite map_app, in_app_iff.
    destruct (in_dec string_dec n (map tag_name (TagColl s))) as [H|H];
      [now left|].
    right. unfold new. rewrite newTagDocs_names. apply missingNames_In.
    now split. }
  assert (Hmiss : missingNames s1 tagNames = []).
  { destruct (missingNames s1 tagNames) as [|n ns] eqn:E; [reflexivity|].
    assert (H : In n (missingNames s1 tagNames)) by (rewrite E; now left).
    apply missingNames_In in H as [H1 H2]. destruct (H2 (Hnames n H1)). }
  rewrite findOrCreateMany_cases, Hmiss.
  cbn [forallb newTagDocs]. rewrite !app_nil_r.
  f_equal. f_equal.
  unfold existingTagsFor. cbn [s1 TagColl]. rewrite filter_app.
  f_equal. apply forallb_filter_id.
  apply forallb_forall. intros t Ht.
  apply includes_In, uniqueInOrder_In. split; [|intros []].
  apply (in_map tag_name) in Ht. unfold new in Ht.
  rewrite newTagDocs_names in Ht. now apply missingNames_In in Ht as [H _].
Qed.

(** X7.  [findOrCreateMany] keeps tag names unique: when no two stored tags
    share a name before the call, none do after it. *)
Theorem findOrCreateMany_keeps_names_unique (fresh : nat -> ObjectId)
        (s s' : Store) (tagNames : list string) (found : list Tag) :
  NoDup (map tag_name (TagColl s)) ->
  findOrCreateMany fresh s tagNames = (s', Done found) ->
  NoDup (map tag_name (TagColl s')).
Proof.
  intros Hnd. rewrite findOrCreateMany_cases.
  destruct (forallb requiredString (missingNames s tagNames)); [|discriminate].
  intros E. inversion E; subst; clear E. cbn [TagColl].
  rewrite map_app, newTagDocs_names.
  apply NoDup_app; [exact Hnd | apply missingNames_NoDup |].
  intros n Hn Hm. apply missingNames_In in Hm as [_ Hm]. now apply Hm.
Qed.

(** X8.  [findOrCreateMany] fails exactly when the empty name is requested
    and no stored tag carries it (the schema requires a name); it then fails
    with a validation error and writes nothing, not even the other missing
    tags. *)
Theorem findOrCreateMany_empty_name (fresh : nat -> ObjectId) (s : Store)
        (tagNames : list string) :
  ((exists s' e, findOrCreateMany fresh s tagNames = (s', Failed e))
   <-> In "" tagNames /\ ~ In "" (map tag_name (TagColl s)))
  /\ (forall s' e, findOrCreateMany fresh s tagNames = (s', Failed e) ->
                   s' = s /\ e = ValidationError).
Proof.
  rewrite findOrCreateMany_cases.
  destruct (forallb requiredString (missingNames s tagNames)) eqn:E.
  - split; [|discriminate]. split; [intros (s' & e & H); discriminate|].
    intros H. apply missingNames_In in H.
    rewrite forallb_forall in E. specialize (E "" H). discriminate.
  - split; [|intros s' e H; inversion H; now split].
    split; [intros _ | intros _; eauto].
    apply missingNames_In.
    assert (H : exists n, In n (missingNames s tagNames)
                          /\ requiredString n = false).
    { clear -E. induction (missingNames s tagNames) as [|n ns IH];
        [discriminate|]. simpl in E.
      destruct (requiredString n) eqn:En.
      - destruct (IH E) as (m & Hm & Hr). exists m. split; [now right | exact Hr].
      - exists n. split; [now left | exact En]. }
    destruct H as (n & Hn & Hr). apply requiredString_false in Hr. now subst.
Qed.

Lemma distinct_keys_after_filter {Doc Key : Type} (key : Doc -> Key)
  (keep : Doc -> bool) (coll : list Doc) (Hkeys : NoDup (map key coll)) :
  NoDup (map key (filter keep coll)).
Proof.
  induction coll as [|d rest IH]; cbn [filter map] in *; [exact Hkeys|].
  apply NoDup_cons_iff in Hkeys as [Hd Hrest].
  destruct (keep d); cbn [map]; [|exact (IH Hrest)].
  apply NoDup_cons_iff. split; [|exact (IH Hrest)].
  intros Hin. apply Hd. apply in_map_iff in Hin as (y & E & Hy).
  apply filter_In in Hy as [Hy _]. apply in_map_iff. now exists y.
Qed.

(** X9.  In a collection where tags have distinct identifiers,
    [validateTags] answers [true] exactly when the given identifiers are
    pairwise distinct and each of them is the identifier of a stored tag; an
    identifier given twice makes it answer [false]. *)
Theorem validateTags_iff (s : Store) (tagIds : list ObjectId) :
  NoDup (map tag_id (TagColl s)) ->
  (validateTags s tagIds = true
   <-> NoDup tagIds
       /\ forall id, In id tagIds ->
                     exists t, In t (TagColl s) /\ tag_id t = id).
Proof.
  intros Hnd. unfold validateTags. cbv zeta. rewrite Nat.eqb_eq.
  set (found := filter (fun t => JsString.includes tagIds (tag_id t)) (TagColl s)).
  assert (HT : NoDup (map tag_id found)) by now apply distinct_keys_after_filter.
  assert (Hincl : incl (map tag_id found) tagIds).
  { intros id Hid. apply in_map_iff in Hid as (t & <- & Ht).
    apply filter_In in Ht as [_ Ht]. now apply includes_In. }
  rewrite <- (length_map tag_id found).
  split.
  - intros E. split.
    + apply (NoDup_incl_NoDup HT); [lia | exact Hincl].
    + intros id Hid.
      assert (Hin : In id (map tag_id found)).
      { assert (G : incl tagIds (map tag_id found))
          by (apply (NoDup_length_incl HT); [lia | exact Hincl]).
        now apply G. }
      apply in_map_iff in Hin as (t & E' & Ht).
      apply filter_In in Ht as [Ht _]. now exists t.
  - intros [Hids Hall].
    assert (H1 : (List.length (map tag_id found) <= List.length tagIds)%nat)
      by (apply NoDup_incl_length; assumption).
    assert (H2 : (List.length tagIds <= List.length (map tag_id found))%nat).
    { apply NoDup_incl_length; [exact Hids|].
      intros id Hid. destruct (Hall id Hid) as (t & Ht & <-).
      apply in_map. apply filter_In. split; [exact Ht|].
      now apply includes_In. }
    lia.
Qed.

Lemma split_without_sep (sep : ascii) (str : string) :
  ~ In sep (list_ascii_of_string str) -> JsString.split sep str = [str].
Proof.
  induction str as [|c r IH]; simpl; intros H; [reflexivity|].
  destruct (Ascii.eqb_spec c sep) as [->|Hc]; [exfalso; apply H; now left|].
  rewrite IH; [reflexivity|]. intros Hin. apply H. now right.
Qed.

Lemma list_ascii_app (a b : string) :
  list_ascii_of_string (a ++ b)
  = (list_ascii_of_string a ++ list_ascii_of_string b)%list.
Proof. induction a as [|c r IH]; simpl; congruence. Qed.

(** The search string made of one tag term, for a name without spaces. *)
Lemma parse_one_tag (name : string) :
  ~ In " "%char (list_ascii_of_string name) ->
  parseSearchTerms (String "[" (name ++ "]"))
  = mkTerms [toLowerCase name] [].
Proof.
  intros Hsp. unfold parseSearchTerms.
  rewrite split_without_sep.
  - assert (Ht : isTagTerm (String "[" (name ++ "]")) = true)
      by (apply isTagTerm_iff; now exists name).
    cbn [filter map]. rewrite Ht. cbn [negb map].
    now rewrite slice_brackets.
  - cbn [list_ascii_of_string]. rewrite list_ascii_app.
    intros [H|H]; [discriminate|].
    apply in_app_iff in H as [H|[H|[]]]; [contradiction | discriminate].
Qed.

(** The rows a query with the tag clause alone selects, when every
    identifier of the clause is [id]. *)
Lemma tagsIn_single (ids : list ObjectId) (id : ObjectId) (r : QuestionRow) :
  In id ids -> (forall x, In x ids -> x = id) ->
  tagsIn ids r = existsb (String.eqb id) (row_tags r).
Proof.
  intros Hin Hall. unfold tagsIn.
  induction (row_tags r) as [|x xs IH]; simpl; [reflexivity|].
  rewrite IH. f_equal.
  destruct (String.eqb_spec id x) as [<-|Hne].
  - now apply includes_In.
  - apply not_true_is_false. intros H. apply includes_In in H.
    apply Hall in H. congruence.
Qed.

Lemma rawQuestionsByQuery_length (s : Store) (query : Query)
      (order : option string) :
  order <> Some "unanswered" ->
  List.length (rawQuestionsByQuery s query order)
  = List.length (filter (matchesQuery query) (QuestionColl s)).
Proof.
  intros Hu. unfold rawQuestionsByQuery.
  apply orderIs_false in Hu. rewrite Hu.
  rewrite findQuestions_plain.
  destruct (orderIs order "active").
  - now rewrite (Permutation_length (sortBy_perm _ _)), length_map.
  - rewrite length_map. apply Permutation_length, sortBy_perm.
Qed.

(** The search for one tag, by its stored name. *)
Lemma search_one_tag (s : Store) (t : Tag) (order : option string) :
  In t (TagColl s) ->
  toLowerCase (tag_name t) = tag_name t ->
  ~ In " "%char (list_ascii_of_string (tag_name t)) ->
  exists ids,
    findTagIds s [tag_name t] = Some ids
    /\ In (tag_id t) ids
    /\ (forall id, In id ids ->
                   exists t', In t' (TagColl s) /\ tag_name t' = tag_name t
                              /\ tag_id t' = id)
    /\ getQuestions s order (Some (String "[" (tag_name t ++ "]")))
       = Ok (getQuestionsByQuery s (mkQuery (Some ids) None) order).
Proof.
  intros Ht Hlow Hsp.
  assert (Hin : In (tag_name t) [tag_name t]) by now left.
  exists (map tag_id (filter (fun t' => JsString.includes [tag_name t] (tag_name t'))
                             (TagColl s))).
  assert (Hid : In (tag_id t)
                   (map tag_id (filter (fun t' => JsString.includes [tag_name t]
                                                     (tag_name t'))
                                       (TagColl s)))).
  { apply in_map. apply matching_tags. now split. }
  split; [apply (findTagIds_some s _ t Ht Hin)|].
  split; [exact Hid|]. split.
  - intros id H. apply in_map_iff in H as (t' & E & H').
    apply matching_tags in H' as [H1 [H2|[]]]. exists t'. now repeat split.
  - unfold getQuestions, createStrategy.
    rewrite (parse_one_tag _ Hsp), Hlow.
    cbn [tagSearchTerms regularSearchTerms].
    replace (isSpecialSearch [] [tag_name t]) with false by reflexivity.
    unfold execute, executeRegular.
    rewrite (findTagIds_some s _ t Ht Hin).
    unfold buildQuery. cbn [List.length Z.of_nat Z.ltb Z.compare].
    destruct (map tag_id _) as [|i0 rest] eqn:E; [destruct Hid|].
    reflexivity.
Qed.

(** X10.  The count [getTagsWithQuestionNumber] gives for a tag is the
    number of questions a search for that tag returns, for a tag whose name
    is in lower-case form (the platform's lower-casing leaves it unchanged),
    has no space and is shared with no tag of another identifier, under
    every order key but [unanswered]. *)
Theorem tag_count_matches_tag_search (s : Store) (t : Tag)
        (order : option string) :
  In t (TagColl s) ->
  toLowerCase (tag_name t) = tag_name t ->
  ~ In " "%char (list_ascii_of_string (tag_name t)) ->
  (forall t', In t' (TagColl s) -> tag_name t' = tag_name t ->
              tag_id t' = tag_id t) ->
  order <> Some "unanswered" ->
  exists found,
    getQuestions s order (Some (String "[" (tag_name t ++ "]"))) = Ok found
    /\ In (mkTagCount (tag_name t) (List.length found))
          (getTagsWithQuestionNumber s).
Proof.
  intros Ht Hlow Hsp Huniq Hu.
  destruct (search_one_tag s t order Ht Hlow Hsp) as (ids & _ & Hid & Hids & E).
  eexists. split; [exact E|].
  unfold getTagsWithQuestionNumber. apply in_map_iff. exists t.
  split; [|exact Ht]. f_equal.
  unfold getQuestionsByQuery. rewrite length_map.
  rewrite (rawQuestionsByQuery_length s _ order Hu).
  unfold countQuestionsWithTag. f_equal. apply filter_ext. intros r.
  unfold matchesQuery. cbn [q_tags_in q_or_title_text].
  rewrite andb_true_r. symmetry. apply tagsIn_single; [exact Hid|].
  intros x Hx. destruct (Hids x Hx) as (t' & H1 & H2 & <-).
  now apply Huniq.
Qed.

(* ------------------------------------------------------------------ *)
(** ** Fetching a question: the view counter *)
(* ------------------------------------------------------------------ *)

Lemma updateFirst_split (id : ObjectId) (f : QuestionRow -> QuestionRow)
      (rows : list QuestionRow) (r : QuestionRow) :
  find (fun x => String.eqb (row_id x) id) rows = Some r ->
  exists before after,
    rows = before ++ r :: after
    /\ updateFirst id f rows = before ++ f r :: after
    /\ forall x, In x before -> row_id x <> id.
Proof.
  induction rows as [|x xs IH]; simpl; [discriminate|].
  destruct (String.eqb_spec (row_id x) id) as [E|E].
  - intros H. inversion H; subst. exists [], xs.
    repeat split. intros y [].
  - intros H. destruct (IH H) as (b & a & -> & -> & Hb).
    exists (x :: b), a. repeat split.
    intros y [<-|Hy]; [exact E | now apply Hb].
Qed.

Lemma updateFirst_absent (id : ObjectId) (f : QuestionRow -> QuestionRow)
      (rows : list QuestionRow) :
  find (fun x => String.eqb (row_id x) id) rows = None ->
  updateFirst id f rows = rows.
Proof.
  induction rows as [|x xs IH]; simpl; [reflexivity|].
  destruct (String.eqb (row_id x) id); [discriminate|].
  intros H. now rewrite IH.
Qed.

Lemma find_updateFirst (id id' : ObjectId) (f : QuestionRow -> QuestionRow)
      (rows : list QuestionRow) :
  (forall r, row_id (f r) = row_id r) ->
  find (fun x => String.eqb (row_id x) id') (updateFirst id f rows)
  = if String.eqb id' id
    then option_map f (find (fun x => String.eqb (row_id x) id) rows)
    else find (fun x => String.eqb (row_id x) id') rows.
Proof.
  intros Hf. induction rows as [|x xs IH]; simpl.
  - now destruct (String.eqb id' id).
  - destruct (String.eqb_spec (row_id x) id) as [E|E]; simpl.
    + rewrite Hf. destruct (String.eqb_spec id' id) as [->|E'].
      * rewrite E, String.eqb_refl. reflexivity.
      * destruct (String.eqb_spec (row_id x) id'); [congruence | reflexivity].
    + rewrite IH. destruct (String.eqb_spec id' id) as [->|E'].
      * destruct (String.eqb_spec (row_id x) id); [contradiction | reflexivity].
      * reflexivity.
Qed.

Lemma updateFirst_length (id : ObjectId) (f : QuestionRow -> QuestionRow)
      (rows : list QuestionRow) :
  List.length (updateFirst id f rows) = List.length rows.
Proof.
  induction rows as [|x xs IH]; simpl; [reflexivity|].
  destruct (String.eqb (row_id x) id); simpl; congruence.
Qed.

Lemma findById_found (s : Store) (qid : string) (r : QuestionRow) :
  findById s qid = Done (Some r) ->
  exists id, castObjectId qid = Some id
             /\ find (fun x => String.eqb (row_id x) id) (QuestionColl s) = Some r
             /\ row_id r = id.
Proof.
  unfold findById. destruct (castObjectId qid) as [id|]; [|discriminate].
  intros H. injection H as E. exists id.
  split; [reflexivity|]. split; [exact E|].
  apply find_some in E as [_ E]. now apply String.eqb_eq in E.
Qed.

(** What one fetch of a stored question does. *)
Lemma fetch_found (s : Store) (qid : string) (r : QuestionRow) :
  findById s qid = Done (Some r) ->
  findByIdAndIncrementViews s qid
  = (withQuestions s (updateFirst (row_id r) (setRowViews (row_views r + 1))
                                  (QuestionColl s)),
     Done (Some (mkQuestion (row_id r) (row_title r) (row_text r)
                            (row_asked_by r) (row_ask_date_time r)
                            (row_views r + 1)
                            (map AnswerDoc
                                 (sortBy answerDateCmp
                                         (findAnswersIn s (row_answers r))))
                            (tags (loadWithTags s r))))).
Proof.
  intros H. unfold findByIdAndIncrementViews. rewrite H.
  unfold incrementViews, populateAnswersSorted, answerRefs.
  cbn [q_id title text asked_by ask_date_time views answers tags
       populateTags hydrate].
  assert (E : flat_map (fun e => match e with
                                 | AnswerRef id => [id]
                                 | _ => []
                                 end) (map AnswerRef (row_answers r))
              = row_answers r).
  { induction (row_answers r) as [|i l IH]; simpl; congruence. }
  rewrite E. reflexivity.
Qed.


Lemma fetchTimes_found (n : nat) (s : Store) (qid : string) (r : QuestionRow) :
  findById s qid = Done (Some r) ->
  findById (fetchTimes n s qid) qid
  = Done (Some (setRowViews (row_views r + Z.of_nat n) r)).
Proof.
  revert s r. induction n as [|k IH]; intros s r H.
  - cbn [fetchTimes Z.of_nat]. rewrite H. f_equal. f_equal.
    destruct r. unfold setRowViews. cbn. f_equal. lia.
  - cbn [fetchTimes].
    destruct (findById_found s qid r H) as (id & Hc & Hf & Hid).
    assert (H1 : findById (fst (QuestionRepository_getQuestionById s qid)) qid
                 = Done (Some (setRowViews (row_views r + 1) r))).
    { unfold QuestionRepository_getQuestionById.
      rewrite (fetch_found s qid r H). cbn [fst].
      unfold findById. rewrite Hc. cbn [withQuestions QuestionColl]. f_equal.
      rewrite find_updateFirst by reflexivity.
      rewrite Hid, String.eqb_refl, Hf. reflexivity. }
    rewrite (IH _ _ H1). f_equal. f_equal.
    unfold setRowViews. cbn. f_equal. lia.
Qed.

(** X12.  After [n] successive fetches of a stored question its stored view
    counter is [n] more than before, and nothing else of its row has
    changed. *)
Theorem views_after_n_fetches (n : nat) (s : Store) (qid : string)
        (r : QuestionRow) :
  findById s qid = Done (Some r) ->
  findById (fetchTimes n s qid) qid
  = Done (Some (mkRow (row_id r) (row_title r) (row_text r) (row_asked_by r)
                      (row_ask_date_time r) (row_views r + Z.of_nat n)
                      (row_answers r) (row_tags r))).
Proof.
  intros H. now rewrite (fetchTimes_found n s qid r H).
Qed.

(** X13.  The question a fetch returns carries its answers as documents,
    newest first: the answers are exactly the stored answers its row names,
    in descending order of date, and its tags are populated as in the search
    results. *)
Theorem getQuestionById_answers_newest_first (s : Store) (qid : string)
        (r : QuestionRow) :
  findById s qid = Done (Some r) ->
  exists s' q docs,
    findByIdAndIncrementViews s qid = (s', Done (Some q))
    /\ answers q = map AnswerDoc docs
    /\ SpecWords.sortedDescBy ans_date_time docs
    /\ (forall a, In a docs <-> In a (AnswerColl s) /\ In (ans_id a) (row_answers r))
    /\ tags q = tags (loadWithTags s r).
Proof.
  intros H. rewrite (fetch_found s qid r H).
  eexists. eexists. eexists. split; [reflexivity|].
  cbn [answers tags]. split; [reflexivity|]. split.
  - apply (sortBy_desc ans_date_time).
  - split; [|reflexivity]. intros a.
    rewrite <- findAnswersIn_In. split; apply Permutation_in;
      [|apply Permutation_sym]; apply sortBy_perm.
Qed.

(* ------------------------------------------------------------------ *)
(** ** Adding an answer *)
(* ------------------------------------------------------------------ *)

(** The store once the new answer is saved. *)
Lemma saveNewAnswer_valid (newId : ObjectId) (s : Store) (txt author : string)
      (d : Time) :
  txt <> "" -> author <> "" ->
  saveNewAnswer newId s txt author (Some d)
  = (mkStore (QuestionColl s)
             (AnswerColl s ++ [mkAnswer newId txt author d]) (TagColl s),
     Done (mkAnswer newId txt author d)).
Proof.
  intros H1 H2. unfold saveNewAnswer.
  apply requiredString_true in H1, H2. now rewrite H1, H2.
Qed.

Lemma addAnswer_found (newId : ObjectId) (s : Store) (qid : string)
      (answerData : AnswerData) (d : Time) (r : QuestionRow) :
  parseDate (ad_ans_date_time answerData) = Some d ->
  ad_text answerData <> "" -> ad_ans_by answerData <> "" ->
  findById s qid = Done (Some r) ->
  AnswerRepository_addAnswer newId s qid answerData
  = (mkStore (updateFirst (row_id r) (pushRowAnswer newId) (QuestionColl s))
             (AnswerColl s
              ++ [mkAnswer newId (ad_text answerData) (ad_ans_by answerData) d])
             (TagColl s),
     Done (Some (answerToPlainObject
                   (mkAnswer newId (ad_text answerData)
                             (ad_ans_by answerData) d)))).
Proof.
  intros Hd Ht Hb Hf. unfold AnswerRepository_addAnswer.
  rewrite Hd, (saveNewAnswer_valid newId s _ _ d Ht Hb).
  change (findById (mkStore (QuestionColl s) _ (TagColl s)) qid)
    with (findById s qid).
  rewrite Hf. reflexivity.
Qed.

(** X14.  Adding a valid answer to a stored question stores the answer at
    the end of the Answer collection, appends its identifier at the end of
    the question's [answers] array (so the array stays in order of
    addition), returns the answer, and leaves every other question and the
    tags as they were. *)
Theorem addAnswer_appends (newId : ObjectId) (s : Store) (qid : string)
        (answerData : AnswerData) (d : Time) (r : QuestionRow) :
  parseDate (ad_ans_date_time answerData) = Some d ->
  ad_text answerData <> "" -> ad_ans_by answerData <> "" ->
  findById s qid = Done (Some r) ->
  let saved :=
    mkAnswer newId (ad_text answerData) (ad_ans_by answerData) d in
  exists s',
    AnswerRepository_addAnswer newId s qid answerData
    = (s', Done (Some (answerToPlainObject saved)))
    /\ AnswerColl s' = AnswerColl s ++ [saved]
    /\ findById s' qid
       = Done (Some (mkRow (row_id r) (row_title r) (row_text r)
                           (row_asked_by r) (row_ask_date_time r)
                           (row_views r) (row_answers r ++ [newId])
                           (row_tags r)))
    /\ (forall other, castObjectId other <> castObjectId qid ->
                      findById s' other = findById s other)
    /\ List.length (QuestionColl s') = List.length (QuestionColl s)
    /\ TagColl s' = TagColl s.
Proof.
  intros Hd Ht Hb Hf saved.
  destruct (findById_found s qid r Hf) as (id & Hc & Hfind & Hid).
  subst id. eexists. split; [apply (addAnswer_found newId s qid answerData d r); assumption|].
  cbn [AnswerColl QuestionColl TagColl].
  split; [reflexivity|]. split.
  { unfold findById. rewrite Hc. cbn [QuestionColl]. f_equal.
    rewrite find_updateFirst by reflexivity.
    rewrite String.eqb_refl, Hfind. reflexivity. }
  split.
  { intros other Hne. unfold findById. cbn [QuestionColl].
    destruct (castObjectId other) as [id'|]; [|reflexivity].
    f_equal. rewrite find_updateFirst by reflexivity.
    destruct (String.eqb_spec id' (row_id r)) as [E|E]; [|reflexivity].
    exfalso. apply Hne. congruence. }
  split; [apply updateFirst_length | reflexivity].
Qed.

(** X15.  The answer is saved before the question is looked up: when the
    data is valid and the question identifier names no stored question, or
    is malformed, [addAnswer] answers [null], or fails with a cast error,
    and the new answer is in the Answer collection all the same, referred
    to by no question. *)
Theorem addAnswer_unknown_question_keeps_answer (newId : ObjectId)
        (s : Store) (qid : string) (answerData : AnswerData) (d : Time) :
  parseDate (ad_ans_date_time answerData) = Some d ->
  ad_text answerData <> "" -> ad_ans_by answerData <> "" ->
  (forall r, findById s qid <> Done (Some r)) ->
  exists s' out,
    AnswerRepository_addAnswer newId s qid answerData = (s', out)
    /\ (findById s qid = Done None -> out = Done None)
    /\ (castObjectId qid = None -> out = Failed CastError)
    /\ (out = Done None \/ out = Failed CastError)
    /\ AnswerColl s'
       = AnswerColl s
         ++ [mkAnswer newId (ad_text answerData) (ad_ans_by answerData) d]
    /\ QuestionColl s' = QuestionColl s
    /\ TagColl s' = TagColl s.
Proof.
  intros Hd Ht Hb Hnone. unfold AnswerRepository_addAnswer.
  rewrite Hd, (saveNewAnswer_valid newId s _ _ d Ht Hb).
  change (findById (mkStore (QuestionColl s) _ (TagColl s)) qid)
    with (findById s qid).
  destruct (findById s qid) as [[r|]|e] eqn:E.
  - destruct (Hnone r eq_refl).
  - eexists. eexists. split; [reflexivity|].
    split; [reflexivity|]. split.
    { intros H. unfold findById in E. rewrite H in E. discriminate. }
    split; [now left|]. repeat split.
  - assert (He : e = CastError).
    { unfold findById in E. destruct (castObjectId qid); [discriminate|].
      now inversion E. }
    subst e. eexists. eexists. split; [reflexivity|].
    split; [discriminate|]. split; [reflexivity|].
    split; [now right|]. repeat split.
Qed.

Lemma addAnswer_valid_no_validation_error (newId : ObjectId) (s : Store)
      (qid : string) (answerData : AnswerData) (d : Time) (s' : Store) :
  parseDate (ad_ans_date_time answerData) = Some d ->
  ad_text answerData <> "" -> ad_ans_by answerData <> "" ->
  AnswerRepository_addAnswer newId s qid answerData
  <> (s', Failed ValidationError).
Proof.
  intros Hd Ht Hb. unfold AnswerRepository_addAnswer.
  rewrite Hd, (saveNewAnswer_valid newId s _ _ d Ht Hb).
  change (findById (mkStore (QuestionColl s) _ (TagColl s)) qid)
    with (findById s qid).
  destruct (findById s qid) as [[r|]|e] eqn:E; cbn; try discriminate.
  unfold findById in E. destruct (castObjectId qid); [discriminate|].
  inversion E; subst. discriminate.
Qed.

Lemma addAnswer_invalid (newId : ObjectId) (s : Store) (qid : string)
      (answerData : AnswerData) :
  ad_text answerData = "" \/ ad_ans_by answerData = ""
  \/ parseDate (ad_ans_date_time answerData) = None ->
  AnswerRepository_addAnswer newId s qid answerData
  = (s, Failed ValidationError).
Proof.
  intros H. unfold AnswerRepository_addAnswer, saveNewAnswer.
  destruct (parseDate (ad_ans_date_time answerData)) as [d|]; [|reflexivity].
  destruct H as [H|[H|H]]; [| |discriminate].
  - apply requiredString_false in H. now rewrite H.
  - apply requiredString_false in H. rewrite H.
    now rewrite andb_false_r.
Qed.

(** X16.  [addAnswer] fails with a validation error exactly when the text or
    the author is empty or the date is invalid, and then nothing is
    written, whatever the question identifier. *)
Theorem addAnswer_invalid_writes_nothing (newId : ObjectId) (s : Store)
        (qid : string) (answerData : AnswerData) :
  ((exists s', AnswerRepository_addAnswer newId s qid answerData
               = (s', Failed ValidationError))
   <-> ad_text answerData = "" \/ ad_ans_by answerData = ""
       \/ parseDate (ad_ans_date_time answerData) = None)
  /\ (forall s', AnswerRepository_addAnswer newId s qid answerData
                 = (s', Failed ValidationError) -> s' = s).
Proof.
  assert (Hvalid : forall s',
             AnswerRepository_addAnswer newId s qid answerData
             = (s', Failed ValidationError) ->
             ad_text answerData = "" \/ ad_ans_by answerData = ""
             \/ parseDate (ad_ans_date_time answerData) = None).
  { intros s' H.
    destruct (string_dec (ad_text answerData) "") as [|Ht]; [now left|].
    destruct (string_dec (ad_ans_by answerData) "") as [|Hb]; [right; now left|].
    destruct (parseDate (ad_ans_date_time answerData)) as [d|] eqn:Hd;
      [|right; now right].
    destruct (addAnswer_valid_no_validation_error newId s qid answerData d s'
                Hd Ht Hb H). }
  split.
  - split; [intros (s' & H); now apply (Hvalid s')|].
    intros H. exists s. now apply addAnswer_invalid.
  - intros s' H. rewrite (addAnswer_invalid newId s qid answerData (Hvalid s' H)) in H.
    now inversion H.
Qed.

(** Looking up an answer after one more was stored. *)
Lemma findAnswerById_after_add (s s' : Store) (a : Answer) (id : ObjectId) :
  AnswerColl s' = AnswerColl s ++ [a] ->
  findAnswerById s' id
  = match findAnswerById s id with
    | Some found => Some found
    | None => if String.eqb (ans_id a) id then Some a else None
    end.
Proof.
  unfold findAnswerById. intros ->.
  induction (AnswerColl s) as [|x xs IH]; simpl; [reflexivity|].
  destruct (String.eqb (ans_id x) id); [reflexivity | exact IH].
Qed.

Lemma answersOfRow_after_add (s s' : Store) (a : Answer) (r : QuestionRow) :
  AnswerColl s' = AnswerColl s ++ [a] ->
  ~ In (ans_id a) (row_answers r) ->
  answersOfRow s' r = answersOfRow s r.
Proof.
  intros HA Hnot. unfold answersOfRow.
  induction (row_answers r) as [|i l IH]; simpl; [reflexivity|].
  rewrite IH by (intros H; apply Hnot; now right). f_equal.
  rewrite (findAnswerById_after_add s s' a i HA).
  destruct (findAnswerById s i); [reflexivity|].
  destruct (String.eqb_spec (ans_id a) i) as [E|E]; [|reflexivity].
  exfalso. apply Hnot. now left.
Qed.

Lemma answersOfRow_pushed (s s' : Store) (a : Answer) (r : QuestionRow) :
  AnswerColl s' = AnswerColl s ++ [a] ->
  findAnswerById s (ans_id a) = None ->
  ~ In (ans_id a) (row_answers r) ->
  answersOfRow s' (pushRowAnswer (ans_id a) r) = answersOfRow s r ++ [a].
Proof.
  intros HA Hfresh Hnot. unfold answersOfRow.
  cbn [pushRowAnswer row_answers]. rewrite flat_map_app. f_equal.
  - apply (answersOfRow_after_add s s' a r HA Hnot).
  - cbn [flat_map]. rewrite (findAnswerById_after_add s s' a _ HA), Hfresh.
    now rewrite String.eqb_refl.
Qed.

Lemma maxTimestamp_snoc (own d : Time) (ds : list Time) :
  SpecWords.maxTimestamp own (ds ++ [d])
  = Z.max (SpecWords.maxTimestamp own ds) d.
Proof.
  unfold SpecWords.maxTimestamp. rewrite fold_right_app. cbn [fold_right].
  induction ds as [|x xs IH]; simpl; lia.
Qed.

(** X17.  Once a valid answer with a fresh identifier is added to a stored
    question, the question's activity timestamp is the later of its former
    activity timestamp and the date of the new answer. *)
Theorem addAnswer_updates_activity (newId : ObjectId) (s : Store)
        (qid : string) (answerData : AnswerData) (d : Time)
        (r : QuestionRow) :
  parseDate (ad_ans_date_time answerData) = Some d ->
  ad_text answerData <> "" -> ad_ans_by answerData <> "" ->
  findById s qid = Done (Some r) ->
  findAnswerById s newId = None ->
  ~ In newId (row_answers r) ->
  exists s' out r',
    AnswerRepository_addAnswer newId s qid answerData = (s', out)
    /\ findById s' qid = Done (Some r')
    /\ mostRecentActivity (loadWithTagsAndAnswers s' r')
       = Z.max (mostRecentActivity (loadWithTagsAndAnswers s r)) d.
Proof.
  intros Hd Ht Hb Hf Hfresh Hnot.
  destruct (findById_found s qid r Hf) as (id & Hc & Hfind & Hid). subst id.
  rewrite (addAnswer_found newId s qid answerData d r Hd Ht Hb Hf).
  eexists. eexists. exists (pushRowAnswer newId r).
  split; [reflexivity|]. split.
  { unfold findById. rewrite Hc. cbn [QuestionColl]. f_equal.
    rewrite find_updateFirst by reflexivity.
    now rewrite String.eqb_refl, Hfind. }
  rewrite !activity_of_loaded.
  set (a := mkAnswer newId (ad_text answerData) (ad_ans_by answerData) d).
  pose proof (answersOfRow_pushed
                s (mkStore (updateFirst (row_id r) (pushRowAnswer newId)
                                        (QuestionColl s))
                           (AnswerColl s ++ [a]) (TagColl s))
                a r eq_refl Hfresh Hnot) as E.
  change (ans_id a) with newId in E. rewrite E.
  rewrite map_app. cbn [map]. apply maxTimestamp_snoc.
Qed.

(** A strictly greatest element comes first in the descending sort. *)
Lemma sortBy_greatest_first {A : Type} (key : A -> Z) (before after : list A)
      (x : A) :
  (forall y, In y (before ++ after) -> key y < key x) ->
  sortBy (fun a b => key b - key a) (before ++ x :: after)
  = x :: sortBy (fun a b => key b - key a) (before ++ after).
Proof.
  intros Hlt. symmetry. apply sortBy_unique.
  - unfold SpecWords.sortedDescBy. constructor; [apply sortBy_desc|].
    rewrite Forall_forall. intros y Hy.
    apply (Permutation_in _ (sortBy_perm _ _)) in Hy.
    specialize (Hlt y Hy). lia.
  - intros k. cbn [filter]. rewrite sortBy_ties, !filter_app. cbn [filter].
    destruct (key x =? k) eqn:E; [|reflexivity].
    apply Z.eqb_eq in E.
    assert (Hb : filter (fun y => key y =? k) before = []).
    { induction before as [|b bs IH]; simpl; [reflexivity|].
      assert (Hk : key b < key x) by (apply Hlt; now left).
      destruct (Z.eqb_spec (key b) k); [lia|].
      apply IH. intros y Hy. apply Hlt. now right. }
    now rewrite Hb.
Qed.

Lemma load_after_add (s s' : Store) (a : Answer) (r : QuestionRow) :
  AnswerColl s' = AnswerColl s ++ [a] ->
  TagColl s' = TagColl s ->
  ~ In (ans_id a) (row_answers r) ->
  mostRecentActivity (loadWithTagsAndAnswers s' r)
  = mostRecentActivity (loadWithTagsAndAnswers s r).
Proof.
  intros HA HT Hnot. rewrite !activity_of_loaded.
  now rewrite (answersOfRow_after_add s s' a r HA Hnot).
Qed.

(** X18.  When a valid answer with a fresh identifier, dated later than the
    activity timestamp of every stored question, is added to a stored
    question, that question comes first under the order key [active]. *)
Theorem addAnswer_makes_question_most_active (newId : ObjectId) (s : Store)
        (qid : string) (answerData : AnswerData) (d : Time)
        (r : QuestionRow) :
  parseDate (ad_ans_date_time answerData) = Some d ->
  ad_text answerData <> "" -> ad_ans_by answerData <> "" ->
  findById s qid = Done (Some r) ->
  findAnswerById s newId = None ->
  (forall x, In x (QuestionColl s) -> ~ In newId (row_answers x)) ->
  (forall x, In x (QuestionColl s) ->
             mostRecentActivity (loadWithTagsAndAnswers s x) < d) ->
  exists s' out r' rest,
    AnswerRepository_addAnswer newId s qid answerData = (s', out)
    /\ findById s' qid = Done (Some r')
    /\ getQuestions s' (Some "active") None
       = Ok (convertToPlainObject (loadWithTagsAndAnswers s' r')
             :: map convertToPlainObject rest)
    /\ mostRecentActivity (loadWithTagsAndAnswers s' r') = d.
Proof.
  intros Hd Ht Hb Hf Hfresh Hnot Hlate.
  destruct (findById_found s qid r Hf) as (id & Hc & Hfind & Hid). subst id.
  rewrite (addAnswer_found newId s qid answerData d r Hd Ht Hb Hf).
  set (a := mkAnswer newId (ad_text answerData) (ad_ans_by answerData) d).
  destruct (updateFirst_split (row_id r) (pushRowAnswer newId) _ r Hfind)
    as (before & after & Hrows & Hupd & _).
  set (s' := mkStore (updateFirst (row_id r) (pushRowAnswer newId) (QuestionColl s))
                     (AnswerColl s ++ [a]) (TagColl s)).
  assert (Hr : In r (QuestionColl s)).
  { rewrite Hrows. apply in_or_app. right. now left. }
  assert (Hact : mostRecentActivity
                   (loadWithTagsAndAnswers s' (pushRowAnswer newId r)) = d).
  { rewrite activity_of_loaded.
    pose proof (answersOfRow_pushed s s' a r eq_refl Hfresh (Hnot r Hr)) as E.
    change (ans_id a) with newId in E. rewrite E.
    rewrite map_app. cbn [map]. rewrite maxTimestamp_snoc.
    cbn [pushRowAnswer row_ask_date_time].
    rewrite <- activity_of_loaded. subst a. cbn [ans_date_time].
    specialize (Hlate r Hr). lia. }
  eexists. eexists. exists (pushRowAnswer newId r).
  exists (sortBy activityCmp
                 (map (loadWithTagsAndAnswers s') (before ++ after))).
  split; [reflexivity|]. split.
  { unfold findById, s'. rewrite Hc. cbn [QuestionColl]. f_equal.
    rewrite find_updateFirst by reflexivity.
    now rewrite String.eqb_refl, Hfind. }
  split; [|exact Hact].
  unfold getQuestions, createStrategy, execute, getQuestionsByOrder.
  rewrite rawQuestionsByOrder_active. fold s'. f_equal.
  change (QuestionColl s')
    with (updateFirst (row_id r) (pushRowAnswer newId) (QuestionColl s)).
  rewrite Hupd, !map_app. cbn [map].
  change (sortBy activityCmp) with
    (sortBy (fun x y : Question => mostRecentActivity y - mostRecentActivity x)).
  rewrite (sortBy_greatest_first mostRecentActivity).
  - reflexivity.
  - intros y Hy. rewrite <- map_app in Hy.
    apply in_map_iff in Hy as (x & <- & Hx).
    assert (Hxin : In x (QuestionColl s)).
    { rewrite Hrows. apply in_app_iff in Hx as [Hx|Hx];
        apply in_or_app; [now left | right; now right]. }
    rewrite Hact.
    rewrite (load_after_add s s' a x eq_refl eq_refl (Hnot x Hxin)).
    now apply Hlate.
Qed.

(* ------------------------------------------------------------------ *)
(** ** Adding a question *)
(* ------------------------------------------------------------------ *)

Lemma findOrCreateTags_cases (fresh : nat -> ObjectId) (s : Store)
      (names : list string) :
  findOrCreateTags fresh s names
  = if forallb requiredString (missingNames s names) then
      (tagsReadyStore fresh s names, Done (createdTagIds fresh s names))
    else (s, Failed ValidationError).
Proof.
  unfold findOrCreateTags. rewrite findOrCreateMany_cases.
  now destruct (forallb requiredString (missingNames s names)).
Qed.

Lemma createdTagIds_In (fresh : nat -> ObjectId) (s : Store)
      (names : list string) (id : ObjectId) :
  In id (createdTagIds fresh s names)
  <-> exists t, In t (TagColl (tagsReadyStore fresh s names))
                /\ In (tag_name t) names /\ tag_id t = id.
Proof.
  unfold createdTagIds, tagsReadyStore. cbn [TagColl].
  rewrite in_map_iff.
  assert (Hnew : forall t, In t (newTagDocs fresh 0 (missingNames s names)) ->
                           In (tag_name t) names).
  { intros t Ht. apply (in_map tag_name) in Ht.
    rewrite newTagDocs_names in Ht. now apply missingNames_In in Ht as [H _]. }
  split.
  - intros (t & E & Ht). exists t. apply in_app_iff in Ht as [Ht|Ht].
    + apply existingTagsFor_In in Ht as [H1 H2].
      split; [apply in_or_app; now left|]. now split.
    + split; [apply in_or_app; now right|]. split; [now apply Hnew | exact E].
  - intros (t & Ht & Hn & E). exists t. split; [exact E|].
    apply in_app_iff in Ht as [Ht|Ht]; apply in_or_app.
    + left. apply existingTagsFor_In. now split.
    + now right.
Qed.

(** The ways the service's [addQuestion] ends. *)
Lemma addQuestion_cases (freshTag : nat -> ObjectId) (newId : ObjectId)
      (s : Store) (qd : NewQuestion) :
  let names := map ti_name (nq_tags qd) in
  let s1 := tagsReadyStore freshTag s names in
  questionService_addQuestion freshTag newId s qd
  = if forallb requiredString (missingNames s names) then
      match parseDate (nq_ask_date_time qd) with
      | Some d =>
          if (requiredString (nq_title qd) && requiredString (nq_text qd)
              && requiredString (nq_asked_by qd))%bool then
            let row := newQuestionRow freshTag newId s qd d in
            let s' := withQuestions s1 (QuestionColl s ++ [row]) in
            (s', Done (convertToPlainObject (loadWithTags s' row)))
          else (s1, Failed ValidationError)
      | None => (s1, Failed ValidationError)
      end
    else (s, Failed ValidationError).
Proof.
  cbv zeta. unfold questionService_addQuestion. cbv zeta.
  rewrite findOrCreateTags_cases.
  destruct (forallb requiredString _); [|reflexivity].
  unfold QuestionRepository_addQuestion.
  cbn [qd_ask_date_time qd_title qd_text qd_asked_by qd_tags].
  destruct (parseDate (nq_ask_date_time qd)); [|reflexivity].
  destruct (requiredString (nq_title qd) && requiredString (nq_text qd)
            && requiredString (nq_asked_by qd))%bool; reflexivity.
Qed.

Lemma addQuestion_success (freshTag : nat -> ObjectId) (newId : ObjectId)
      (s s' : Store) (qd : NewQuestion) (out : PlainObject) :
  questionService_addQuestion freshTag newId s qd = (s', Done out) ->
  exists d,
    parseDate (nq_ask_date_time qd) = Some d
    /\ nq_title qd <> "" /\ nq_text qd <> "" /\ nq_asked_by qd <> ""
    /\ s' = withQuestions
              (tagsReadyStore freshTag s (map ti_name (nq_tags qd)))
              (QuestionColl s ++ [newQuestionRow freshTag newId s qd d])
    /\ out = convertToPlainObject
               (loadWithTags s' (newQuestionRow freshTag newId s qd d)).
Proof.
  rewrite addQuestion_cases. cbv zeta.
  destruct (forallb requiredString _); [|discriminate].
  destruct (parseDate (nq_ask_date_time qd)) as [d|]; [|discriminate].
  destruct (requiredString (nq_title qd)) eqn:E1; [|discriminate].
  destruct (requiredString (nq_text qd)) eqn:E2; [|discriminate].
  destruct (requiredString (nq_asked_by qd)) eqn:E3; [|discriminate].
  cbn [andb]. intros H. inversion H; subst. exists d.
  apply requiredString_true in E1, E2, E3. now repeat split.
Qed.

(** X19.  When the service's [addQuestion] succeeds, the question is stored
    behind the questions already there, with the given title, text, author
    and date, no view, no answer, and as tags the identifiers of exactly
    the stored tags that carry a requested name; every requested name is
    then the name of a stored tag, and the answers are untouched. *)
Theorem addQuestion_stores_question (freshTag : nat -> ObjectId)
        (newId : ObjectId) (s s' : Store) (qd : NewQuestion)
        (out : PlainObject) :
  questionService_addQuestion freshTag newId s qd = (s', Done out) ->
  exists d tagIds,
    parseDate (nq_ask_date_time qd) = Some d
    /\ QuestionColl s'
       = QuestionColl s
         ++ [mkRow newId (nq_title qd) (nq_text qd) (nq_asked_by qd) d 0 []
                   tagIds]
    /\ (forall id, In id tagIds <->
                   exists t, In t (TagColl s')
                             /\ In (tag_name t) (map ti_name (nq_tags qd))
                             /\ tag_id t = id)
    /\ (forall n, In n (map ti_name (nq_tags qd)) ->
                  In n (map tag_name (TagColl s')))
    /\ (exists added, TagColl s' = TagColl s ++ added)
    /\ AnswerColl s' = AnswerColl s.
Proof.
  intros H. destruct (addQuestion_success _ _ _ _ _ _ H)
    as (d & Hd & _ & _ & _ & -> & _).
  exists d, (createdTagIds freshTag s (map ti_name (nq_tags qd))).
  cbn [withQuestions tagsReadyStore QuestionColl AnswerColl TagColl].
  split; [exact Hd|]. split; [reflexivity|]. split.
  { intros id. apply createdTagIds_In. }
  split.
  { intros n Hn. rewrite map_app, in_app_iff.
    destruct (in_dec string_dec n (map tag_name (TagColl s))) as [Hs|Hs];
      [now left|].
    right. rewrite newTagDocs_names. apply missingNames_In. now split. }
  split; [eexists; reflexivity | reflexivity].
Qed.

(** X20.  The service's [addQuestion] creates the tags before it validates
    the question and does not undo them: when every tag can be created but
    the title, the text or the author is empty, or the date is invalid, it
    fails with a validation error, no question is stored, and the tags that
    were missing are stored all the same.  When the tags cannot be created
    (an empty name that no stored tag carries) nothing at all is written. *)
Theorem addQuestion_failure_keeps_new_tags (freshTag : nat -> ObjectId)
        (newId : ObjectId) (s : Store) (qd : NewQuestion) :
  let names := map ti_name (nq_tags qd) in
  ((~ (In "" names /\ ~ In "" (map tag_name (TagColl s)))) ->
   (nq_title qd = "" \/ nq_text qd = "" \/ nq_asked_by qd = ""
    \/ parseDate (nq_ask_date_time qd) = None) ->
   exists s' added,
     questionService_addQuestion freshTag newId s qd
     = (s', Failed ValidationError)
     /\ QuestionColl s' = QuestionColl s
     /\ TagColl s' = TagColl s ++ added
     /\ forall n, In n (map tag_name added)
                  <-> In n names /\ ~ In n (map tag_name (TagColl s)))
  /\ (In "" names -> ~ In "" (map tag_name (TagColl s)) ->
      questionService_addQuestion freshTag newId s qd
      = (s, Failed ValidationError)).
Proof.
  cbv zeta. rewrite addQuestion_cases. cbv zeta.
  set (names := map ti_name (nq_tags qd)).
  split.
  - intros Htags Hbad.
    assert (Hok : forallb requiredString (missingNames s names) = true).
    { apply forallb_forall. intros n Hn. apply requiredString_true.
      intros ->. apply Htags. now apply missingNames_In. }
    rewrite Hok.
    exists (tagsReadyStore freshTag s names),
           (newTagDocs freshTag 0 (missingNames s names)).
    split.
    + destruct (parseDate (nq_ask_date_time qd)) as [d|]; [|reflexivity].
      destruct Hbad as [H|[H|[H|H]]]; [| | |discriminate];
        apply requiredString_false in H; rewrite H;
        now rewrite ?andb_false_r.
    + split; [reflexivity|]. split; [reflexivity|].
      intros n. rewrite newTagDocs_names. apply missingNames_In.
  - intros H1 H2.
    assert (Hbad : forallb requiredString (missingNames s names) = false).
    { apply not_true_is_false. intros Hall.
      rewrite forallb_forall in Hall.
      assert (Hin : In "" (missingNames s names))
        by (apply missingNames_In; now split).
      specialize (Hall "" Hin). discriminate. }
    now rewrite Hbad.
Qed.

Lemma load_without_answers (s : Store) (r : QuestionRow) :
  row_answers r = [] ->
  loadWithTagsAndAnswers s r = loadWithTags s r.
Proof.
  destruct r as [i t x b d v ans tg]. cbn [row_answers]. intros ->.
  reflexivity.
Qed.

(** A stored question without answers that matches the query is in the
    result, whatever the order key. *)
Lemma rawQuestionsByQuery_contains (s : Store) (query : Query)
      (order : option string) (r : QuestionRow) :
  In r (QuestionColl s) -> matchesQuery query r = true ->
  row_answers r = [] ->
  In (loadWithTags s r) (rawQuestionsByQuery s query order).
Proof.
  intros Hin Hm Hna. unfold rawQuestionsByQuery.
  destruct (orderIs order "active").
  - cbv zeta. apply (Permutation_in _ (Permutation_sym (sortBy_perm _ _))).
    rewrite <- (load_without_answers s r Hna). apply in_map.
    rewrite findQuestions_plain. apply filter_In. now split.
  - destruct (orderIs order "unanswered"); apply in_map;
      apply (Permutation_in _ (Permutation_sym (sortBy_perm _ _)));
      apply filter_In; (split; [exact Hin|]).
    + unfold matchesFilter. cbn [withNoAnswers f_query f_answers_size].
      rewrite Hm. unfold answersSize. now rewrite Hna.
    + now rewrite matchesFilter_plain.
Qed.

(** X21.  A question that was added is found by the search for any of its
    tags: after a successful [addQuestion], for every requested tag name in
    lower-case form (the platform's lower-casing leaves it unchanged) and
    without space, [getQuestions] with the search string [[name]] has, under
    every order key, the returned question among its results. *)
Theorem addQuestion_found_by_tag_search (freshTag : nat -> ObjectId)
        (newId : ObjectId) (s s' : Store) (qd : NewQuestion)
        (out : PlainObject) (name : string) (order : option string) :
  questionService_addQuestion freshTag newId s qd = (s', Done out) ->
  In name (map ti_name (nq_tags qd)) ->
  toLowerCase name = name ->
  ~ In " "%char (list_ascii_of_string name) ->
  exists found,
    getQuestions s' order (Some (String "[" (name ++ "]"))) = Ok found
    /\ In out found.
Proof.
  intros H Hname Hlow Hsp.
  destruct (addQuestion_success _ _ _ _ _ _ H)
    as (d & Hd & _ & _ & _ & Hs' & Hout).
  set (names := map ti_name (nq_tags qd)) in *.
  set (row := newQuestionRow freshTag newId s qd d) in *.
  assert (Htag : exists t, In t (TagColl s') /\ tag_name t = name).
  { assert (Hn : In name (map tag_name (TagColl s'))).
    { rewrite Hs'. cbn [withQuestions tagsReadyStore TagColl].
      rewrite map_app, in_app_iff.
      destruct (in_dec string_dec name (map tag_name (TagColl s))) as [Hx|Hx];
        [now left|].
      right. rewrite newTagDocs_names. apply missingNames_In. now split. }
    apply in_map_iff in Hn as (t & E & Ht). now exists t. }
  destruct Htag as (t & Ht & Etn). subst name.
  destruct (search_one_tag s' t order Ht Hlow Hsp) as (ids & _ & Hid & _ & E).
  eexists. split; [exact E|].
  rewrite Hout. unfold getQuestionsByQuery. apply in_map.
  apply rawQuestionsByQuery_contains.
  - rewrite Hs'. cbn [withQuestions QuestionColl]. apply in_or_app. right.
    now left.
  - unfold matchesQuery. cbn [q_tags_in q_or_title_text].
    rewrite andb_true_r. unfold tagsIn. apply existsb_exists.
    exists (tag_id t). split; [|now apply includes_In].
    unfold row, newQuestionRow. cbn [row_tags]. fold names.
    apply createdTagIds_In. exists t. split; [|now split].
    rewrite Hs' in Ht. exact Ht.
  - reflexivity.
Qed.

(** X22.  A question that was added can be fetched: after a successful
    [addQuestion] with an identifier no stored question had, fetching that
    identifier returns the question with the given title, text, author and
    date, no answer, and a view counter of one. *)
Theorem addQuestion_then_fetch (freshTag : nat -> ObjectId)
        (newId : ObjectId) (s s' : Store) (qd : NewQuestion)
        (out : PlainObject) (qid : string) :
  questionService_addQuestion freshTag newId s qd = (s', Done out) ->
  castObjectId qid = Some newId ->
  (forall x, In x (QuestionColl s) -> row_id x <> newId) ->
  exists s'' d tgs,
    parseDate (nq_ask_date_time qd) = Some d
    /\ questionService_getQuestionById s' qid
       = (s'', Done (Some (convertToPlainObject
                             (mkQuestion newId (nq_title qd) (nq_text qd)
                                         (nq_asked_by qd) d 1 [] tgs)))).
Proof.
  intros H Hc Hfresh.
  destruct (addQuestion_success _ _ _ _ _ _ H)
    as (d & Hd & _ & _ & _ & Hs' & _).
  set (row := newQuestionRow freshTag newId s qd d) in *.
  assert (Hf : findById s' qid = Done (Some row)).
  { unfold findById. rewrite Hc, Hs'. cbn [withQuestions QuestionColl]. f_equal.
    clear -Hfresh. induction (QuestionColl s) as [|x xs IH]; simpl.
    - now rewrite String.eqb_refl.
    - destruct (String.eqb_spec (row_id x) newId) as [E|E].
      + exfalso. apply (Hfresh x); [now left | exact E].
      + apply IH. intros y Hy. apply Hfresh. now right. }
  eexists. exists d. eexists. split; [exact Hd|].
  unfold questionService_getQuestionById, QuestionRepository_getQuestionById.
  rewrite (fetch_found s' qid row Hf).
  assert (E : findAnswersIn s' (row_answers row) = []).
  { unfold findAnswersIn, row, newQuestionRow. cbn [row_answers].
    induction (AnswerColl s') as [|a l IH]; simpl; [reflexivity | exact IH]. }
  rewrite E. reflexivity.
Qed.

Lemma countQuestionsWithTag_snoc (s s' : Store) (row : QuestionRow)
      (id : ObjectId) :
  QuestionColl s' = QuestionColl s ++ [row] ->
  countQuestionsWithTag s' id
  = (countQuestionsWithTag s id
     + if existsb (String.eqb id) (row_tags row) then 1 else 0)%nat.
Proof.
  intros E. unfold countQuestionsWithTag. rewrite E, filter_app, length_app.
  f_equal. cbn [filter].
  now destruct (existsb (String.eqb id) (row_tags row)).
Qed.

(** X23.  Adding a question raises by one the question count of each tag
    that carries a requested name and leaves the count of every other tag
    as it was, in a store where tags have distinct identifiers. *)
Theorem addQuestion_raises_tag_counts (freshTag : nat -> ObjectId)
        (newId : ObjectId) (s s' : Store) (qd : NewQuestion)
        (out : PlainObject) (t : Tag) :
  questionService_addQuestion freshTag newId s qd = (s', Done out) ->
  NoDup (map tag_id (TagColl s')) ->
  In t (TagColl s') ->
  countQuestionsWithTag s' (tag_id t)
  = (countQuestionsWithTag s (tag_id t)
     + if JsString.includes (map ti_name (nq_tags qd)) (tag_name t)
       then 1 else 0)%nat.
Proof.
  intros H Hnd Ht.
  destruct (addQuestion_success _ _ _ _ _ _ H)
    as (d & Hd & _ & _ & _ & Hs' & _).
  set (names := map ti_name (nq_tags qd)) in *.
  rewrite (countQuestionsWithTag_snoc
             s s' (newQuestionRow freshTag newId s qd d))
    by (rewrite Hs'; reflexivity).
  f_equal. unfold newQuestionRow. cbn [row_tags]. fold names.
  assert (Hiff : In (tag_id t) (createdTagIds freshTag s names)
                 <-> In (tag_name t) names).
  { rewrite createdTagIds_In. split.
    - intros (t' & Ht' & Hn & E).
      assert (Ht2 : In t' (TagColl s')) by (rewrite Hs'; exact Ht').
      assert (t' = t); [|now subst].
      clear -Hnd Ht Ht2 E. induction (TagColl s') as [|x xs IH]; [destruct Ht|].
      simpl in Hnd. inversion Hnd as [|? ? Hx Hxs]; subst.
      destruct Ht as [->|Ht], Ht2 as [->|Ht2]; [reflexivity | | |now apply IH].
      + exfalso. apply Hx. rewrite <- E. now apply in_map.
      + exfalso. apply Hx. rewrite E. now apply in_map.
    - intros Hn. exists t. split; [|now split].
      rewrite Hs' in Ht. exact Ht. }
  destruct (JsString.includes names (tag_name t)) eqn:Ei.
  - apply includes_In, Hiff in Ei.
    assert (Hex : existsb (String.eqb (tag_id t))
                          (createdTagIds freshTag s names) = true).
    { apply existsb_exists. exists (tag_id t). split; [exact Ei|].
      apply String.eqb_refl. }
    now rewrite Hex.
  - assert (Hex : existsb (String.eqb (tag_id t))
                          (createdTagIds freshTag s names) = false).
    { apply not_true_is_false. intros Hx. apply existsb_exists in Hx as (x & Hx & E).
      apply String.eqb_eq in E. subst x. apply Hiff, includes_In in Hx.
      congruence. }
    now rewrite Hex.
Qed.

(** X24.  A question added with a date later than that of every stored
    question comes first under every order key but [active], with or
    without a key: it is the newest, and it has no answer. *)
Theorem addQuestion_newest_first (freshTag : nat -> ObjectId)
        (newId : ObjectId) (s s' : Store) (qd : NewQuestion)
        (out : PlainObject) (d : Time) (order : option string) :
  questionService_addQuestion freshTag newId s qd = (s', Done out) ->
  parseDate (nq_ask_date_time qd) = Some d ->
  (forall x, In x (QuestionColl s) -> row_ask_date_time x < d) ->
  order <> Some "active" ->
  exists rest, getQuestions s' order None = Ok (out :: rest).
Proof.
  intros H Hd Hlate Ha.
  destruct (addQuestion_success _ _ _ _ _ _ H)
    as (d' & Hd' & _ & _ & _ & Hs' & Hout).
  assert (d' = d) by congruence. subst d'.
  set (row := newQuestionRow freshTag newId s qd d) in *.
  assert (Hrows : QuestionColl s' = QuestionColl s ++ [row])
    by (rewrite Hs'; reflexivity).
  assert (Hsort : forall keep : QuestionRow -> bool,
             keep row = true ->
             sortByAskDateDesc (filter keep (QuestionColl s'))
             = row :: sortByAskDateDesc (filter keep (QuestionColl s))).
  { intros keep Hk. rewrite Hrows, filter_app. cbn [filter]. rewrite Hk.
    unfold sortByAskDateDesc.
    rewrite (sortBy_greatest_first row_ask_date_time).
    - now rewrite app_nil_r.
    - intros y Hy. rewrite app_nil_r in Hy. apply filter_In in Hy as [Hy _].
      unfold row, newQuestionRow. cbn [row_ask_date_time]. now apply Hlate. }
  unfold getQuestions, createStrategy, execute, getQuestionsByOrder.
  unfold rawQuestionsByOrder, getNewestQuestions, getUnansweredQuestions.
  apply orderIs_false in Ha. rewrite Ha.
  assert (Hall : findQuestions s' (plainFilter emptyQuery)
                 = filter (fun _ => true) (QuestionColl s')).
  { rewrite findQuestions_all. symmetry. apply forallb_filter_id.
    apply forallb_forall. reflexivity. }
  rewrite Hall, findQuestions_unanswered_all.
  rewrite (Hsort (fun _ => true) eq_refl), (Hsort (answersSize 0) eq_refl).
  destruct (orderIs order "newest"), (orderIs order "unanswered");
    cbn [map]; rewrite <- Hout; eexists; reflexivity.
Qed.

(* ------------------------------------------------------------------ *)
(** ** A fetch does not disturb the search *)
(* ------------------------------------------------------------------ *)

Lemma filter_through {A B : Type} (e : A -> B) (p : A -> bool) (p0 : B -> bool)
      (l : list A) :
  (forall a, p a = p0 (e a)) ->
  map e (filter p l) = filter p0 (map e l).
Proof.
  intros H. induction l as [|a l IH]; simpl; [reflexivity|].
  rewrite <- H. destruct (p a); simpl; now rewrite IH.
Qed.

Lemma sortInsert_through {A B : Type} (e : A -> B) (cmp : A -> A -> Z)
      (cmp0 : B -> B -> Z) (x : A) (l : list A) :
  (forall a b, cmp a b = cmp0 (e a) (e b)) ->
  map e (sortInsert cmp x l) = sortInsert cmp0 (e x) (map e l).
Proof.
  intros H. induction l as [|y ys IH]; simpl; [reflexivity|].
  rewrite <- H. destruct (cmp x y <=? 0); simpl; [reflexivity|].
  now rewrite IH.
Qed.

Lemma sortBy_through {A B : Type} (e : A -> B) (cmp : A -> A -> Z)
      (cmp0 : B -> B -> Z) (l : list A) :
  (forall a b, cmp a b = cmp0 (e a) (e b)) ->
  map e (sortBy cmp l) = sortBy cmp0 (map e l).
Proof.
  intros H. induction l as [|x xs IH]; simpl; [reflexivity|].
  now rewrite (sortInsert_through e cmp cmp0 x _ H), IH.
Qed.

Lemma mostRecentActivity_withoutViews (q : Question) :
  mostRecentActivity (withoutViews q) = mostRecentActivity q.
Proof. reflexivity. Qed.

Lemma matchesFilter_views (f : Filter) (v : Z) (r : QuestionRow) :
  matchesFilter f r = matchesFilter f (setRowViews v r).
Proof. reflexivity. Qed.

Lemma updateFirst_views (id : ObjectId) (v : Z) (rows : list QuestionRow) :
  map (setRowViews 0) (updateFirst id (setRowViews v) rows)
  = map (setRowViews 0) rows.
Proof.
  induction rows as [|x xs IH]; simpl; [reflexivity|].
  destruct (String.eqb (row_id x) id); simpl; [reflexivity | now rewrite IH].
Qed.

(** The results of the ordering engine, up to the view counter, are a
    function of the rows up to the view counter. *)
Lemma rawQuestionsByQuery_through (s s' : Store) (query : Query)
      (order : option string) :
  AnswerColl s' = AnswerColl s -> TagColl s' = TagColl s ->
  map (setRowViews 0) (QuestionColl s') = map (setRowViews 0) (QuestionColl s) ->
  map withoutViews (rawQuestionsByQuery s' query order)
  = map withoutViews (rawQuestionsByQuery s query order).
Proof.
  intros HA HT HQ.
  assert (Hload : forall st r, withoutViews (loadWithTags st r)
                               = loadWithTags st (setRowViews 0 r))
    by reflexivity.
  assert (Hfull : forall st r, withoutViews (loadWithTagsAndAnswers st r)
                               = loadWithTagsAndAnswers st (setRowViews 0 r))
    by reflexivity.
  assert (Hst : forall r, loadWithTags s' r = loadWithTags s r).
  { intros r. unfold loadWithTags, populateTags, populateTag, findTagById.
    now rewrite HT. }
  assert (Hst2 : forall r, loadWithTagsAndAnswers s' r
                           = loadWithTagsAndAnswers s r).
  { intros r. unfold loadWithTagsAndAnswers, populateAnswers, populateAnswer,
                     findAnswerById, populateTags, populateTag, findTagById.
    now rewrite HT, HA. }
  assert (Hrows : forall (st : Store) (f : Filter),
             map (setRowViews 0) (findQuestions st f)
             = filter (matchesFilter f) (map (setRowViews 0) (QuestionColl st))).
  { intros st f. unfold findQuestions. apply filter_through.
    intros a. apply matchesFilter_views. }
  assert (Hnewest : forall (st : Store) (f : Filter),
             map withoutViews
                 (map (loadWithTags st) (sortByAskDateDesc (findQuestions st f)))
             = map (loadWithTags st)
                   (sortByAskDateDesc
                      (filter (matchesFilter f)
                              (map (setRowViews 0) (QuestionColl st))))).
  { intros st f. rewrite map_map.
    rewrite (map_ext _ (fun r => loadWithTags st (setRowViews 0 r)) (Hload st)).
    rewrite <- (map_map (setRowViews 0) (loadWithTags st)). f_equal.
    unfold sortByAskDateDesc.
    rewrite (sortBy_through (setRowViews 0) _
               (fun a b => row_ask_date_time b - row_ask_date_time a))
      by reflexivity.
    now rewrite Hrows. }
  assert (Hactive : forall (st : Store) (f : Filter),
             map withoutViews
                 (sortBy activityCmp
                         (map (loadWithTagsAndAnswers st) (findQuestions st f)))
             = sortBy activityCmp
                      (map (loadWithTagsAndAnswers st)
                           (filter (matchesFilter f)
                                   (map (setRowViews 0) (QuestionColl st))))).
  { intros st f.
    rewrite (sortBy_through withoutViews activityCmp activityCmp)
      by reflexivity.
    f_equal. rewrite map_map.
    rewrite (map_ext _ (fun r => loadWithTagsAndAnswers st (setRowViews 0 r))
                     (Hfull st)).
    rewrite <- (map_map (setRowViews 0) (loadWithTagsAndAnswers st)).
    now rewrite Hrows. }
  unfold rawQuestionsByQuery. cbv zeta.
  destruct (orderIs order "active").
  - rewrite !Hactive, HQ. f_equal. apply map_ext. exact Hst2.
  - destruct (orderIs order "unanswered"); rewrite !Hnewest, HQ;
      apply map_ext; exact Hst.
Qed.

Lemma rawQuestionsByOrder_as_query (s : Store) (order : option string) :
  rawQuestionsByOrder s order
  = rawQuestionsByQuery s emptyQuery order.
Proof.
  unfold rawQuestionsByOrder, rawQuestionsByQuery, getNewestQuestions,
         getUnansweredQuestions, getActiveQuestions. cbv zeta.
  destruct order as [o|]; cbn [orderIs]; [|reflexivity].
  destruct (String.eqb_spec o "newest") as [->|_]; [reflexivity|].
  destruct (String.eqb_spec o "unanswered") as [->|_]; [reflexivity|].
  now destruct (String.eqb o "active").
Qed.

Lemma fetch_store (s s' : Store) (qid : string)
      (out : Outcome (option PlainObject)) :
  QuestionRepository_getQuestionById s qid = (s', out) ->
  AnswerColl s' = AnswerColl s /\ TagColl s' = TagColl s
  /\ map (setRowViews 0) (QuestionColl s')
     = map (setRowViews 0) (QuestionColl s).
Proof.
  unfold QuestionRepository_getQuestionById.
  destruct (findById s qid) as [[r|]|e] eqn:E.
  - rewrite (fetch_found s qid r E). intros H. inversion H; subst.
    cbn [withQuestions AnswerColl TagColl QuestionColl].
    repeat split. apply updateFirst_views.
  - unfold findByIdAndIncrementViews. rewrite E. intros H. inversion H.
    now repeat split.
  - unfold findByIdAndIncrementViews. rewrite E. intros H. inversion H.
    now repeat split.
Qed.

(** X25.  Fetching a question disturbs no search: whatever the identifier
    and its outcome, afterwards [getQuestionsByQuery] and
    [getQuestionsByOrder] select the same questions in the same order as
    before, for every query and order key, and the documents differ at most
    in a view counter. *)
Theorem fetch_keeps_search_results (s s' : Store) (qid : string)
        (out : Outcome (option PlainObject)) (query : Query)
        (order : option string) :
  QuestionRepository_getQuestionById s qid = (s', out) ->
  map withoutViews (rawQuestionsByQuery s' query order)
  = map withoutViews (rawQuestionsByQuery s query order)
  /\ map withoutViews (rawQuestionsByOrder s' order)
     = map withoutViews (rawQuestionsByOrder s order)
  /\ map q_id (rawQuestionsByQuery s' query order)
     = map q_id (rawQuestionsByQuery s query order).
Proof.
  intros H. destruct (fetch_store s s' qid out H) as (HA & HT & HQ).
  assert (G := rawQuestionsByQuery_through s s' query order HA HT HQ).
  split; [exact G|]. split.
  - rewrite !rawQuestionsByOrder_as_query.
    now apply rawQuestionsByQuery_through.
  - apply (f_equal (map q_id)) in G. now rewrite !map_map in G.
Qed.

End Engine.

(* ------------------------------------------------------------------ *)
(** ** The engine at concrete inputs *)
(* ------------------------------------------------------------------ *)

(** C6.  The search [a.c] on a board whose only question is titled [abc]
    with text [xyz]: the term is a plain term, the query built from it has
    only the text clause, and the question is returned, although neither its
    title nor its text contains [a.c], whatever the letter case. *)
Theorem wildcard_term_matches_without_containing :
  parseSearchTerms AsciiCase.toLowerCase "a.c" = mkTerms [] ["a.c"]
  /\ buildQuery RegExpFragment.valid (Some []) ["a.c"]
     = Ok (mkQuery None (Some [mkRegExp "a.c" true]))
  /\ getQuestions AsciiCase.toLowerCase RegExpFragment.valid
       RegExpFragment.test Question
       Examples.plain Examples.title1 Examples.title2 Examples.title3
       Examples.wildcardBoard None (Some "a.c")
     = Ok [loadWithTags Examples.wildcardBoard Examples.rowAbc]
  /\ SpecWords.containsIgnoringCase "a.c" (row_title Examples.rowAbc) = false
  /\ SpecWords.containsIgnoringCase "a.c" (row_text Examples.rowAbc) = false.
Proof. repeat split; reflexivity. Qed.

(** C5, counterexample.  A tab is white space, yet the parser does not cut
    the string [a<TAB>b]: it is one plain term, where splitting on white
    space gives the two plain terms [a] and [b]. *)
Lemma tab_is_not_a_separator :
  SpecWords.isWhitespace "009" = true
  /\ regularSearchTerms
       (parseSearchTerms AsciiCase.toLowerCase Examples.tabbed)
     = [Examples.tabbed]
  /\ regularSearchTerms
       (SpecWords.parseOnWhitespace AsciiCase.toLowerCase Examples.tabbed)
     = ["a"; "b"]
  /\ parseSearchTerms AsciiCase.toLowerCase Examples.tabbed
     <> SpecWords.parseOnWhitespace AsciiCase.toLowerCase Examples.tabbed.
Proof. repeat split; try reflexivity. discriminate. Qed.

(** C9, counterexample.  The tag stored as [React] is named by the
    lower-cased form of the search term [[react]], and yet the lookup finds
    no tag and the search returns nothing. *)
Lemma mixed_case_tag_not_resolved :
  In Examples.tagMixedCase (TagColl Examples.mixedCaseBoard)
  /\ tagSearchTerms (parseSearchTerms AsciiCase.toLowerCase "[react]") = ["react"]
  /\ AsciiCase.toLowerCase (tag_name Examples.tagMixedCase) = "react"
  /\ findTagIds Examples.mixedCaseBoard ["react"] = None
  /\ getQuestions AsciiCase.toLowerCase RegExpFragment.valid
       RegExpFragment.test Question
       Examples.plain Examples.title1 Examples.title2 Examples.title3
       Examples.mixedCaseBoard None (Some "[react]")
     = Ok [].
Proof. repeat split; try reflexivity. now left. Qed.

(* ------------------------------------------------------------------ *)
(** ** The theorems at concrete inputs *)
(* ------------------------------------------------------------------ *)

Lemma newest_and_unanswered_order_witness :
  Some "newest" <> Some "active"
  /\ Some "newest" <> Some "unanswered"
  /\ Permutation
       (rawQuestionsByQuery RegExpFragment.test Examples.board emptyQuery
                            (Some "newest"))
       (map (loadWithTags Examples.board)
            (filter (matchesQuery RegExpFragment.test emptyQuery)
                    (QuestionColl Examples.board)))
  /\ SpecWords.sortedDescBy ask_date_time
       (rawQuestionsByQuery RegExpFragment.test Examples.board emptyQuery
                            (Some "newest")).
Proof.
  assert (Ha : Some "newest" <> Some "active") by discriminate.
  assert (Hu : Some "newest" <> Some "unanswered") by discriminate.
  split; [exact Ha|]. split; [exact Hu|].
  exact (proj2 (proj1 (proj2 (newest_and_unanswered_order_spec
                                RegExpFragment.test Question Examples.plain
                                Examples.board emptyQuery))
                      (Some "newest") Ha Hu)).
Defined.

Lemma tag_resolution_witness :
  ["nothing"] <> []
  /\ (forall t, In t (TagColl Examples.board) -> ~ In (tag_name t) ["nothing"])
  /\ findTagIds Examples.board ["nothing"] = None
  /\ isSpecialSearch
       (regularSearchTerms
            (parseSearchTerms AsciiCase.toLowerCase
               "hooks [Nothing]"))
       (tagSearchTerms
            (parseSearchTerms AsciiCase.toLowerCase
               "hooks [Nothing]")) = false
  /\ getQuestions AsciiCase.toLowerCase RegExpFragment.valid
       RegExpFragment.test Question
       Examples.plain Examples.title1 Examples.title2 Examples.title3
       Examples.board (Some "active") (Some "hooks [Nothing]")
     = Ok []
  /\ In Examples.tagReact (TagColl Examples.board)
  /\ In (tag_name Examples.tagReact) ["react"; "nothing"]
  /\ exists ids, findTagIds Examples.board ["react"; "nothing"] = Some ids
                 /\ In "t1" ids.
Proof.
  assert (Hne : ["nothing"] <> []) by discriminate.
  assert (Hno : forall t, In t (TagColl Examples.board) ->
                          ~ In (tag_name t) ["nothing"]).
  { intros t [<-|[<-|[]]] [H|[]]; discriminate H. }
  assert (Hsp : isSpecialSearch
                  (regularSearchTerms
                       (parseSearchTerms AsciiCase.toLowerCase
                          "hooks [Nothing]"))
                  (tagSearchTerms
                       (parseSearchTerms AsciiCase.toLowerCase
                          "hooks [Nothing]")) = false)
    by reflexivity.
  assert (Hin : In Examples.tagReact (TagColl Examples.board)) by (now left).
  assert (Hnm : In (tag_name Examples.tagReact) ["react"; "nothing"])
    by (now left).
  pose proof (tag_resolution_outcomes AsciiCase.toLowerCase
                RegExpFragment.valid RegExpFragment.test Question
                Examples.plain Examples.title1 Examples.title2 Examples.title3
                Examples.board) as (_ & _ & Hnone & Hget & Hsome).
  split; [exact Hne|]. split; [exact Hno|].
  split; [exact (proj1 (Hnone ["nothing"] Hne Hno))|].
  split; [exact Hsp|].
  split; [exact (Hget "hooks [Nothing]" (Some "active") Hsp Hne Hno)|].
  split; [exact Hin|]. split; [exact Hnm|].
  destruct (Hsome ["react"; "nothing"] Examples.tagReact Hin Hnm)
    as (ids & E & _ & H & _).
  exists ids. split; [exact E | exact H].
Defined.

Lemma special_search_witness :
  (In "40" (regularSearchTerms
       (parseSearchTerms AsciiCase.toLowerCase
          "[JavaScript] documents 40 Million"))
   /\ In "million" (regularSearchTerms
        (parseSearchTerms AsciiCase.toLowerCase
           "[JavaScript] documents 40 Million"))
   /\ In "documents" (regularSearchTerms
        (parseSearchTerms AsciiCase.toLowerCase
           "[JavaScript] documents 40 Million"))
   /\ In "javascript" (tagSearchTerms
        (parseSearchTerms AsciiCase.toLowerCase
           "[JavaScript] documents 40 Million")))
  /\ getQuestions AsciiCase.toLowerCase RegExpFragment.valid
       RegExpFragment.test Question
       Examples.plain Examples.title1 Examples.title2 Examples.title3
       Examples.board (Some "active")
       (Some "[JavaScript] documents 40 Million")
     = Ok [loadWithTags Examples.board Examples.rowSorting;
           loadWithTags Examples.board Examples.rowHooks].
Proof.
  assert (Hsp : In "40" (regularSearchTerms
       (parseSearchTerms AsciiCase.toLowerCase
          "[JavaScript] documents 40 Million"))
   /\ In "million" (regularSearchTerms
        (parseSearchTerms AsciiCase.toLowerCase
           "[JavaScript] documents 40 Million"))
   /\ In "documents" (regularSearchTerms
        (parseSearchTerms AsciiCase.toLowerCase
           "[JavaScript] documents 40 Million"))
   /\ In "javascript" (tagSearchTerms
        (parseSearchTerms AsciiCase.toLowerCase
           "[JavaScript] documents 40 Million"))).
  { simpl. repeat split; auto. }
  split; [exact Hsp|].
  pose proof (special_search_spec AsciiCase.toLowerCase
                RegExpFragment.valid RegExpFragment.test Question
                Examples.plain Examples.title1 Examples.title2 Examples.title3
                Examples.board (Some "active")
                "[JavaScript] documents 40 Million") as (_ & _ & H & _).
  exact (H Hsp).
Defined.

Lemma empty_search_witness :
  Some "active" <> Some "unanswered"
  /\ exists raw,
       getQuestions AsciiCase.toLowerCase RegExpFragment.valid
         RegExpFragment.test Question
         Examples.plain Examples.title1 Examples.title2 Examples.title3
         Examples.board (Some "active") (Some "")
       = Ok (map Examples.plain raw)
       /\ Permutation (map q_id raw) ["q1"; "q2"; "q3"].
Proof.
  assert (Hu : Some "active" <> Some "unanswered") by discriminate.
  split; [exact Hu|].
  exact (proj2 (proj2 (proj2 (empty_search_is_default AsciiCase.toLowerCase
                                RegExpFragment.valid RegExpFragment.test Question
                                Examples.plain Examples.title1 Examples.title2
                                Examples.title3 Examples.board (Some "active"))))
               Hu).
Defined.

Lemma parseSearchTerms_witness :
  In "[" (JsString.split " " "Android [Mobile] [")
  /\ ~ In " "%char (list_ascii_of_string "[")
  /\ isTagTerm "[Mobile]" = true
  /\ parseSearchTerms AsciiCase.toLowerCase "Android [Mobile] ["
     = mkTerms ["mobile"] ["android"; "["].
Proof.
  assert (Hin : In "[" (JsString.split " " "Android [Mobile] ["))
    by (simpl; auto).
  pose proof (parseSearchTerms_spec AsciiCase.toLowerCase "Android [Mobile] [")
    as (_ & Hsp & _ & _ & Htag & _).
  split; [exact Hin|].
  split; [exact (Hsp "[" Hin)|].
  split; [exact (proj2 (Htag "[Mobile]") (ex_intro _ "Mobile" eq_refl))|].
  reflexivity.
Defined.

Lemma tag_lookup_witness :
  In Examples.tagReact (TagColl Examples.board)
  /\ AsciiCase.toLowerCase (tag_name Examples.tagReact)
     = tag_name Examples.tagReact
  /\ AsciiCase.toLowerCase "ReAct"
     = AsciiCase.toLowerCase (tag_name Examples.tagReact)
  /\ (exists ids,
         findTagIds Examples.board [AsciiCase.toLowerCase "ReAct"] = Some ids
         /\ In (tag_id Examples.tagReact) ids)
  /\ findTagIds Examples.board (map AsciiCase.toLowerCase ["ReAct"; "Vue"])
     = Some ["t1"]
  /\ (exists t term,
         In t (TagColl Examples.board) /\ tag_id t = "t1"
         /\ In term ["ReAct"; "Vue"]
         /\ tag_name t = AsciiCase.toLowerCase term)
  /\ In (tag_name Examples.tagReact)
        (tagSearchTerms
           (parseSearchTerms AsciiCase.toLowerCase "[React] hooks"))
  /\ (exists body,
         tag_name Examples.tagReact = AsciiCase.toLowerCase body)
  /\ (forall u, AsciiCase.toLowerCase (AsciiCase.toLowerCase u)
                = AsciiCase.toLowerCase u)
  /\ AsciiCase.toLowerCase (tag_name Examples.tagMixedCase)
     <> tag_name Examples.tagMixedCase
  /\ ~ In (tag_name Examples.tagMixedCase)
          (tagSearchTerms
             (parseSearchTerms AsciiCase.toLowerCase "[React] [react]")).
Proof.
  assert (H1 : In Examples.tagReact (TagColl Examples.board)) by (now left).
  assert (H0 : AsciiCase.toLowerCase (tag_name Examples.tagReact)
               = tag_name Examples.tagReact) by reflexivity.
  assert (H2 : AsciiCase.toLowerCase "ReAct"
               = AsciiCase.toLowerCase (tag_name Examples.tagReact))
    by reflexivity.
  assert (H3 : findTagIds Examples.board
                 (map AsciiCase.toLowerCase ["ReAct"; "Vue"]) = Some ["t1"])
    by reflexivity.
  assert (H4 : In "t1" ["t1"]) by (now left).
  assert (H5 : In (tag_name Examples.tagReact)
                  (tagSearchTerms
                     (parseSearchTerms AsciiCase.toLowerCase "[React] hooks")))
    by (now left).
  assert (H6 : AsciiCase.toLowerCase (tag_name Examples.tagMixedCase)
               <> tag_name Examples.tagMixedCase) by discriminate.
  pose proof (tag_lookup_exact_on_lowered_term AsciiCase.toLowerCase
                Examples.board) as (P1 & P2 & P3 & _).
  pose proof (tag_lookup_exact_on_lowered_term AsciiCase.toLowerCase
                Examples.mixedCaseBoard) as (_ & _ & _ & P4).
  split; [exact H1|]. split; [exact H0|]. split; [exact H2|].
  split; [exact (P1 Examples.tagReact "ReAct" H1 H0 H2)|].
  split; [exact H3|].
  split; [exact (P2 ["ReAct"; "Vue"] ["t1"] "t1" H3 H4)|].
  split; [exact H5|].
  split; [exact (P3 Examples.tagReact "[React] hooks" H5)|].
  split; [exact ascii_toLowerCase_twice|].
  split; [exact H6|].
  exact (P4 ascii_toLowerCase_twice Examples.tagMixedCase "[React] [react]" H6).
Defined.

(* ------------------------------------------------------------------ *)
(** ** The reads and writes at concrete inputs *)
(* ------------------------------------------------------------------ *)

Lemma getLatestAnswerDate_witness :
  getLatestAnswerDate [Examples.answerOld; Examples.answerRecent] = Some 300
  /\ In 300 (map ans_date_time [Examples.answerOld; Examples.answerRecent])
  /\ forall a, In a [Examples.answerOld; Examples.answerRecent] ->
               ans_date_time a <= 300.
Proof.
  assert (E : getLatestAnswerDate [Examples.answerOld; Examples.answerRecent]
              = Some 300) by reflexivity.
  split; [exact E|].
  exact (proj2 (getLatestAnswerDate_is_max
                  [Examples.answerOld; Examples.answerRecent]) 300 E).
Defined.

Lemma getMostRecent_witness :
  In Examples.answerRecent (getMostRecent Examples.board ["a1"; "a2"; "zz"])
  /\ In Examples.answerRecent (AnswerColl Examples.board)
  /\ In (ans_id Examples.answerRecent) ["a1"; "a2"; "zz"]
  /\ forall b, In b (AnswerColl Examples.board) ->
               In (ans_id b) ["a1"; "a2"; "zz"] ->
               ans_date_time b <= ans_date_time Examples.answerRecent.
Proof.
  assert (Hin : In Examples.answerRecent
                   (getMostRecent Examples.board ["a1"; "a2"; "zz"]))
    by (left; reflexivity).
  split; [exact Hin|].
  exact (proj2 (proj2 (getMostRecent_spec Examples.board ["a1"; "a2"; "zz"]))
               Examples.answerRecent Hin).
Defined.

Lemma findOrCreateMany_finds_witness :
  findOrCreateMany Samples.freshTag Examples.board
                   ["react"; "typescript"; "react"]
  = (mkStore (QuestionColl Examples.board) (AnswerColl Examples.board)
             (TagColl Examples.board ++ [mkTag "n0" "typescript"]),
     Done [Examples.tagReact; mkTag "n0" "typescript"])
  /\ In "typescript" ["react"; "typescript"; "react"]
  /\ exists t, In t [Examples.tagReact; mkTag "n0" "typescript"]
               /\ tag_name t = "typescript".
Proof.
  assert (E : findOrCreateMany Samples.freshTag Examples.board
                               ["react"; "typescript"; "react"]
              = (mkStore (QuestionColl Examples.board)
                         (AnswerColl Examples.board)
                         (TagColl Examples.board ++ [mkTag "n0" "typescript"]),
                 Done [Examples.tagReact; mkTag "n0" "typescript"]))
    by reflexivity.
  assert (Hin : In "typescript" ["react"; "typescript"; "react"])
    by (right; left; reflexivity).
  split; [exact E|]. split; [exact Hin|].
  exact (proj1 (findOrCreateMany_finds_every_name _ _ _ _ _ E)
               "typescript" Hin).
Defined.

Lemma findOrCreateMany_creates_witness :
  findOrCreateMany Samples.freshTag Examples.board
                   ["react"; "typescript"; "react"]
  = (mkStore (QuestionColl Examples.board) (AnswerColl Examples.board)
             (TagColl Examples.board ++ [mkTag "n0" "typescript"]),
     Done [Examples.tagReact; mkTag "n0" "typescript"])
  /\ exists added,
       TagColl Examples.board ++ [mkTag "n0" "typescript"]
       = TagColl Examples.board ++ added
       /\ NoDup (map tag_name added).
Proof.
  assert (E : findOrCreateMany Samples.freshTag Examples.board
                               ["react"; "typescript"; "react"]
              = (mkStore (QuestionColl Examples.board)
                         (AnswerColl Examples.board)
                         (TagColl Examples.board ++ [mkTag "n0" "typescript"]),
                 Done [Examples.tagReact; mkTag "n0" "typescript"]))
    by reflexivity.
  split; [exact E|].
  destruct (findOrCreateMany_creates_only_missing _ _ _ _ _ E)
    as (added & H1 & H2 & _).
  exists added. split; [exact H1 | exact H2].
Defined.

Lemma findOrCreateMany_twice_witness :
  findOrCreateMany Samples.freshTag Examples.board
                   ["react"; "typescript"; "react"]
  = (mkStore (QuestionColl Examples.board) (AnswerColl Examples.board)
             (TagColl Examples.board ++ [mkTag "n0" "typescript"]),
     Done [Examples.tagReact; mkTag "n0" "typescript"])
  /\ findOrCreateMany Samples.freshTag
       (mkStore (QuestionColl Examples.board) (AnswerColl Examples.board)
                (TagColl Examples.board ++ [mkTag "n0" "typescript"]))
       ["react"; "typescript"; "react"]
     = (mkStore (QuestionColl Examples.board) (AnswerColl Examples.board)
                (TagColl Examples.board ++ [mkTag "n0" "typescript"]),
        Done [Examples.tagReact; mkTag "n0" "typescript"]).
Proof.
  assert (E : findOrCreateMany Samples.freshTag Examples.board
                               ["react"; "typescript"; "react"]
              = (mkStore (QuestionColl Examples.board)
                         (AnswerColl Examples.board)
                         (TagColl Examples.board ++ [mkTag "n0" "typescript"]),
                 Done [Examples.tagReact; mkTag "n0" "typescript"]))
    by reflexivity.
  split; [exact E|].
  exact (findOrCreateMany_twice Samples.freshTag Samples.freshTag _ _ _ _ E).
Defined.

Lemma findOrCreateMany_unique_witness :
  NoDup (map tag_name (TagColl Examples.board))
  /\ findOrCreateMany Samples.freshTag Examples.board
                      ["react"; "typescript"; "react"]
     = (mkStore (QuestionColl Examples.board) (AnswerColl Examples.board)
                (TagColl Examples.board ++ [mkTag "n0" "typescript"]),
        Done [Examples.tagReact; mkTag "n0" "typescript"])
  /\ NoDup (map tag_name (TagColl Examples.board ++ [mkTag "n0" "typescript"])).
Proof.
  assert (Hnd : NoDup (map tag_name (TagColl Examples.board))).
  { constructor; [intros [H|[]]; discriminate H|].
    constructor; [intros []|constructor]. }
  assert (E : findOrCreateMany Samples.freshTag Examples.board
                               ["react"; "typescript"; "react"]
              = (mkStore (QuestionColl Examples.board)
                         (AnswerColl Examples.board)
                         (TagColl Examples.board ++ [mkTag "n0" "typescript"]),
                 Done [Examples.tagReact; mkTag "n0" "typescript"]))
    by reflexivity.
  split; [exact Hnd|]. split; [exact E|].
  exact (findOrCreateMany_keeps_names_unique _ _ _ _ _ Hnd E).
Defined.

Lemma findOrCreateMany_empty_name_witness :
  In "" ["typescript"; ""]
  /\ ~ In "" (map tag_name (TagColl Examples.board))
  /\ exists s' e,
       findOrCreateMany Samples.freshTag Examples.board ["typescript"; ""]
       = (s', Failed e).
Proof.
  assert (H1 : In "" ["typescript"; ""]) by (right; left; reflexivity).
  assert (H2 : ~ In "" (map tag_name (TagColl Examples.board))).
  { intros [H|[H|[]]]; discriminate H. }
  split; [exact H1|]. split; [exact H2|].
  exact (proj2 (proj1 (findOrCreateMany_empty_name
                         Samples.freshTag Examples.board ["typescript"; ""]))
               (conj H1 H2)).
Defined.

Lemma validateTags_witness :
  NoDup (map tag_id (TagColl Examples.board))
  /\ validateTags Examples.board ["t2"; "t1"] = true
  /\ NoDup ["t2"; "t1"]
  /\ forall id, In id ["t2"; "t1"] ->
                exists t, In t (TagColl Examples.board) /\ tag_id t = id.
Proof.
  assert (Hnd : NoDup (map tag_id (TagColl Examples.board))).
  { constructor; [intros [H|[]]; discriminate H|].
    constructor; [intros []|constructor]. }
  assert (E : validateTags Examples.board ["t2"; "t1"] = true) by reflexivity.
  split; [exact Hnd|]. split; [exact E|].
  exact (proj1 (validateTags_iff Examples.board ["t2"; "t1"] Hnd) E).
Defined.

Lemma tag_count_witness :
  In Examples.tagReact (TagColl Examples.board)
  /\ AsciiCase.toLowerCase (tag_name Examples.tagReact)
     = tag_name Examples.tagReact
  /\ ~ In " "%char (list_ascii_of_string (tag_name Examples.tagReact))
  /\ (forall t', In t' (TagColl Examples.board) ->
                 tag_name t' = tag_name Examples.tagReact ->
                 tag_id t' = tag_id Examples.tagReact)
  /\ Some "active" <> Some "unanswered"
  /\ exists found,
       getQuestions AsciiCase.toLowerCase RegExpFragment.valid
         RegExpFragment.test Samples.Plain
         Samples.plainQuestion Examples.title1 Examples.title2 Examples.title3
         Examples.board (Some "active") (Some "[react]")
       = Ok found
       /\ In (mkTagCount "react" (List.length found))
             (getTagsWithQuestionNumber Examples.board).
Proof.
  assert (H1 : In Examples.tagReact (TagColl Examples.board))
    by (left; reflexivity).
  assert (H2 : AsciiCase.toLowerCase (tag_name Examples.tagReact)
               = tag_name Examples.tagReact)
    by reflexivity.
  assert (H3 : ~ In " "%char (list_ascii_of_string (tag_name Examples.tagReact))).
  { intros [H|[H|[H|[H|[H|[]]]]]]; discriminate H. }
  assert (H4 : forall t', In t' (TagColl Examples.board) ->
                          tag_name t' = tag_name Examples.tagReact ->
                          tag_id t' = tag_id Examples.tagReact).
  { intros t' [<-|[<-|[]]] E; [reflexivity | discriminate E]. }
  assert (H5 : Some "active" <> Some "unanswered") by discriminate.
  split; [exact H1|]. split; [exact H2|]. split; [exact H3|].
  split; [exact H4|]. split; [exact H5|].
  exact (tag_count_matches_tag_search AsciiCase.toLowerCase
           RegExpFragment.valid RegExpFragment.test Samples.Plain
           Samples.plainQuestion Examples.title1 Examples.title2
           Examples.title3 Examples.board Examples.tagReact (Some "active")
           H1 H2 H3 H4 H5).
Defined.


Lemma views_after_n_fetches_witness :
  findById Samples.cast Examples.board "q1" = Done (Some Examples.rowHooks)
  /\ findById Samples.cast
       (fetchTimes Samples.Plain Samples.plainQuestion Samples.cast 3
                   Examples.board "q1") "q1"
     = Done (Some (mkRow "q1" "How to use hooks" "useState question" "carl"
                         100 3 ["a2"] ["t1"])).
Proof.
  assert (H1 : findById Samples.cast Examples.board "q1"
               = Done (Some Examples.rowHooks)) by reflexivity.
  split; [exact H1|].
  exact (views_after_n_fetches Samples.Plain Samples.plainQuestion
                               Samples.cast 3 Examples.board "q1"
                               Examples.rowHooks H1).
Defined.

Lemma getQuestionById_answers_witness :
  findById Samples.cast Examples.board "q1" = Done (Some Examples.rowHooks)
  /\ exists s' q docs,
       findByIdAndIncrementViews Samples.cast Examples.board "q1"
       = (s', Done (Some q))
       /\ answers q = map AnswerDoc docs
       /\ SpecWords.sortedDescBy ans_date_time docs.
Proof.
  assert (H1 : findById Samples.cast Examples.board "q1"
               = Done (Some Examples.rowHooks)) by reflexivity.
  split; [exact H1|].
  destruct (getQuestionById_answers_newest_first
              Samples.cast Examples.board "q1" Examples.rowHooks H1)
    as (s' & q & docs & E & Ha & Hs & _).
  exists s', q, docs. split; [exact E|]. split; [exact Ha | exact Hs].
Defined.

Lemma addAnswer_appends_witness :
  Samples.clock (ad_ans_date_time Samples.answerNow) = Some 400
  /\ ad_text Samples.answerNow <> ""
  /\ ad_ans_by Samples.answerNow <> ""
  /\ findById Samples.cast Examples.board "q2" = Done (Some Examples.rowSorting)
  /\ exists s',
       AnswerRepository_addAnswer Samples.Plain Samples.cast Samples.clock
         Samples.plainAnswer "a3" Examples.board "q2" Samples.answerNow
       = (s', Done (Some (Samples.plainAnswer Samples.answerSaved)))
       /\ AnswerColl s' = AnswerColl Examples.board ++ [Samples.answerSaved]
       /\ findById Samples.cast s' "q2"
          = Done (Some Samples.rowSortingAnswered).
Proof.
  assert (H1 : Samples.clock (ad_ans_date_time Samples.answerNow) = Some 400)
    by reflexivity.
  assert (H2 : ad_text Samples.answerNow <> "") by discriminate.
  assert (H3 : ad_ans_by Samples.answerNow <> "") by discriminate.
  assert (H4 : findById Samples.cast Examples.board "q2"
               = Done (Some Examples.rowSorting)) by reflexivity.
  split; [exact H1|]. split; [exact H2|]. split; [exact H3|].
  split; [exact H4|].
  destruct (addAnswer_appends Samples.Plain Samples.cast Samples.clock
              Samples.plainAnswer "a3" Examples.board "q2" Samples.answerNow
              400 Examples.rowSorting H1 H2 H3 H4)
    as (s' & E & Ha & Hf & _).
  exists s'. split; [exact E|]. split; [exact Ha | exact Hf].
Defined.

Lemma addAnswer_unknown_question_witness :
  Samples.clock (ad_ans_date_time Samples.answerNow) = Some 400
  /\ ad_text Samples.answerNow <> ""
  /\ ad_ans_by Samples.answerNow <> ""
  /\ (forall r, findById Samples.cast Examples.board "zz" <> Done (Some r))
  /\ exists s' out,
       AnswerRepository_addAnswer Samples.Plain Samples.cast Samples.clock
         Samples.plainAnswer "a3" Examples.board "zz" Samples.answerNow
       = (s', out)
       /\ (out = Done None \/ out = Failed CastError)
       /\ AnswerColl s' = AnswerColl Examples.board ++ [Samples.answerSaved]
       /\ QuestionColl s' = QuestionColl Examples.board.
Proof.
  assert (H1 : Samples.clock (ad_ans_date_time Samples.answerNow) = Some 400)
    by reflexivity.
  assert (H2 : ad_text Samples.answerNow <> "") by discriminate.
  assert (H3 : ad_ans_by Samples.answerNow <> "") by discriminate.
  assert (H4 : forall r, findById Samples.cast Examples.board "zz"
                         <> Done (Some r)).
  { intros r H. change (Done None = Done (Some r)) in H. discriminate H. }
  split; [exact H1|]. split; [exact H2|]. split; [exact H3|].
  split; [exact H4|].
  destruct (addAnswer_unknown_question_keeps_answer
              Samples.Plain Samples.cast Samples.clock Samples.plainAnswer
              "a3" Examples.board "zz" Samples.answerNow 400 H1 H2 H3 H4)
    as (s' & out & E & _ & _ & Ho & Ha & Hq & _).
  exists s', out. split; [exact E|]. split; [exact Ho|].
  split; [exact Ha | exact Hq].
Defined.

Lemma addAnswer_invalid_witness :
  (ad_text Samples.answerNoText = "" \/ ad_ans_by Samples.answerNoText = ""
   \/ Samples.clock (ad_ans_date_time Samples.answerNoText) = None)
  /\ exists s',
       AnswerRepository_addAnswer Samples.Plain Samples.cast Samples.clock
         Samples.plainAnswer "a3" Examples.board "q2" Samples.answerNoText
       = (s', Failed ValidationError).
Proof.
  assert (H1 : ad_text Samples.answerNoText = ""
               \/ ad_ans_by Samples.answerNoText = ""
               \/ Samples.clock (ad_ans_date_time Samples.answerNoText) = None)
    by (left; reflexivity).
  split; [exact H1|].
  exact (proj2 (proj1 (addAnswer_invalid_writes_nothing
                         Samples.Plain Samples.cast Samples.clock
                         Samples.plainAnswer "a3" Examples.board "q2"
                         Samples.answerNoText))
               H1).
Defined.

Lemma addAnswer_updates_activity_witness :
  Samples.clock (ad_ans_date_time Samples.answerNow) = Some 400
  /\ ad_text Samples.answerNow <> ""
  /\ ad_ans_by Samples.answerNow <> ""
  /\ findById Samples.cast Examples.board "q2" = Done (Some Examples.rowSorting)
  /\ findAnswerById Examples.board "a3" = None
  /\ ~ In "a3" (row_answers Examples.rowSorting)
  /\ exists s' out r',
       AnswerRepository_addAnswer Samples.Plain Samples.cast Samples.clock
         Samples.plainAnswer "a3" Examples.board "q2" Samples.answerNow
       = (s', out)
       /\ findById Samples.cast s' "q2" = Done (Some r')
       /\ mostRecentActivity (loadWithTagsAndAnswers s' r')
          = Z.max (mostRecentActivity
                     (loadWithTagsAndAnswers Examples.board Examples.rowSorting))
                  400.
Proof.
  assert (H1 : Samples.clock (ad_ans_date_time Samples.answerNow) = Some 400)
    by reflexivity.
  assert (H2 : ad_text Samples.answerNow <> "") by discriminate.
  assert (H3 : ad_ans_by Samples.answerNow <> "") by discriminate.
  assert (H4 : findById Samples.cast Examples.board "q2"
               = Done (Some Examples.rowSorting)) by reflexivity.
  assert (H5 : findAnswerById Examples.board "a3" = None) by reflexivity.
  assert (H6 : ~ In "a3" (row_answers Examples.rowSorting)) by (intros []).
  split; [exact H1|]. split; [exact H2|]. split; [exact H3|].
  split; [exact H4|]. split; [exact H5|]. split; [exact H6|].
  exact (addAnswer_updates_activity
           Samples.Plain Samples.cast Samples.clock Samples.plainAnswer
           "a3" Examples.board "q2" Samples.answerNow 400 Examples.rowSorting
           H1 H2 H3 H4 H5 H6).
Defined.

Lemma addAnswer_most_active_witness :
  Samples.clock (ad_ans_date_time Samples.answerNow) = Some 400
  /\ ad_text Samples.answerNow <> ""
  /\ ad_ans_by Samples.answerNow <> ""
  /\ findById Samples.cast Examples.board "q2" = Done (Some Examples.rowSorting)
  /\ findAnswerById Examples.board "a3" = None
  /\ (forall x, In x (QuestionColl Examples.board) ->
                ~ In "a3" (row_answers x))
  /\ (forall x, In x (QuestionColl Examples.board) ->
                mostRecentActivity (loadWithTagsAndAnswers Examples.board x)
                < 400)
  /\ exists s' out r' rest,
       AnswerRepository_addAnswer Samples.Plain Samples.cast Samples.clock
         Samples.plainAnswer "a3" Examples.board "q2" Samples.answerNow
       = (s', out)
       /\ findById Samples.cast s' "q2" = Done (Some r')
       /\ getQuestions AsciiCase.toLowerCase RegExpFragment.valid
            RegExpFragment.test Samples.Plain
            Samples.plainQuestion Examples.title1 Examples.title2
            Examples.title3 s' (Some "active") None
          = Ok (Samples.plainQuestion (loadWithTagsAndAnswers s' r')
                :: map Samples.plainQuestion rest)
       /\ mostRecentActivity (loadWithTagsAndAnswers s' r') = 400.
Proof.
  assert (H1 : Samples.clock (ad_ans_date_time Samples.answerNow) = Some 400)
    by reflexivity.
  assert (H2 : ad_text Samples.answerNow <> "") by discriminate.
  assert (H3 : ad_ans_by Samples.answerNow <> "") by discriminate.
  assert (H4 : findById Samples.cast Examples.board "q2"
               = Done (Some Examples.rowSorting)) by reflexivity.
  assert (H5 : findAnswerById Examples.board "a3" = None) by reflexivity.
  assert (H6 : forall x, In x (QuestionColl Examples.board) ->
                         ~ In "a3" (row_answers x)).
  { intros x [<-|[<-|[<-|[]]]] H.
    - destruct H as [H|[]]. discriminate H.
    - destruct H.
    - destruct H as [H|[]]. discriminate H. }
  assert (H7 : forall x, In x (QuestionColl Examples.board) ->
                         mostRecentActivity
                           (loadWithTagsAndAnswers Examples.board x) < 400).
  { intros x [<-|[<-|[<-|[]]]]; reflexivity. }
  split; [exact H1|]. split; [exact H2|]. split; [exact H3|].
  split; [exact H4|]. split; [exact H5|]. split; [exact H6|].
  split; [exact H7|].
  exact (addAnswer_makes_question_most_active AsciiCase.toLowerCase
           RegExpFragment.valid RegExpFragment.test Samples.Plain
           Samples.plainQuestion Examples.title1 Examples.title2
           Examples.title3 Samples.cast Samples.clock Samples.plainAnswer
           "a3" Examples.board "q2" Samples.answerNow 400 Examples.rowSorting
           H1 H2 H3 H4 H5 H6 H7).
Defined.

Lemma addQuestion_stores_witness :
  questionService_addQuestion Samples.Plain Samples.plainQuestion
    Samples.clock Samples.freshTag "q4" Examples.board Samples.questionNow
  = (Samples.boardWithQuestion,
     Done (Samples.plainQuestion
             (loadWithTags Samples.boardWithQuestion Samples.rowTyping)))
  /\ exists d tagIds,
       Samples.clock (nq_ask_date_time Samples.questionNow) = Some d
       /\ QuestionColl Samples.boardWithQuestion
          = QuestionColl Examples.board
            ++ [mkRow "q4" "Typing props" "How are props typed?" "hugo" d 0 []
                      tagIds].
Proof.
  assert (E : questionService_addQuestion Samples.Plain Samples.plainQuestion
                Samples.clock Samples.freshTag "q4" Examples.board
                Samples.questionNow
              = (Samples.boardWithQuestion,
                 Done (Samples.plainQuestion
                         (loadWithTags Samples.boardWithQuestion
                                       Samples.rowTyping))))
    by reflexivity.
  split; [exact E|].
  destruct (addQuestion_stores_question _ _ _ _ _ _ _ _ _ E)
    as (d & tagIds & Hd & Hq & _).
  exists d, tagIds. split; [exact Hd | exact Hq].
Defined.

Lemma addQuestion_failure_witness :
  ~ (In "" (map ti_name (nq_tags Samples.questionNoTitle))
     /\ ~ In "" (map tag_name (TagColl Examples.board)))
  /\ (nq_title Samples.questionNoTitle = ""
      \/ nq_text Samples.questionNoTitle = ""
      \/ nq_asked_by Samples.questionNoTitle = ""
      \/ Samples.clock (nq_ask_date_time Samples.questionNoTitle) = None)
  /\ (exists s' added,
        questionService_addQuestion Samples.Plain Samples.plainQuestion
          Samples.clock Samples.freshTag "q4" Examples.board
          Samples.questionNoTitle
        = (s', Failed ValidationError)
        /\ QuestionColl s' = QuestionColl Examples.board
        /\ TagColl s' = TagColl Examples.board ++ added)
  /\ In "" (map ti_name (nq_tags Samples.questionEmptyTag))
  /\ ~ In "" (map tag_name (TagColl Examples.board))
  /\ questionService_addQuestion Samples.Plain Samples.plainQuestion
       Samples.clock Samples.freshTag "q4" Examples.board
       Samples.questionEmptyTag
     = (Examples.board, Failed ValidationError).
Proof.
  assert (H1 : ~ (In "" (map ti_name (nq_tags Samples.questionNoTitle))
                  /\ ~ In "" (map tag_name (TagColl Examples.board)))).
  { intros [[H|[H|[]]] _]; discriminate H. }
  assert (H2 : nq_title Samples.questionNoTitle = ""
               \/ nq_text Samples.questionNoTitle = ""
               \/ nq_asked_by Samples.questionNoTitle = ""
               \/ Samples.clock (nq_ask_date_time Samples.questionNoTitle)
                  = None) by (left; reflexivity).
  assert (H3 : In "" (map ti_name (nq_tags Samples.questionEmptyTag)))
    by (right; left; reflexivity).
  assert (H4 : ~ In "" (map tag_name (TagColl Examples.board))).
  { intros [H|[H|[]]]; discriminate H. }
  split; [exact H1|]. split; [exact H2|]. split.
  { destruct (proj1 (addQuestion_failure_keeps_new_tags
                       Samples.Plain Samples.plainQuestion Samples.clock
                       Samples.freshTag "q4" Examples.board
                       Samples.questionNoTitle) H1 H2)
      as (s' & added & E & Hq & Ht & _).
    exists s', added. split; [exact E|]. split; [exact Hq | exact Ht]. }
  split; [exact H3|]. split; [exact H4|].
  exact (proj2 (addQuestion_failure_keeps_new_tags
                  Samples.Plain Samples.plainQuestion Samples.clock
                  Samples.freshTag "q4" Examples.board
                  Samples.questionEmptyTag) H3 H4).
Defined.

Lemma addQuestion_found_witness :
  questionService_addQuestion Samples.Plain Samples.plainQuestion
    Samples.clock Samples.freshTag "q4" Examples.board Samples.questionNow
  = (Samples.boardWithQuestion,
     Done (Samples.plainQuestion
             (loadWithTags Samples.boardWithQuestion Samples.rowTyping)))
  /\ In "typescript" (map ti_name (nq_tags Samples.questionNow))
  /\ AsciiCase.toLowerCase "typescript" = "typescript"
  /\ ~ In " "%char (list_ascii_of_string "typescript")
  /\ exists found,
       getQuestions AsciiCase.toLowerCase RegExpFragment.valid
         RegExpFragment.test Samples.Plain
         Samples.plainQuestion Examples.title1 Examples.title2 Examples.title3
         Samples.boardWithQuestion (Some "unanswered") (Some "[typescript]")
       = Ok found
       /\ In (Samples.plainQuestion
                (loadWithTags Samples.boardWithQuestion Samples.rowTyping))
             found.
Proof.
  assert (E : questionService_addQuestion Samples.Plain Samples.plainQuestion
                Samples.clock Samples.freshTag "q4" Examples.board
                Samples.questionNow
              = (Samples.boardWithQuestion,
                 Done (Samples.plainQuestion
                         (loadWithTags Samples.boardWithQuestion
                                       Samples.rowTyping))))
    by reflexivity.
  assert (H1 : In "typescript" (map ti_name (nq_tags Samples.questionNow)))
    by (right; left; reflexivity).
  assert (H2 : AsciiCase.toLowerCase "typescript" = "typescript")
    by reflexivity.
  assert (H3 : ~ In " "%char (list_ascii_of_string "typescript")).
  { intros [H|[H|[H|[H|[H|[H|[H|[H|[H|[H|[]]]]]]]]]]]; discriminate H. }
  split; [exact E|]. split; [exact H1|]. split; [exact H2|].
  split; [exact H3|].
  exact (addQuestion_found_by_tag_search AsciiCase.toLowerCase
           RegExpFragment.valid RegExpFragment.test Samples.Plain
           Samples.plainQuestion Examples.title1 Examples.title2
           Examples.title3 Samples.clock Samples.freshTag "q4" Examples.board
           Samples.boardWithQuestion Samples.questionNow _ "typescript"
           (Some "unanswered") E H1 H2 H3).
Defined.

Lemma addQuestion_then_fetch_witness :
  questionService_addQuestion Samples.Plain Samples.plainQuestion
    Samples.clock Samples.freshTag "q4" Examples.board Samples.questionNow
  = (Samples.boardWithQuestion,
     Done (Samples.plainQuestion
             (loadWithTags Samples.boardWithQuestion Samples.rowTyping)))
  /\ Samples.cast "q4" = Some "q4"
  /\ (forall x, In x (QuestionColl Examples.board) -> row_id x <> "q4")
  /\ exists s'' d tgs,
       Samples.clock (nq_ask_date_time Samples.questionNow) = Some d
       /\ questionService_getQuestionById Samples.Plain Samples.plainQuestion
            Samples.cast Samples.boardWithQuestion "q4"
          = (s'', Done (Some (Samples.plainQuestion
                                (mkQuestion "q4" "Typing props"
                                            "How are props typed?" "hugo"
                                            d 1 [] tgs)))).
Proof.
  assert (E : questionService_addQuestion Samples.Plain Samples.plainQuestion
                Samples.clock Samples.freshTag "q4" Examples.board
                Samples.questionNow
              = (Samples.boardWithQuestion,
                 Done (Samples.plainQuestion
                         (loadWithTags Samples.boardWithQuestion
                                       Samples.rowTyping))))
    by reflexivity.
  assert (H1 : Samples.cast "q4" = Some "q4") by reflexivity.
  assert (H2 : forall x, In x (QuestionColl Examples.board) ->
                         row_id x <> "q4").
  { intros x [<-|[<-|[<-|[]]]]; discriminate. }
  split; [exact E|]. split; [exact H1|]. split; [exact H2|].
  exact (addQuestion_then_fetch
           Samples.Plain Samples.plainQuestion Samples.cast Samples.clock
           Samples.freshTag "q4" Examples.board Samples.boardWithQuestion
           Samples.questionNow _ "q4" E H1 H2).
Defined.

Lemma addQuestion_tag_counts_witness :
  questionService_addQuestion Samples.Plain Samples.plainQuestion
    Samples.clock Samples.freshTag "q4" Examples.board Samples.questionNow
  = (Samples.boardWithQuestion,
     Done (Samples.plainQuestion
             (loadWithTags Samples.boardWithQuestion Samples.rowTyping)))
  /\ NoDup (map tag_id (TagColl Samples.boardWithQuestion))
  /\ In Examples.tagReact (TagColl Samples.boardWithQuestion)
  /\ countQuestionsWithTag Samples.boardWithQuestion "t1"
     = (countQuestionsWithTag Examples.board "t1" + 1)%nat.
Proof.
  assert (E : questionService_addQuestion Samples.Plain Samples.plainQuestion
                Samples.clock Samples.freshTag "q4" Examples.board
                Samples.questionNow
              = (Samples.boardWithQuestion,
                 Done (Samples.plainQuestion
                         (loadWithTags Samples.boardWithQuestion
                                       Samples.rowTyping))))
    by reflexivity.
  assert (H1 : NoDup (map tag_id (TagColl Samples.boardWithQuestion))).
  { constructor; [intros [H|[H|[]]]; discriminate H|].
    constructor; [intros [H|[]]; discriminate H|].
    constructor; [intros []|constructor]. }
  assert (H2 : In Examples.tagReact (TagColl Samples.boardWithQuestion))
    by (left; reflexivity).
  split; [exact E|]. split; [exact H1|]. split; [exact H2|].
  exact (addQuestion_raises_tag_counts
           Samples.Plain Samples.plainQuestion Samples.clock Samples.freshTag
           "q4" Examples.board Samples.boardWithQuestion Samples.questionNow
           _ Examples.tagReact E H1 H2).
Defined.

Lemma addQuestion_newest_first_witness :
  questionService_addQuestion Samples.Plain Samples.plainQuestion
    Samples.clock Samples.freshTag "q4" Examples.board Samples.questionNow
  = (Samples.boardWithQuestion,
     Done (Samples.plainQuestion
             (loadWithTags Samples.boardWithQuestion Samples.rowTyping)))
  /\ Samples.clock (nq_ask_date_time Samples.questionNow) = Some 400
  /\ (forall x, In x (QuestionColl Examples.board) ->
                row_ask_date_time x < 400)
  /\ (None : option string) <> Some "active"
  /\ exists rest,
       getQuestions AsciiCase.toLowerCase RegExpFragment.valid
         RegExpFragment.test Samples.Plain
         Samples.plainQuestion Examples.title1 Examples.title2 Examples.title3
         Samples.boardWithQuestion None None
       = Ok (Samples.plainQuestion
               (loadWithTags Samples.boardWithQuestion Samples.rowTyping)
             :: rest).
Proof.
  assert (E : questionService_addQuestion Samples.Plain Samples.plainQuestion
                Samples.clock Samples.freshTag "q4" Examples.board
                Samples.questionNow
              = (Samples.boardWithQuestion,
                 Done (Samples.plainQuestion
                         (loadWithTags Samples.boardWithQuestion
                                       Samples.rowTyping))))
    by reflexivity.
  assert (H1 : Samples.clock (nq_ask_date_time Samples.questionNow) = Some 400)
    by reflexivity.
  assert (H2 : forall x, In x (QuestionColl Examples.board) ->
                         row_ask_date_time x < 400).
  { intros x [<-|[<-|[<-|[]]]]; reflexivity. }
  assert (H3 : (None : option string) <> Some "active") by discriminate.
  split; [exact E|]. split; [exact H1|]. split; [exact H2|].
  split; [exact H3|].
  exact (addQuestion_newest_first AsciiCase.toLowerCase
           RegExpFragment.valid RegExpFragment.test Samples.Plain
           Samples.plainQuestion Examples.title1 Examples.title2
           Examples.title3 Samples.clock Samples.freshTag "q4" Examples.board
           Samples.boardWithQuestion Samples.questionNow _ 400 None
           E H1 H2 H3).
Defined.

Lemma fetch_keeps_search_witness :
  QuestionRepository_getQuestionById Samples.Plain Samples.plainQuestion
    Samples.cast Examples.board "q1"
  = (mkStore [mkRow "q1" "How to use hooks" "useState question" "carl" 100 1
                    ["a2"] ["t1"];
              Examples.rowSorting; Examples.rowAbc]
             (AnswerColl Examples.board) (TagColl Examples.board),
     snd (QuestionRepository_getQuestionById Samples.Plain
            Samples.plainQuestion Samples.cast Examples.board "q1"))
  /\ map q_id
         (rawQuestionsByOrder RegExpFragment.test
            (mkStore [mkRow "q1" "How to use hooks" "useState question" "carl"
                            100 1 ["a2"] ["t1"];
                      Examples.rowSorting; Examples.rowAbc]
                     (AnswerColl Examples.board) (TagColl Examples.board))
            (Some "active"))
     = map q_id (rawQuestionsByOrder RegExpFragment.test Examples.board
                                     (Some "active")).
Proof.
  assert (E : QuestionRepository_getQuestionById Samples.Plain
                Samples.plainQuestion Samples.cast Examples.board "q1"
              = (mkStore [mkRow "q1" "How to use hooks" "useState question"
                                "carl" 100 1 ["a2"] ["t1"];
                          Examples.rowSorting; Examples.rowAbc]
                         (AnswerColl Examples.board) (TagColl Examples.board),
                 snd (QuestionRepository_getQuestionById Samples.Plain
                        Samples.plainQuestion Samples.cast Examples.board
                        "q1"))) by reflexivity.
  split; [exact E|].
  destruct (fetch_keeps_search_results
              RegExpFragment.test Samples.Plain Samples.plainQuestion
              Samples.cast Examples.board _ "q1" _ emptyQuery (Some "active") E)
    as (_ & H & _).
  apply (f_equal (map q_id)) in H. rewrite !map_map in H. exact H.
Defined.
